(** * YouPower (3dcity): a shallow embedding of the backend models, the
    community routes and the actions controller, with the properties of
    their rating, effort, suggestion, cooperative and rehearsal logic.

    Conventions of the embedding.
    - JavaScript numbers that the code handles here (ratings, effort
      estimates, dates as timestamps, counters) are integers: [Z].
      A value that may be [undefined] is an [option].
    - Mongo ObjectIds and object keys are [string]s.
    - A plain JavaScript object used as a dictionary whose iteration order
      is observable ([_.each], [_.toArray], [_.keys]) is a [JsObject.t]:
      an association list in insertion order with one entry per key.
    - A node-style callback [cb(err, value)] is the value [cbres]:
      [CbErr msg] when the first argument is a string, [CbErrObj name]
      when it is an Error object that Mongoose built (validation,
      duplicate key), [CbOk v] when it is not set.
    - Failures of the database connection itself are not modelled.
    - [new Date()] and [Math.random()] are inputs of the operations. *)

From Stdlib Require Import ZArith.
From stdpp Require Import gmap strings list fin_maps sorting.

Local Open Scope string_scope.
Local Open Scope Z_scope.

(** ** Callback results *)

Inductive cbres (A : Type) : Type :=
| CbErr (msg : string)
| CbErrObj (name : string)
| CbOk (v : A).
Arguments CbErr {A} msg.
Arguments CbErrObj {A} name.
Arguments CbOk {A} v.

(** JavaScript truthiness of a value that is [undefined] or a number. *)
Definition truthy (v : option Z) : bool :=
  match v with
  | Some z => negb (z =? 0)
  | None => false
  end.

(** [_.isNumber] on such a value. *)
Definition isNumber (v : option Z) : bool :=
  match v with Some _ => true | None => false end.

(** ** Plain objects as ordered dictionaries *)

Module JsObject.

Definition t (V : Type) : Type := list (string * V).

Section Ops.
Context {V : Type}.

(** [o[k]] *)
Fixpoint get (k : string) (o : t V) : option V :=
  match o with
  | [] => None
  | (k', v) :: o' => if String.eqb k k' then Some v else get k o'
  end.

(** [o[k] = v]: an existing key keeps its place, a new key goes last. *)
Fixpoint set (k : string) (v : V) (o : t V) : t V :=
  match o with
  | [] => [(k, v)]
  | (k', v') :: o' =>
      if String.eqb k k' then (k, v) :: o' else (k', v') :: set k v o'
  end.

(** [_.keys(o)] *)
Definition keys (o : t V) : list string := map fst o.

(** [_.toArray(o)], [_.values(o)] *)
Definition values (o : t V) : list V := map snd o.

(** [_.size(o)] *)
Definition size (o : t V) : nat := length o.

(** [_.each(o, f)] where [f] updates an accumulator captured by the
    closure: the values are visited in iteration order. *)
Definition each {S : Type} (f : S -> V -> S) (o : t V) (s : S) : S :=
  fold_left f (values o) s.

(** One entry per key, as in every JavaScript object. *)
Definition wf (o : t V) : Prop := NoDup (keys o).

(** [toObject()] of Mongoose on a [Mixed] path that holds a plain
    object: the clone takes the keys from the last to the first, so
    they come out in reverse order, and with the [minimize] option, which
    is on unless a schema says otherwise, an object without keys is left
    out. *)
Definition minimized (o : t V) : option (t V) :=
  match o with
  | [] => None
  | _ => Some (rev o)
  end.
End Ops.

End JsObject.

(** ** Query helpers shared by the models *)

(** An id value as the code passes it around: [null], [undefined] or an
    ObjectId (its hexadecimal string). *)
Inductive idval : Type :=
| IdNull
| IdUndefined
| IdStr (s : string).

(** [String(v)], also the property key that [o[v]] uses. *)
Definition String_ (v : idval) : string :=
  match v with
  | IdNull => "null"
  | IdUndefined => "undefined"
  | IdStr s => s
  end.

(** Truthiness of a string. *)
Definition str_truthy (s : string) : bool :=
  match s with EmptyString => false | _ => true end.

(** [.skip(n)] and [.limit(n)] of a query; [null] leaves the result as it
    is, and so does a limit of 0, which to the database is no limit. *)
Definition q_skip {A} (n : option nat) (l : list A) : list A :=
  match n with Some k => drop k l | None => l end.

Definition q_limit {A} (n : option nat) (l : list A) : list A :=
  match n with
  | Some (S k) => take (S k) l
  | Some O | None => l
  end.

(** Stable insertion sort by an integer key; [desc] is the direction of
    [.sort({key: -1})], ascending is the direction of [orderBy]. *)
Fixpoint insert_by {A} (key : A -> Z) (desc : bool) (x : A) (l : list A) : list A :=
  match l with
  | [] => [x]
  | y :: l' =>
      if (if desc then key x <? key y else key y <? key x)
      then y :: insert_by key desc x l'
      else x :: y :: l'
  end.

Definition sort_by {A} (key : A -> Z) (desc : bool) (l : list A) : list A :=
  foldr (insert_by key desc) [] l.

(** The first element that satisfies [p] is replaced by its image. *)
Fixpoint update_first {A} (p : A -> bool) (f : A -> A) (l : list A) : list A :=
  match l with
  | [] => []
  | x :: l' => if p x then f x :: l' else x :: update_first p f l'
  end.

(** ** Users, as the backend sees them *)

Record profile : Type := {
  p_name : option string;
  p_language : option string
}.

(** [user.actions]: one dictionary per status, keyed by action id. *)
Record userActions : Type := {
  ua_done : gmap string Z;
  ua_declined : gmap string Z;
  ua_na : gmap string Z;
  ua_pending : gmap string Z;
  ua_inProgress : gmap string Z
}.

Record userDoc : Type := {
  u_id : option string;
  u_email : string;
  u_profile : option profile;
  u_actions : userActions
}.

Definition id_of (u : userDoc) : idval :=
  match u_id u with Some s => IdStr s | None => IdUndefined end.

(** [_.keys] of a status dictionary. *)
Definition bucket_keys (m : gmap string Z) : list string := (map_to_list m).*1.

(** ** Action comments (models/actionComments.js) *)

Module ActionComments.

Record commentRating : Type := {
  cr_value : option Z;
  cr_date : Z
}.

(** A stored document. *)
Record aComment : Type := {
  c_id : string;
  c_actionId : string;
  c_userId : string;
  c_name : string;
  c_email : string;
  c_comment : string;
  c_date : Z;
  c_hasPicture : bool;
  c_ratings : JsObject.t commentRating
}.

(** The plain object that a callback receives: [toObject()] of a document
    with the fields that [calcRating] adds and removes. *)
Record aCommentObj : Type := {
  co_id : string;
  co_actionId : string;
  co_userId : string;
  co_name : string;
  co_email : string;
  co_comment : string;
  co_date : Z;
  co_hasPicture : bool;
  co_ratings : option (JsObject.t commentRating);
  co_numLikes : option Z;
  co_userRating : option Z
}.

(** [aComment.toObject()]. The rating map is taken as it is stored:
    [calcRating], which every object made here goes through, counts its
    entries, looks one up by its key and deletes the map, so the order
    in which [toObject()] gives the keys and its leaving out of an empty
    map do not show (lemma [calcRating_any_order]). *)
Definition toObject (c : aComment) : aCommentObj :=
  {| co_id := c_id c; co_actionId := c_actionId c; co_userId := c_userId c;
     co_name := c_name c; co_email := c_email c; co_comment := c_comment c;
     co_date := c_date c; co_hasPicture := c_hasPicture c;
     co_ratings := Some (c_ratings c);
     co_numLikes := None; co_userRating := None |}.

Definition calcRating (aComment : aCommentObj) (userId : idval) : aCommentObj :=
  let totalRating :=
    JsObject.each
      (fun totalRating rating =>
         if truthy (cr_value rating) then totalRating + 1 else totalRating)
      (default [] (co_ratings aComment)) 0 in
  let userId := String_ userId in
  let userRating :=
    if str_truthy userId then
      match co_ratings aComment with
      | Some ratings =>
          match JsObject.get userId ratings with
          | Some r => cr_value r
          | None => co_userRating aComment
          end
      | None => co_userRating aComment
      end
    else co_userRating aComment in
  {| co_id := co_id aComment; co_actionId := co_actionId aComment;
     co_userId := co_userId aComment; co_name := co_name aComment;
     co_email := co_email aComment; co_comment := co_comment aComment;
     co_date := co_date aComment; co_hasPicture := co_hasPicture aComment;
     co_ratings := None;
     co_numLikes := Some totalRating;
     co_userRating := userRating |}.

(** [ActionComment.find(q).sort({date: -1}).skip(skip).limit(limit)] *)
Definition find_sorted (q : aComment -> bool) (limit skip : option nat)
    (coll : list aComment) : list aComment :=
  q_limit limit (q_skip skip (sort_by c_date true (filter (fun c => q c = true) coll))).

Definition get (actionId : string) (limit skip : option nat) (user : option userDoc)
    (coll : list aComment) : cbres (list aCommentObj) :=
  let aComments := find_sorted (fun c => String.eqb (c_actionId c) actionId) limit skip coll in
  match aComments with
  | [] => CbOk []
  | _ =>
      let aComments := map toObject aComments in
      CbOk (map (fun aComment =>
                   calcRating aComment
                     (match user with Some u => id_of u | None => IdNull end))
                aComments)
  end.

Definition getByUser (u : userDoc) (limit skip : option nat)
    (coll : list aComment) : cbres (list aCommentObj) :=
  let aComments :=
    find_sorted (fun c => String.eqb (c_userId c) (String_ (id_of u))) limit skip coll in
  match aComments with
  | [] => CbOk []
  | _ =>
      let aComments := map toObject aComments in
      CbOk (map (fun aComment => calcRating aComment (id_of u)) aComments)
  end.

Definition matches (actionId commentId : string) (c : aComment) : bool :=
  String.eqb (c_actionId c) actionId && String.eqb (c_id c) commentId.

Definition set_ratings (r : JsObject.t commentRating) (c : aComment) : aComment :=
  {| c_id := c_id c; c_actionId := c_actionId c; c_userId := c_userId c;
     c_name := c_name c; c_email := c_email c; c_comment := c_comment c;
     c_date := c_date c; c_hasPicture := c_hasPicture c; c_ratings := r |}.

(** [exports.rate]: the result handed to the callback and the collection
    after the call. [now] is [new Date()]. *)
Definition rate (actionId commentId : string) (user : option userDoc)
    (rating : option Z) (now : Z) (coll : list aComment)
  : cbres aCommentObj * list aComment :=
  match user with
  | None => (CbErr "Missing/invalid user", coll)
  | Some u =>
      match u_id u with
      | None => (CbErr "Missing/invalid user", coll)
      | Some uid =>
          match rating with
          | None => (CbErr "Missing/invalid rating", coll)
          | Some r =>
              match find (matches actionId commentId) coll with
              | None => (CbErr "Action comment not found", coll)
              | Some aComment =>
                  if negb (r =? 0) && negb (r =? 1)
                  then (CbErr "invalid rating! should be 0 or 1", coll)
                  else
                    let ratings :=
                      JsObject.set uid {| cr_value := Some r; cr_date := now |}
                        (c_ratings aComment) in
                    let aComment := set_ratings ratings aComment in
                    (CbOk (calcRating (toObject aComment) (IdStr uid)),
                     update_first (matches actionId commentId)
                       (fun _ => aComment) coll)
              end
          end
      end
  end.

(** The object handed to [exports.create]; every field may be missing. *)
Record aCommentInput : Type := {
  ai_actionId : option string;
  ai_userId : option string;
  ai_name : option string;
  ai_email : option string;
  ai_comment : option string;
  ai_ratings : option (JsObject.t commentRating)
}.

(** A [required] path of the schema: the value is there and, for a
    string, is not empty (an empty id does not cast to an ObjectId). *)
Definition required (v : option string) : option string :=
  match v with
  | Some s => if str_truthy s then Some s else None
  | None => None
  end.

(** [exports.create]: [newId] is the ObjectId the driver generates and
    [now] is [new Date()]. *)
Definition create (aComment : aCommentInput) (newId : string) (now : Z)
    (coll : list ActionComments.aComment)
  : cbres aCommentObj * list ActionComments.aComment :=
  match required (ai_actionId aComment), required (ai_userId aComment),
        required (ai_name aComment), required (ai_email aComment),
        required (ai_comment aComment) with
  | Some actionId, Some userId, Some name, Some email, Some comment =>
      let aComment :=
        {| c_id := newId; c_actionId := actionId; c_userId := userId;
           c_name := name; c_email := email; c_comment := comment;
           c_date := now; c_hasPicture := false;
           c_ratings := default [] (ai_ratings aComment) |} in
      (CbOk (calcRating (toObject aComment) (IdStr (c_userId aComment))),
       (coll ++ [aComment])%list)
  | _, _, _, _, _ => (CbErrObj "ValidationError", coll)
  end.

Definition set_hasPicture (value : bool) (c : aComment) : aComment :=
  {| c_id := c_id c; c_actionId := c_actionId c; c_userId := c_userId c;
     c_name := c_name c; c_email := c_email c; c_comment := c_comment c;
     c_date := c_date c; c_hasPicture := value; c_ratings := c_ratings c |}.

(** [exports.setHasPicture] *)
Definition setHasPicture (commentId : string) (value : bool) (coll : list aComment)
  : cbres aCommentObj * list aComment :=
  match find (fun c => String.eqb (c_id c) commentId) coll with
  | None => (CbErr "aComment not found!", coll)
  | Some aComment =>
      let aComment := set_hasPicture value aComment in
      (CbOk (calcRating (toObject aComment) IdNull),
       update_first (fun c => String.eqb (c_id c) commentId) (fun _ => aComment) coll)
  end.

(** [exports.delete]: [ActionComment.remove(q, cb)] hands the number of
    removed documents to the callback. *)
Definition delete (actionId id : string) (coll : list aComment)
  : cbres nat * list aComment :=
  (CbOk (length (filter (fun c => matches actionId id c = true) coll)),
   filter (fun c => matches actionId id c = false) coll).

End ActionComments.

(** ** Actions (models/actions.js) *)

Module Actions.

(** One entry of [action.ratings]. *)
Record rating : Type := {
  rt_rating : option Z;
  rt_effort : option Z;
  rt_name : string;
  rt_date : Z
}.

(** A stored document. *)
Record action : Type := {
  a_id : string;
  a_name : string;
  a_nameSe : option string;
  a_nameIt : option string;
  a_type : string;
  a_category : option string;
  a_season : option string;
  a_description : string;
  a_descriptionSe : option string;
  a_descriptionIt : option string;
  a_impact : Z;
  a_effort : Z;
  a_ratings : JsObject.t rating;
  a_date : Z;
  a_authorId : string
}.

(** The plain object that [get] and [all] hand to the callback. *)
Record actionObj : Type := {
  o_id : string;
  o_name : string;
  o_nameSe : option string;
  o_nameIt : option string;
  o_type : string;
  o_category : option string;
  o_season : option string;
  o_description : string;
  o_descriptionSe : option string;
  o_descriptionIt : option string;
  o_impact : Z;
  o_effort : option Z;
  o_ratings : option (JsObject.t rating);
  o_date : Z;
  o_authorId : string;
  o_numLikes : option Z;
  o_userRating : option Z;
  o_numComments : option nat;
  o_numUsers : option nat
}.

(** [action.toObject()]: the rating map comes out as [toObject()] gives a
    [Mixed] path. *)
Definition toObject (a : action) : actionObj :=
  {| o_id := a_id a; o_name := a_name a; o_nameSe := a_nameSe a;
     o_nameIt := a_nameIt a; o_type := a_type a; o_category := a_category a;
     o_season := a_season a; o_description := a_description a;
     o_descriptionSe := a_descriptionSe a; o_descriptionIt := a_descriptionIt a;
     o_impact := a_impact a; o_effort := Some (a_effort a);
     o_ratings := JsObject.minimized (a_ratings a); o_date := a_date a;
     o_authorId := a_authorId a;
     o_numLikes := None; o_userRating := None;
     o_numComments := None; o_numUsers := None |}.

(** Field updates on the plain object. *)
Definition with_numLikes (n : Z) (o : actionObj) : actionObj :=
  {| o_id := o_id o; o_name := o_name o; o_nameSe := o_nameSe o;
     o_nameIt := o_nameIt o; o_type := o_type o; o_category := o_category o;
     o_season := o_season o; o_description := o_description o;
     o_descriptionSe := o_descriptionSe o; o_descriptionIt := o_descriptionIt o;
     o_impact := o_impact o; o_effort := o_effort o;
     o_ratings := o_ratings o; o_date := o_date o; o_authorId := o_authorId o;
     o_numLikes := Some n; o_userRating := o_userRating o;
     o_numComments := o_numComments o; o_numUsers := o_numUsers o |}.

Definition with_effort (e : option Z) (o : actionObj) : actionObj :=
  {| o_id := o_id o; o_name := o_name o; o_nameSe := o_nameSe o;
     o_nameIt := o_nameIt o; o_type := o_type o; o_category := o_category o;
     o_season := o_season o; o_description := o_description o;
     o_descriptionSe := o_descriptionSe o; o_descriptionIt := o_descriptionIt o;
     o_impact := o_impact o; o_effort := e;
     o_ratings := o_ratings o; o_date := o_date o; o_authorId := o_authorId o;
     o_numLikes := o_numLikes o; o_userRating := o_userRating o;
     o_numComments := o_numComments o; o_numUsers := o_numUsers o |}.

Definition with_userRating (r : option Z) (o : actionObj) : actionObj :=
  {| o_id := o_id o; o_name := o_name o; o_nameSe := o_nameSe o;
     o_nameIt := o_nameIt o; o_type := o_type o; o_category := o_category o;
     o_season := o_season o; o_description := o_description o;
     o_descriptionSe := o_descriptionSe o; o_descriptionIt := o_descriptionIt o;
     o_impact := o_impact o; o_effort := o_effort o;
     o_ratings := o_ratings o; o_date := o_date o; o_authorId := o_authorId o;
     o_numLikes := o_numLikes o; o_userRating := r;
     o_numComments := o_numComments o; o_numUsers := o_numUsers o |}.

Definition with_ratings (r : option (JsObject.t rating)) (o : actionObj) : actionObj :=
  {| o_id := o_id o; o_name := o_name o; o_nameSe := o_nameSe o;
     o_nameIt := o_nameIt o; o_type := o_type o; o_category := o_category o;
     o_season := o_season o; o_description := o_description o;
     o_descriptionSe := o_descriptionSe o; o_descriptionIt := o_descriptionIt o;
     o_impact := o_impact o; o_effort := o_effort o;
     o_ratings := r; o_date := o_date o; o_authorId := o_authorId o;
     o_numLikes := o_numLikes o; o_userRating := o_userRating o;
     o_numComments := o_numComments o; o_numUsers := o_numUsers o |}.

Definition with_counts (numComments numUsers : nat) (o : actionObj) : actionObj :=
  {| o_id := o_id o; o_name := o_name o; o_nameSe := o_nameSe o;
     o_nameIt := o_nameIt o; o_type := o_type o; o_category := o_category o;
     o_season := o_season o; o_description := o_description o;
     o_descriptionSe := o_descriptionSe o; o_descriptionIt := o_descriptionIt o;
     o_impact := o_impact o; o_effort := o_effort o;
     o_ratings := o_ratings o; o_date := o_date o; o_authorId := o_authorId o;
     o_numLikes := o_numLikes o; o_userRating := o_userRating o;
     o_numComments := Some numComments; o_numUsers := Some numUsers |}.

(** The language branch of [get]: the localized name and description
    replace the English ones when they are set and not empty, and the
    four localized fields are blanked. *)
Definition or_else (loc : option string) (dflt : string) : string :=
  match loc with
  | Some s => if str_truthy s then s else dflt
  | None => dflt
  end.

(** [user.profile && user.profile.language === l] *)
Definition lang_is (lang : option string) (l : string) : bool :=
  match lang with
  | Some l' => String.eqb l' l
  | None => false
  end.

Definition localize (lang : option string) (o : actionObj) : actionObj :=
  let name :=
    if lang_is lang "Italian" then or_else (o_nameIt o) (o_name o)
    else if lang_is lang "Swedish" then or_else (o_nameSe o) (o_name o)
    else o_name o in
  let description :=
    if lang_is lang "Italian" then or_else (o_descriptionIt o) (o_description o)
    else if lang_is lang "Swedish" then or_else (o_descriptionSe o) (o_description o)
    else o_description o in
  {| o_id := o_id o; o_name := name; o_nameSe := None;
     o_nameIt := None; o_type := o_type o; o_category := o_category o;
     o_season := o_season o; o_description := description;
     o_descriptionSe := None; o_descriptionIt := None;
     o_impact := o_impact o; o_effort := o_effort o;
     o_ratings := o_ratings o; o_date := o_date o; o_authorId := o_authorId o;
     o_numLikes := o_numLikes o; o_userRating := o_userRating o;
     o_numComments := o_numComments o; o_numUsers := o_numUsers o |}.

Definition includeRatingStats (action : actionObj) : actionObj :=
  let sum :=
    JsObject.each
      (fun sum rating => if truthy (rt_rating rating) then sum + 1 else sum)
      (default [] (o_ratings action)) 0 in
  with_numLikes sum action.

(** [for (var i = 0; i < n; i++) arr.push(x)] *)
Fixpoint push_times {A} (n : nat) (x : A) (arr : list A) : list A :=
  match n with
  | O => arr
  | S n' => push_times n' x (arr ++ [x])%list
  end.

(** [parseInt(n / 2)] for an array length [n]. *)
Definition parseInt_half (n : nat) : nat := Nat.div n 2.

(** [includeMeanEffort]: the array holds JavaScript values, [None] being
    [undefined]; so does an index out of range. *)
Definition includeMeanEffort (action : actionObj) : actionObj :=
  let effortEstimates : list (option Z) := [] in
  let effortEstimates := push_times 5 (o_effort action) effortEstimates in
  let effortEstimates :=
    JsObject.each
      (fun effortEstimates rating =>
         if truthy (rt_effort rating)
         then (effortEstimates ++ [rt_effort rating])%list
         else effortEstimates)
      (default [] (o_ratings action)) effortEstimates in
  with_effort
    (mjoin (effortEstimates !! parseInt_half (length effortEstimates)))
    action.

Definition language (u : userDoc) : option string :=
  u_profile u ≫= p_language.

(** The users doing an action: [actions.inProgress.<id>] or
    [actions.done.<id>] exists. *)
Definition doing (id : string) (u : userDoc) : bool :=
  bool_decide (is_Some (ua_inProgress (u_actions u) !! id))
  || bool_decide (is_Some (ua_done (u_actions u) !! id)).

(** [exports.get]. [user] is the authenticated user: the code reads
    [user.profile] before it tests [user]. *)
Definition get (id : string) (user : userDoc) (actions : list action)
    (comments : list ActionComments.aComment) (users : list userDoc)
  : cbres actionObj :=
  match find (fun a => String.eqb (a_id a) id) actions with
  | None => CbErr "Action not found"
  | Some action =>
      let action := toObject action in
      let action := localize (language user) action in
      let action := includeRatingStats action in
      let action := includeMeanEffort action in
      let action :=
        match o_ratings action with
        | Some ratings =>
            match JsObject.get (String_ (id_of user)) ratings with
            | Some r => with_userRating (rt_rating r) action
            | None => action
            end
        | None => action
        end in
      match ActionComments.get id None None None comments with
      | CbErr err => CbErr err
      | CbErrObj err => CbErrObj err
      | CbOk aComments =>
          let users := filter (fun u => doing id u = true) users in
          CbOk (with_counts (length aComments) (length users) action)
      end
  end.

(** [exports.all] *)
Definition all (limit skip : option nat) (includeRatings : bool)
    (user : option userDoc) (actions : list action) : cbres (list actionObj) :=
  let actions := q_limit limit (q_skip skip (sort_by a_date true actions)) in
  let actions := map toObject actions in
  let actions := map includeRatingStats actions in
  let actions := map includeMeanEffort actions in
  let actions :=
    map (fun action =>
           match user, o_ratings action with
           | Some u, Some ratings =>
               match JsObject.get (String_ (id_of u)) ratings with
               | Some r => with_userRating (rt_rating r) action
               | None => action
               end
           | _, _ => action
           end) actions in
  let actions :=
    if negb includeRatings then map (with_ratings None) actions else actions in
  CbOk actions.

(** A comparison in which [undefined] makes every test false. *)
Definition num_test (p : Z -> bool) (v : option Z) : bool :=
  match v with Some z => p z | None => false end.

Definition set_ratings (r : JsObject.t rating) (a : action) : action :=
  {| a_id := a_id a; a_name := a_name a; a_nameSe := a_nameSe a;
     a_nameIt := a_nameIt a; a_type := a_type a; a_category := a_category a;
     a_season := a_season a; a_description := a_description a;
     a_descriptionSe := a_descriptionSe a; a_descriptionIt := a_descriptionIt a;
     a_impact := a_impact a; a_effort := a_effort a; a_ratings := r;
     a_date := a_date a; a_authorId := a_authorId a |}.

(** The checks of [rate] on the submitted values; [old] is the user's
    entry before the call. *)
Definition rate_check (old : option rating) (rating effort : option Z) : option string :=
  match old with
  | Some _ =>
      if isNumber rating && num_test (fun r => negb (r =? 1) && negb (r =? 0)) rating
      then Some "Invalid rating estimate"
      else if num_test (fun e => e <? 1) effort || num_test (fun e => e >? 5) effort
      then Some "Invalid effort estimate"
      else None
  | None =>
      if isNumber rating && num_test (fun r => negb (r =? 1) && negb (r =? 0)) rating
      then Some "Missing/invalid rating"
      else if isNumber effort
              && (num_test (fun e => e <? 1) effort || num_test (fun e => e >? 5) effort)
      then Some "Missing/invalid effort estimate"
      else None
  end.

(** The entry that [rate] writes. *)
Definition new_entry (old : option Actions.rating) (rating effort : option Z)
    (name : string) (now : Z) : Actions.rating :=
  let oldRating := old ≫= rt_rating in
  let oldEffort := old ≫= rt_effort in
  {| rt_rating := if isNumber rating then rating else oldRating;
     rt_effort := if isNumber effort then effort else oldEffort;
     rt_name := name;
     rt_date := now |}.

(** [exports.rate]: the callback's arguments and the collection after the
    call. *)
Definition rate (id : string) (user : option userDoc) (rating effort : option Z)
    (now : Z) (actions : list action) : cbres action * list action :=
  match user with
  | None => (CbErr "Missing/invalid user", actions)
  | Some u =>
      match u_id u, u_profile u ≫= p_name with
      | Some uid, Some name =>
          if negb (str_truthy name) then (CbErr "Missing/invalid user", actions)
          else
            match find (fun a => String.eqb (a_id a) id) actions with
            | None => (CbErr "Action not found", actions)
            | Some action =>
                let old := JsObject.get uid (a_ratings action) in
                match rate_check old rating effort with
                | Some msg => (CbErr msg, actions)
                | None =>
                    let action :=
                      set_ratings
                        (JsObject.set uid (new_entry old rating effort name now)
                           (a_ratings action)) action in
                    (CbOk action,
                     update_first (fun a => String.eqb (a_id a) id)
                       (fun _ => action) actions)
                end
            end
      | _, _ => (CbErr "Missing/invalid user", actions)
      end
  end.

(** [shuffleArray]: [rnd k] stands for the [k]-th value of
    [Math.random()]; at loop index [i] it selects
    [j = Math.floor(Math.random() * (i + 1))], any index in [0..i],
    modelled as [rnd k mod (i + 1)]. *)
Fixpoint shuffle_loop {A} (rnd : nat -> nat) (k : nat) (i : nat) (array : list A)
  : list A :=
  match i with
  | O => array
  | S i' =>
      let j := Nat.modulo (rnd k) (i + 1) in
      let array :=
        match array !! i, array !! j with
        | Some temp, Some aj => <[j := temp]> (<[i := aj]> array)
        | _, _ => array
        end in
      shuffle_loop rnd (S k) i' array
  end.

Definition shuffleArray {A} (rnd : nat -> nat) (array : list A) : list A :=
  shuffle_loop rnd 0 (length array - 1) array.

(** A document restricted by [.select(...)], with the fields that
    [getSuggested] then writes. *)
Record suggestion : Type := {
  sg_id : string;
  sg_name : option string;
  sg_description : option string;
  sg_nameIt : option string;
  sg_descriptionIt : option string;
  sg_nameSe : option string;
  sg_descriptionSe : option string;
  sg_impact : Z;
  sg_effort : Z
}.

Definition select_En (a : action) : suggestion :=
  {| sg_id := a_id a; sg_name := Some (a_name a);
     sg_description := Some (a_description a);
     sg_nameIt := None; sg_descriptionIt := None;
     sg_nameSe := None; sg_descriptionSe := None;
     sg_impact := a_impact a; sg_effort := a_effort a |}.

Definition select_It (a : action) : suggestion :=
  {| sg_id := a_id a; sg_name := None; sg_description := None;
     sg_nameIt := a_nameIt a; sg_descriptionIt := a_descriptionIt a;
     sg_nameSe := None; sg_descriptionSe := None;
     sg_impact := a_impact a; sg_effort := a_effort a |}.

Definition select_Se (a : action) : suggestion :=
  {| sg_id := a_id a; sg_name := None; sg_description := None;
     sg_nameIt := None; sg_descriptionIt := None;
     sg_nameSe := a_nameSe a; sg_descriptionSe := a_descriptionSe a;
     sg_impact := a_impact a; sg_effort := a_effort a |}.

Definition rename_It (s : suggestion) : suggestion :=
  {| sg_id := sg_id s; sg_name := sg_nameIt s;
     sg_description := sg_descriptionIt s;
     sg_nameIt := None; sg_descriptionIt := None;
     sg_nameSe := sg_nameSe s; sg_descriptionSe := sg_descriptionSe s;
     sg_impact := sg_impact s; sg_effort := sg_effort s |}.

Definition rename_Se (s : suggestion) : suggestion :=
  {| sg_id := sg_id s; sg_name := sg_nameSe s;
     sg_description := sg_descriptionSe s;
     sg_nameIt := sg_nameIt s; sg_descriptionIt := sg_descriptionIt s;
     sg_nameSe := None; sg_descriptionSe := None;
     sg_impact := sg_impact s; sg_effort := sg_effort s |}.

(** [{_id: {$nin: _.keys(bucket)}}] *)
Definition nin (bucket : gmap string Z) (a : action) : bool :=
  negb (bool_decide (a_id a ∈ bucket_keys bucket)).

(** The five [$nin] clauses of the query. *)
Definition not_in_buckets (userActions : userActions) (a : action) : bool :=
  nin (ua_done userActions) a
  && nin (ua_declined userActions) a
  && nin (ua_na userActions) a
  && nin (ua_pending userActions) a
  && nin (ua_inProgress userActions) a.

(** [if (actions.length > 5) actions = shuffleArray(actions).slice(0, 5)] *)
Definition cap5 {A} (rnd : nat -> nat) (actions : list A) : list A :=
  if (5 <? length actions)%nat then take 5 (shuffleArray rnd actions) else actions.

(** The documents that each branch of [getSuggested] asks the database for. *)
Definition candidates (user : userDoc) (actions : list action) : list action :=
  let userActions := u_actions user in
  if lang_is (language user) "Italian" then
    filter (fun a => (not_in_buckets userActions a
                      && bool_decide (is_Some (a_nameIt a))) = true) actions
  else if lang_is (language user) "Swedish" then
    filter (fun a => (not_in_buckets userActions a
                      && bool_decide (is_Some (a_nameSe a))) = true) actions
  else filter (fun a => not_in_buckets userActions a = true) actions.

(** [exports.getSuggested] *)
Definition getSuggested (user : userDoc) (rnd : nat -> nat) (actions : list action)
  : cbres (list suggestion) :=
  let userActions := u_actions user in
  if lang_is (language user) "Italian" then
    let actions :=
      map select_It
        (filter (fun a => (not_in_buckets userActions a
                           && bool_decide (is_Some (a_nameIt a))) = true) actions) in
    let actions := cap5 rnd actions in
    CbOk (map rename_It actions)
  else if lang_is (language user) "Swedish" then
    let actions :=
      map select_Se
        (filter (fun a => (not_in_buckets userActions a
                           && bool_decide (is_Some (a_nameSe a))) = true) actions) in
    let actions := cap5 rnd actions in
    CbOk (map rename_Se actions)
  else
    let actions :=
      map select_En
        (filter (fun a => not_in_buckets userActions a = true) actions) in
    let actions := cap5 rnd actions in
    CbOk actions.

(** The object handed to [exports.create]; every field may be missing. *)
Record actionInput : Type := {
  ia_name : option string;
  ia_nameIt : option string;
  ia_nameSe : option string;
  ia_description : option string;
  ia_descriptionIt : option string;
  ia_descriptionSe : option string;
  ia_category : option string;
  ia_type : option string;
  ia_season : option string;
  ia_ratings : option (JsObject.t rating);
  ia_impact : option Z;
  ia_effort : option Z;
  ia_authorId : option string
}.

(** The [enum] lists of the schema. *)
Definition types : list string := ["onetime"; "routine"; "common"; "regular"; "irregular"].
Definition seasons : list string := ["spring"; "autumn"; "winter"; "summer"].

(** An [enum] path: a value that is given has to be in the list. *)
Definition enum_ok (values : list string) (v : option string) : bool :=
  match v with
  | Some s => existsb (String.eqb s) values
  | None => true
  end.

(** A number path with [min: 1, max: 5]: a value that is given has to be
    in the range. *)
Definition range_ok (v : option Z) : bool :=
  match v with
  | Some z => (1 <=? z) && (z <=? 5)
  | None => true
  end.

(** The validation of a new document against [ActionSchema]. *)
Definition validate (action : actionInput) : bool :=
  bool_decide (is_Some (ActionComments.required (ia_name action)))
  && bool_decide (is_Some (ActionComments.required (ia_description action)))
  && bool_decide (is_Some (ActionComments.required (ia_authorId action)))
  && enum_ok types (ia_type action)
  && enum_ok seasons (ia_season action)
  && range_ok (ia_impact action)
  && range_ok (ia_effort action).

(** [exports.create]: the document is validated, the defaults of the
    schema fill what is missing, the unique index on [name] rejects a
    duplicate. [newId] is the generated ObjectId, [now] is [new Date()]. *)
Definition create (action : actionInput) (newId : string) (now : Z)
    (coll : list Actions.action) : cbres Actions.action * list Actions.action :=
  if validate action then
    let name := default "" (ia_name action) in
    if existsb (fun a => String.eqb (a_name a) name) coll
    then (CbErrObj "MongoError", coll)
    else
      let doc :=
        {| a_id := newId; a_name := name;
           a_nameSe := ia_nameSe action; a_nameIt := ia_nameIt action;
           a_type := default "onetime" (ia_type action);
           a_category := ia_category action; a_season := ia_season action;
           a_description := default "" (ia_description action);
           a_descriptionSe := ia_descriptionSe action;
           a_descriptionIt := ia_descriptionIt action;
           a_impact := default 3 (ia_impact action);
           a_effort := default 3 (ia_effort action);
           a_ratings := default [] (ia_ratings action);
           a_date := now;
           a_authorId := default "" (ia_authorId action) |} in
      (CbOk doc, (coll ++ [doc])%list)
  else (CbErrObj "ValidationError", coll).

(** [exports.delete] *)
Definition delete (id : string) (coll : list action) : cbres nat * list action :=
  (CbOk (length (filter (fun a => String.eqb (a_id a) id = true) coll)),
   filter (fun a => String.eqb (a_id a) id = false) coll).

End Actions.

(** ** Community comments (models/communityComments.js) *)

Module CommunityComments.

(** The object handed to [exports.create]: the request body with the
    fields that the route adds. Every field may be missing. *)
Record commentInput : Type := {
  ci_communityId : option string;
  ci_actionId : option string;
  ci_userId : option string;
  ci_name : option string;
  ci_email : option string;
  ci_comment : option string
}.

(** A stored document; the schema requires every field. *)
Record communityComment : Type := {
  cc_id : string;
  cc_communityId : string;
  cc_userId : string;
  cc_name : string;
  cc_email : string;
  cc_comment : string;
  cc_date : Z
}.

(** [exports.create]: [newId] is the ObjectId the driver generates and
    [now] is [new Date()]. A required field that is missing or empty
    fails the schema validation and nothing is stored. *)
Definition create (communityComment : commentInput) (newId : string) (now : Z)
    (coll : list CommunityComments.communityComment)
  : cbres CommunityComments.communityComment * list CommunityComments.communityComment :=
  match ActionComments.required (ci_communityId communityComment),
        ActionComments.required (ci_userId communityComment),
        ActionComments.required (ci_name communityComment),
        ActionComments.required (ci_email communityComment),
        ActionComments.required (ci_comment communityComment) with
  | Some communityId, Some userId, Some name, Some email, Some comment =>
      let doc :=
        {| cc_id := newId; cc_communityId := communityId; cc_userId := userId;
           cc_name := name; cc_email := email; cc_comment := comment;
           cc_date := now |} in
      (CbOk doc, (coll ++ [doc])%list)
  | _, _, _, _, _ => (CbErrObj "ValidationError", coll)
  end.

(** [exports.get] *)
Definition get (communityId : string) (limit skip : option nat)
    (coll : list communityComment) : cbres (list communityComment) :=
  let communityComments :=
    q_limit limit
      (q_skip skip
         (sort_by cc_date true
            (filter (fun c => String.eqb (cc_communityId c) communityId = true) coll))) in
  match communityComments with
  | [] => CbOk []
  | _ => CbOk communityComments
  end.

(** [exports.getByUser] *)
Definition getByUser (user : userDoc) (limit skip : option nat)
    (coll : list communityComment) : cbres (list communityComment) :=
  let communityComments :=
    q_limit limit
      (q_skip skip
         (sort_by cc_date true
            (filter (fun c => String.eqb (cc_userId c) (String_ (id_of user)) = true)
               coll))) in
  match communityComments with
  | [] => CbOk []
  | _ => CbOk communityComments
  end.

(** The query [{communityId: communityId, _id: id}]. *)
Definition matches (communityId id : string) (c : communityComment) : bool :=
  String.eqb (cc_communityId c) communityId && String.eqb (cc_id c) id.

(** [exports.delete]: the callback receives the number of removed
    documents. *)
Definition delete (communityId id : string) (coll : list communityComment)
  : cbres nat * list communityComment :=
  (CbOk (length (filter (fun c => matches communityId id c = true) coll)),
   filter (fun c => matches communityId id c = false) coll).

End CommunityComments.

(** ** Cooperatives (models/cooperatives.js) *)

Module Cooperatives.

Record meters : Type := {
  m_electricity : option string;
  m_heating : option string
}.

(** An embedded sub-document of [actions]. *)
Record coopAction : Type := {
  ca_id : string;
  ca_name : option string;
  ca_description : option string;
  ca_date : option Z
}.

(** A sub-document as a caller gives it: the [_id] may be left out. *)
Record coopActionInput : Type := {
  cai_id : option string;
  cai_name : option string;
  cai_description : option string;
  cai_date : option Z
}.

Record cooperative : Type := {
  cp_id : string;
  cp_name : string;
  cp_yearOfConst : Z;
  cp_area : Z;
  cp_meters : option meters;
  cp_actions : list coopAction
}.

(** The object handed to [exports.create]. *)
Record cooperativeInput : Type := {
  in_name : option string;
  in_yearOfConst : option Z;
  in_area : option Z;
  in_meters : option meters;
  in_actions : list coopActionInput
}.

(** [Cooperative.create(doc, cb)] of Mongoose on a document with the three
    given fields: the required fields are validated (a required string
    has to be there and not be empty, a required number to be there),
    the unique index on [name] rejects a duplicate, an array path starts
    empty. *)
Definition model_create (name : option string) (yearOfConst area : option Z)
    (newId : string) (coll : list cooperative)
  : cbres cooperative * list cooperative :=
  match ActionComments.required name, yearOfConst, area with
  | Some name, Some yearOfConst, Some area =>
      if existsb (fun c => String.eqb (cp_name c) name) coll
      then (CbErrObj "MongoError", coll)
      else
        let doc :=
          {| cp_id := newId; cp_name := name; cp_yearOfConst := yearOfConst;
             cp_area := area; cp_meters := None; cp_actions := [] |} in
        (CbOk doc, (coll ++ [doc])%list)
  | _, _, _ => (CbErrObj "ValidationError", coll)
  end.

(** [exports.create] *)
Definition create (cooperative : cooperativeInput) (newId : string)
    (coll : list Cooperatives.cooperative)
  : cbres Cooperatives.cooperative * list Cooperatives.cooperative :=
  model_create (in_name cooperative) (in_yearOfConst cooperative)
    (in_area cooperative) newId coll.

(** [exports.get] *)
Definition get (id : string) (coll : list cooperative) : cbres cooperative :=
  match find (fun c => String.eqb (cp_id c) id) coll with
  | None => CbErr "Cooperative not found"
  | Some cooperative => CbOk cooperative
  end.

Definition set_actions (l : list coopAction) (c : cooperative) : cooperative :=
  {| cp_id := cp_id c; cp_name := cp_name c; cp_yearOfConst := cp_yearOfConst c;
     cp_area := cp_area c; cp_meters := cp_meters c; cp_actions := l |}.

(** [cooperative.save(...)]: the document replaces its stored version. *)
Definition save (c : cooperative) (coll : list cooperative) : list cooperative :=
  update_first (fun c' => String.eqb (cp_id c') (cp_id c)) (fun _ => c) coll.

(** The cast of a pushed value to a sub-document: an [_id] is generated
    when none is given. *)
Definition cast (freshId : string) (action : coopActionInput) : coopAction :=
  {| ca_id := default freshId (cai_id action); ca_name := cai_name action;
     ca_description := cai_description action; ca_date := cai_date action |}.

(** [exports.addAction]; the [user] argument of this and of the next two
    operations is not read by the code and is left out. *)
Definition addAction (id : string) (action : coopActionInput) (freshId : string)
    (coll : list cooperative) : cbres cooperative * list cooperative :=
  match find (fun c => String.eqb (cp_id c) id) coll with
  | None => (CbErr "Cooperative not found", coll)
  | Some cooperative =>
      let cooperative :=
        set_actions (cp_actions cooperative ++ [cast freshId action])%list cooperative in
      (CbOk cooperative, save cooperative coll)
  end.

(** [cooperative.actions.id(actionId)] *)
Definition actions_id (actionId : string) (actions : list coopAction) : option coopAction :=
  find (fun a => String.eqb (ca_id a) actionId) actions.

(** [exports.updateAction] *)
Definition updateAction (id actionId : string) (newAction : coopActionInput)
    (coll : list cooperative) : cbres cooperative * list cooperative :=
  match find (fun c => String.eqb (cp_id c) id) coll with
  | None => (CbErr "Cooperative not found", coll)
  | Some cooperative =>
      match actions_id actionId (cp_actions cooperative) with
      | None => (CbErr "Cooperative action not found", coll)
      | Some _ =>
          let actions :=
            update_first (fun a => String.eqb (ca_id a) actionId)
              (fun action =>
                 {| ca_id := ca_id action; ca_name := cai_name newAction;
                    ca_description := cai_description newAction;
                    ca_date := cai_date newAction |})
              (cp_actions cooperative) in
          let cooperative := set_actions actions cooperative in
          (CbOk cooperative, save cooperative coll)
      end
  end.

(** [action.remove()] on a sub-document pulls from the parent array the
    elements that carry its [_id]. *)
Definition pull (actionId : string) (actions : list coopAction) : list coopAction :=
  filter (fun a => String.eqb (ca_id a) actionId = false) actions.

(** [exports.deleteAction] *)
Definition deleteAction (id actionId : string) (coll : list cooperative)
  : cbres cooperative * list cooperative :=
  match find (fun c => String.eqb (cp_id c) id) coll with
  | None => (CbErr "Cooperative not found", coll)
  | Some cooperative =>
      match actions_id actionId (cp_actions cooperative) with
      | None => (CbErr "Cooperative action not found", coll)
      | Some action =>
          let cooperative :=
            set_actions (pull (ca_id action) (cp_actions cooperative)) cooperative in
          (CbOk cooperative, save cooperative coll)
      end
  end.

End Cooperatives.

(** ** The community router (routes/community.js) *)

Module CommunityRoutes.

(** One entry of [req.validationErrors()]. *)
Record validationError : Type := {
  ve_param : string;
  ve_msg : string;
  ve_value : option string
}.

Definition is_hex (c : Ascii.ascii) : bool :=
  let n := Ascii.nat_of_ascii c in
  ((48 <=? n) && (n <=? 57) || (65 <=? n) && (n <=? 70)
   || (97 <=? n) && (n <=? 102))%nat.

(** The validator behind [.isMongoId()]: 24 hexadecimal digits. *)
Definition isMongoId (s : string) : bool :=
  (String.length s =? 24)%nat && forallb is_hex (String.list_ascii_of_string s).

(** [req.checkParams(param, msg).isMongoId()] followed by
    [req.validationErrors()]: the empty list stands for "no errors". *)
Definition validationErrors (param msg : string) (params : gmap string string)
  : list validationError :=
  match params !! param with
  | Some v =>
      if isMongoId v then []
      else [{| ve_param := param; ve_msg := msg; ve_value := Some v |}]
  | None => [{| ve_param := param; ve_msg := msg; ve_value := None |}]
  end.

(** What a handler sends. *)
Inductive payload (A : Type) : Type :=
| Text (s : string)
| ErrorObj (name : string)
| Json (v : A).
Arguments Text {A} s.
Arguments ErrorObj {A} name.
Arguments Json {A} v.

Record response (A : Type) : Type := {
  status : Z;
  sent : payload A
}.
Arguments status {A} r.
Arguments sent {A} r.

(** Modelled from the spec: [res.successRes], the response helper that
    the application installs on every response, is not among the sources.
    The spec has errors "returned as stringly-typed messages or
    validation-error dumps with HTTP 500" and results serialized as JSON:
    an error in the first argument is sent with status 500, a result
    with status 200. *)
Definition successRes {A} (r : cbres A) : response A :=
  match r with
  | CbErr msg => {| status := 500; sent := Text msg |}
  | CbErrObj name => {| status := 500; sent := ErrorObj name |}
  | CbOk json => {| status := 200; sent := Json json |}
  end.

(** Modelled from the spec: [achievements.updateAchievement], of
    common/achievements.js, is not among the sources. The spec has an
    achievement be "a monotonic progress counter on a user profile" that
    the helper updates: the counter [name] of the user becomes [f] of its
    old value, a counter never written counting as 0. *)
Definition updateAchievement (userId : string) (name : string) (f : Z -> Z)
    (achievements : gmap (string * string) Z) : gmap (string * string) Z :=
  <[(userId, name) := f (default 0 (achievements !! (userId, name)))]> achievements.

(** The counter as a profile shows it. *)
Definition achievement (userId name : string)
    (achievements : gmap (string * string) Z) : Z :=
  default 0 (achievements !! (userId, name)).

(** An entry written by [Log.create], without its [data] field. *)
Record logEntry : Type := {
  l_userId : idval;
  l_category : string;
  l_type : string
}.

Record request (B : Type) : Type := {
  params : gmap string string;
  body : B;
  req_user : userDoc
}.
Arguments params {B} r.
Arguments body {B} r.
Arguments req_user {B} r.

(** Request bodies. *)
Record limitBody : Type := { b_limit : option Z }.
Record rateBody : Type := { b_rating : option Z; b_comment : option string }.

Section Handlers.

(** The models and helpers that the router requires and that are not
    among the sources: their state and their operations are parameters. *)
Context {store community removed topAction picture uploaded : Type}.
Variable util_inspect : list validationError -> string.
Variable Community_getCommunityInfo : string -> store -> cbres community.
Variable Community_delete : string -> store -> cbres removed * store.
Variable Community_addMember : string -> idval -> store -> cbres community * store.
Variable Community_topActions : string -> option Z -> store -> cbres (list topAction).
Variable Community_rate :
  string -> userDoc -> option Z -> option string -> store -> cbres community * store.
Variable User_getUserCommunities : idval -> store -> cbres (list community).
Variable common_getUserHome : string.
Variable common_uploadPicture :
  picture -> Z -> string -> string -> store -> cbres uploaded * store.

(** What the handlers read and write. *)
Record server : Type := {
  sv_store : store;
  sv_comments : list CommunityComments.communityComment;
  sv_achievements : gmap (string * string) Z;
  sv_logs : list logEntry
}.

Definition log (u : userDoc) (category type : string) (sv : server) : server :=
  {| sv_store := sv_store sv; sv_comments := sv_comments sv;
     sv_achievements := sv_achievements sv;
     sv_logs := (sv_logs sv ++ [{| l_userId := id_of u; l_category := category;
                                   l_type := type |}])%list |}.

Definition with_store (st : store) (sv : server) : server :=
  {| sv_store := st; sv_comments := sv_comments sv;
     sv_achievements := sv_achievements sv; sv_logs := sv_logs sv |}.

Definition with_comments (l : list CommunityComments.communityComment) (sv : server)
  : server :=
  {| sv_store := sv_store sv; sv_comments := l;
     sv_achievements := sv_achievements sv; sv_logs := sv_logs sv |}.

Definition with_achievements (a : gmap (string * string) Z) (sv : server) : server :=
  {| sv_store := sv_store sv; sv_comments := sv_comments sv;
     sv_achievements := a; sv_logs := sv_logs sv |}.

(** [res.status(500).send('There have been validation errors: ' + util.inspect(err))] *)
Definition validation_response {A} (err : list validationError) : response A :=
  {| status := 500;
     sent := Text ("There have been validation errors: " ++ util_inspect err) |}.

(** [req.params.<name>] after a successful validation. *)
Definition param {B} (name : string) (req : request B) : string :=
  default "undefined" (params req !! name).

(** [router.post('/:communityId/comment', ...)]; the route has the one
    path parameter [communityId], so [req.params.actionId] is
    [undefined]. *)
Definition post_comment (req : request CommunityComments.commentInput)
    (newId : string) (now : Z) (sv : server)
  : response CommunityComments.communityComment * server :=
  let communityComment := body req in
  let communityComment :=
    {| CommunityComments.ci_communityId := CommunityComments.ci_communityId communityComment;
       CommunityComments.ci_actionId := params req !! "actionId";
       CommunityComments.ci_userId := u_id (req_user req);
       CommunityComments.ci_name := u_profile (req_user req) ≫= p_name;
       CommunityComments.ci_email := Some (u_email (req_user req));
       CommunityComments.ci_comment := CommunityComments.ci_comment communityComment |} in
  let '(r, comments) :=
    CommunityComments.create communityComment newId now (sv_comments sv) in
  (successRes r, log (req_user req) "Community Comments" "create" (with_comments comments sv)).

(** [router.get('/:id', ...)] *)
Definition get_community (req : request unit) (sv : server)
  : response community * server :=
  match validationErrors "id" "Invalid community id" (params req) with
  | (_ :: _) as err => (validation_response err, sv)
  | [] =>
      (successRes (Community_getCommunityInfo (param "id" req) (sv_store sv)),
       log (req_user req) "Community" "get" sv)
  end.

(** [router.delete('/:id', ...)] *)
Definition delete_community (req : request unit) (sv : server)
  : response removed * server :=
  match validationErrors "id" "Invalid Community id" (params req) with
  | (_ :: _) as err => (validation_response err, sv)
  | [] =>
      let '(r, st) := Community_delete (param "id" req) (sv_store sv) in
      (successRes r, log (req_user req) "Community" "delete" (with_store st sv))
  end.

(** [router.put('/join/:id', ...)]. When [getUserCommunities] fails,
    [communities] is [undefined] and the function given to
    [updateAchievement] throws before a value is produced. *)
Definition put_join (req : request unit) (sv : server)
  : response community * server :=
  match validationErrors "id" "Invalid Community id" (params req) with
  | (_ :: _) as err => (validation_response err, sv)
  | [] =>
      let '(r, st) :=
        Community_addMember (param "id" req) (id_of (req_user req)) (sv_store sv) in
      let achievements :=
        match r with
        | CbOk _ =>
            match User_getUserCommunities (id_of (req_user req)) st with
            | CbOk communities =>
                updateAchievement (String_ (id_of (req_user req))) "communitiesJoined"
                  (fun oldVal => Z.max oldVal (Z.of_nat (length communities)))
                  (sv_achievements sv)
            | _ => sv_achievements sv
            end
        | _ => sv_achievements sv
        end in
      (successRes r,
       log (req_user req) "Community" "join"
         (with_achievements achievements (with_store st sv)))
  end.

(** [router.get('/top/:id', ...)] *)
Definition get_top (req : request limitBody) (sv : server)
  : response (list topAction) * server :=
  match validationErrors "id" "Invalid Community id" (params req) with
  | (_ :: _) as err => (validation_response err, sv)
  | [] =>
      (successRes
         (Community_topActions (param "id" req) (b_limit (body req)) (sv_store sv)),
       log (req_user req) "Community" "top" sv)
  end.

(** [router.post('/communityPicture/:communityId', ...)] *)
Definition post_communityPicture (req : request picture) (sv : server)
  : response uploaded * server :=
  match validationErrors "communityId" "Invalid Community id" (params req) with
  | (_ :: _) as err =>
      (successRes (CbErr ("There have been validation errors: " ++ util_inspect err)), sv)
  | [] =>
      let imgPath := common_getUserHome ++ "/.youpower/communityPictures" in
      let '(r, st) :=
        common_uploadPicture (body req) 512 imgPath (param "communityId" req)
          (sv_store sv) in
      (successRes r, log (req_user req) "Community Picture" "create" (with_store st sv))
  end.

(** [router.put('/rate/:id', ...)] *)
Definition put_rate (req : request rateBody) (sv : server)
  : response community * server :=
  match validationErrors "id" "Invalid community id" (params req) with
  | (_ :: _) as err => (validation_response err, sv)
  | [] =>
      let '(r, st) :=
        Community_rate (param "id" req) (req_user req) (b_rating (body req))
          (b_comment (body req)) (sv_store sv) in
      (successRes r, log (req_user req) "Community" "rate" (with_store st sv))
  end.

End Handlers.


(** [n || d] for a number that may be missing: 0 is falsy. *)
Definition or_default (n : option nat) (d : nat) : nat :=
  match n with
  | Some (S k) => S k
  | _ => d
  end.

Section CommentHandlers.
Context {store community : Type}.
Variable User_getUserCommunities : idval -> store -> cbres (list community).


(** [router.delete('/:communityId/comment/:commentId', ...)] *)
Definition delete_comment (req : request unit) (sv : @server store)
  : response nat * @server store :=
  let '(r, comments) :=
    CommunityComments.delete (param "communityId" req) (param "commentId" req)
      (sv_comments sv) in
  (successRes r, log (req_user req) "Community Comments" "delete" (with_comments comments sv)).

(** [router.get('/list', ...)] *)
Definition get_list (req : request unit) (sv : @server store)
  : response (list community) * @server store :=
  (successRes (User_getUserCommunities (id_of (req_user req)) (sv_store sv)),
   log (req_user req) "Community" "listAll" sv).

End CommentHandlers.

(** *** The routing table *)

Inductive method : Type := GET | POST | PUT | DELETE.

Definition method_eqb (a b : method) : bool :=
  match a, b with
  | GET, GET | POST, POST | PUT, PUT | DELETE, DELETE => true
  | _, _ => false
  end.

(** A segment of a route path: a literal or a [:name] parameter. *)
Inductive segment : Type :=
| Lit (s : string)
| Par (name : string).

(** The handlers of the router. *)
Inductive route : Type :=
| PostComment
| GetComments
| DeleteComment
| PostCommunity
| GetCommunity
| GetList
| DeleteCommunity
| PutJoin
| GetTop
| PostCommunityPicture
| PutRate.

(** The routes in the order in which the file registers them. *)
Definition table : list (method * list segment * route) :=
  [ (POST, [Par "communityId"; Lit "comment"], PostComment);
    (GET, [Par "communityId"; Lit "comments"], GetComments);
    (DELETE, [Par "communityId"; Lit "comment"; Par "commentId"], DeleteComment);
    (POST, [], PostCommunity);
    (GET, [Par "id"], GetCommunity);
    (GET, [Lit "list"], GetList);
    (DELETE, [Par "id"], DeleteCommunity);
    (PUT, [Lit "join"; Par "id"], PutJoin);
    (GET, [Lit "top"; Par "id"], GetTop);
    (POST, [Lit "communityPicture"; Par "communityId"], PostCommunityPicture);
    (PUT, [Lit "rate"; Par "id"], PutRate) ].

(** Lower case of the letters A to Z. *)
Definition lower_ascii (c : Ascii.ascii) : Ascii.ascii :=
  let n := Ascii.nat_of_ascii c in
  if ((65 <=? n) && (n <=? 90))%nat then Ascii.ascii_of_nat (n + 32) else c.

Fixpoint lower (s : string) : string :=
  match s with
  | EmptyString => EmptyString
  | String c s' => String (lower_ascii c) (lower s')
  end.

(** The match of a route path against the segments of a request path
    (the part after the mount point and its slash, split at the
    slashes, so that a slash at the end gives a last segment that is
    empty). The router is made with the defaults of Express: a literal
    is compared without regard to case, one slash at the end of the
    path is allowed, a parameter takes one segment that is not empty. The
    value of a parameter is its segment: percent-escapes, which Express
    decodes in a parameter, are not modelled. *)
Fixpoint match_path (pattern : list segment) (path : list string)
    (params : gmap string string) : option (gmap string string) :=
  match pattern, path with
  | [], [] => Some params
  | [], [x] => if str_truthy x then None else Some params
  | Lit s :: pattern', x :: path' =>
      if String.eqb (lower s) (lower x) then match_path pattern' path' params else None
  | Par name :: pattern', x :: path' =>
      if str_truthy x then match_path pattern' path' (<[name := x]> params) else None
  | _, _ => None
  end.

(** The handler that answers a request: the first route of the table
    with the method and a matching path. Every handler of this router
    ends the request, so no later route is tried. *)
Fixpoint dispatch_in (routes : list (method * list segment * route)) (m : method)
    (path : list string) : option (route * gmap string string) :=
  match routes with
  | [] => None
  | (m', pattern, r) :: routes' =>
      if method_eqb m' m then
        match match_path pattern path ∅ with
        | Some params => Some (r, params)
        | None => dispatch_in routes' m path
        end
      else dispatch_in routes' m path
  end.

Definition dispatch (m : method) (path : list string)
  : option (route * gmap string string) :=
  dispatch_in table m path.

(** The request that Express builds for a route with one path parameter. *)
Definition route_request {B} (name value : string) (b : B) (u : userDoc) : request B :=
  {| params := {[ name := value ]}; body := b; req_user := u |}.

End CommunityRoutes.

(** ** The actions controller (frontend/www/app/actions/actionsCtrl.js) *)

Module ActionsCtrl.

(** An entry of [currentUser.actions.<status>]. *)
Record userAction : Type := {
  fa_id : string;
  fa_latestDate : Z
}.

(** [currentUser.profile.toRehearse] *)
Record toRehearse : Type := {
  tr_done : bool;
  tr_declined : bool;
  tr_na : bool
}.

(** [currentUser.actions] *)
Record actionLists : Type := {
  al_done : JsObject.t userAction;
  al_declined : JsObject.t userAction;
  al_na : JsObject.t userAction;
  al_pending : JsObject.t userAction;
  al_inProgress : JsObject.t userAction
}.

(** What the controller does besides writing its scope: the calls into
    the parent scope, the router, the popup service and the console.
    [TypeError] is the exception of reading [_id] of [undefined];
    [AskChangeRehearseSetting] and [AskRehearse] are the two popups of
    [checkRehearse], which are answered later; [CheckRehearse] stands
    for a call of [$scope.checkRehearse()] at the one place where the
    call cannot happen (see [rehearseActions]). *)
Inductive effect : Type :=
| AlertNoRehearseActions
| ConsoleLog (l : list userAction)
| LoadActionDetails (l : list userAction)
| StateGo (id : string)
| CheckRehearse
| TypeError
| AskChangeRehearseSetting
| AskRehearse.

(** The part of [$scope] that the rehearsal reads and writes, with the
    global variable [actios] that the assignment in [rehearseActions]
    creates, and the effects so far. *)
Record scope : Type := {
  sc_toRehearse : toRehearse;
  sc_actions : actionLists;
  sc_idx : Z;
  sc_lastActionUsed : bool;
  sc_suggestedActions : list userAction;
  g_actios : option (list userAction);
  sc_effects : list effect
}.

Definition preferredNumberOfActions : nat := 3.

Definition emit (e : effect) (s : scope) : scope :=
  {| sc_toRehearse := sc_toRehearse s; sc_actions := sc_actions s;
     sc_idx := sc_idx s; sc_lastActionUsed := sc_lastActionUsed s;
     sc_suggestedActions := sc_suggestedActions s; g_actios := g_actios s;
     sc_effects := (sc_effects s ++ [e])%list |}.

(** [$filter('orderBy')(actions, 'latestDate')]: ascending and stable. *)
Definition orderBy_latestDate (actions : list userAction) : list userAction :=
  sort_by fa_latestDate false actions.

(** [arr[i]] for an integer index. *)
Definition js_index {A} (arr : list A) (i : Z) : option A :=
  if i <? 0 then None else arr !! Z.to_nat i.

(** [$scope.alertNoRehearseActions] *)
Definition alertNoRehearseActions (s : scope) : scope :=
  emit AlertNoRehearseActions s.

(** The body of [$scope.showNextTip]; [checkRehearse] is what its call
    of [$scope.checkRehearse()] does. *)
Definition showNextTip_then (checkRehearse : scope -> scope) (s : scope) : scope :=
  let s :=
    if sc_lastActionUsed s then
      {| sc_toRehearse := sc_toRehearse s; sc_actions := sc_actions s;
         sc_idx := sc_idx s + 1; sc_lastActionUsed := false;
         sc_suggestedActions := sc_suggestedActions s; g_actios := g_actios s;
         sc_effects := sc_effects s |}
    else s in
  if sc_idx s <? Z.of_nat (length (sc_suggestedActions s)) then
    match js_index (sc_suggestedActions s) (sc_idx s) with
    | Some a => emit (StateGo (fa_id a)) s
    | None => emit TypeError s
    end
  else checkRehearse s.

(** The list that [rehearseActions] collects from the enabled lists. *)
Definition collect (s : scope) : list userAction :=
  let actions : list userAction := [] in
  let actions :=
    if tr_done (sc_toRehearse s)
    then (actions ++ JsObject.values (al_done (sc_actions s)))%list else actions in
  let actions :=
    if tr_declined (sc_toRehearse s)
    then (actions ++ JsObject.values (al_declined (sc_actions s)))%list else actions in
  let actions :=
    if tr_na (sc_toRehearse s)
    then (actions ++ JsObject.values (al_na (sc_actions s)))%list else actions in
  actions.

(** The body of [$scope.rehearseActions]; [showNextTip] is what its call
    of [$scope.showNextTip()] does. *)
Definition rehearseActions_with (showNextTip : scope -> scope) (s : scope) : scope :=
  let actions := collect s in
  if (length actions =? 0)%nat then alertNoRehearseActions s
  else
    let actions := orderBy_latestDate actions in
    let actios :=
      if (preferredNumberOfActions <? length actions)%nat
      then Some (take preferredNumberOfActions actions)
      else g_actios s in
    let s := emit (ConsoleLog actions) s in
    let s :=
      {| sc_toRehearse := sc_toRehearse s; sc_actions := sc_actions s;
         sc_idx := -1; sc_lastActionUsed := true;
         sc_suggestedActions := actions; g_actios := actios;
         sc_effects := sc_effects s |} in
    let s := emit (LoadActionDetails (sc_suggestedActions s)) s in
    showNextTip s.

(** [$scope.rehearseActions]. In the source [rehearseActions] calls
    [showNextTip], which calls [checkRehearse], which calls
    [rehearseActions]. The call of [showNextTip] here comes with [idx]
    at -1, [lastActionUsed] set and a list that is not empty: it shows
    the first action and does not get to [checkRehearse], so what stands
    for that call makes no difference, and with [showNextTip] as it is
    defined below the three functions satisfy the equations of the
    source (lemmas [rehearse_any_tip] and [rehearseActions_eq]). *)
Definition rehearseActions (s : scope) : scope :=
  rehearseActions_with (showNextTip_then (emit CheckRehearse)) s.

Section CheckRehearse.

(** [$scope.isToRehearse] and [$scope.isNotToRehearse] belong to the
    parent scope, which is not among the sources. *)
Variables isToRehearse isNotToRehearse : scope -> bool.

(** [$scope.checkRehearse] *)
Definition checkRehearse (s : scope) : scope :=
  if isToRehearse s then rehearseActions s
  else if isNotToRehearse s then emit AskChangeRehearseSetting s
  else emit AskRehearse s.

(** [$scope.showNextTip] *)
Definition showNextTip (s : scope) : scope :=
  showNextTip_then checkRehearse s.

End CheckRehearse.

(** *** Lists shown at the interface *)

(** The keys of [$scope.maxNumberShow]. *)
Inductive listType : Type := InProgress | Pending | Done.

(** [$scope.maxNumberShow] *)
Record maxNumberShow : Type := {
  mn_inProgress : Z;
  mn_pending : Z;
  mn_done : Z
}.

Definition sNr : Z := 2.

Definition shown (type : listType) (m : maxNumberShow) : Z :=
  match type with
  | InProgress => mn_inProgress m
  | Pending => mn_pending m
  | Done => mn_done m
  end.

Definition set_shown (type : listType) (v : Z) (m : maxNumberShow) : maxNumberShow :=
  match type with
  | InProgress => {| mn_inProgress := v; mn_pending := mn_pending m; mn_done := mn_done m |}
  | Pending => {| mn_inProgress := mn_inProgress m; mn_pending := v; mn_done := mn_done m |}
  | Done => {| mn_inProgress := mn_inProgress m; mn_pending := mn_pending m; mn_done := v |}
  end.

(** [_.size($scope.currentUser.actions[type])] *)
Definition size_of (type : listType) (actions : actionLists) : Z :=
  Z.of_nat
    (JsObject.size
       match type with
       | InProgress => al_inProgress actions
       | Pending => al_pending actions
       | Done => al_done actions
       end).

(** [$scope.showMore] *)
Definition showMore (type : listType) (actions : actionLists) (m : maxNumberShow)
  : maxNumberShow :=
  let m := set_shown type (shown type m + sNr) m in
  if size_of type actions <? shown type m
  then set_shown type (size_of type actions) m
  else m.

(** [$scope.showLess] *)
Definition showLess (type : listType) (m : maxNumberShow) : maxNumberShow :=
  let m := set_shown type (shown type m - sNr) m in
  if shown type m <? sNr then set_shown type sNr m else m.

(** *** Comments of the actions *)

(** [$scope.comments] and [$scope.moreComments]. *)
Record commentsState {C : Type} : Type := {
  cs_comments : list C;
  cs_moreComments : gmap string bool
}.
Arguments commentsState C : clear implicits.

Definition nrToLoad : nat := 20.

(** [$scope.setNoMoreComments] *)
Definition setNoMoreComments {C} (actionId : string) (s : commentsState C)
  : commentsState C :=
  {| cs_comments := cs_comments s;
     cs_moreComments := <[actionId := false]> (cs_moreComments s) |}.

(** [$scope.setHasMoreComments] *)
Definition setHasMoreComments {C} (actionId : string) (s : commentsState C)
  : commentsState C :=
  {| cs_comments := cs_comments s;
     cs_moreComments := <[actionId := true]> (cs_moreComments s) |}.

(** [$scope.hasMoreComments] *)
Definition hasMoreComments {C} (actionId : string) (s : commentsState C) : bool :=
  match cs_moreComments s !! actionId with
  | None => true
  | Some b => b
  end.

(** [$scope.addMoreComments] *)
Definition addMoreComments {C} (comments : list C) (s : commentsState C)
  : commentsState C :=
  {| cs_comments := (cs_comments s ++ comments)%list;
     cs_moreComments := cs_moreComments s |}.

(** [$scope.loadCommentsByActionId], from the moment the request for the
    first [nrToLoad] comments is answered with [data]. *)
Definition loadCommentsByActionId {C} (actionId : string) (data : list C)
    (s : commentsState C) : commentsState C :=
  let s :=
    {| cs_comments := (cs_comments s ++ data)%list;
       cs_moreComments := cs_moreComments s |} in
  if (nrToLoad <=? length data)%nat
  then setHasMoreComments actionId s
  else setNoMoreComments actionId s.

End ActionsCtrl.

(** ** The seeding script (the database set-up that creates the default
    actions) *)

Module Seed.

Section CreateIfNotExist.
Context {D S : Type}.

(** [doc[key]] of the document to create, [key] of a stored one, and
    [models[model].create]. *)
Variable doc_key : D -> option string.
Variable stored_key : S -> string.
Variable create : D -> string -> Z -> list S -> cbres S * list S.

(** The query [q] with [q[key] = doc[key]]. *)
Definition same_key (doc : D) (s : S) : bool :=
  match doc_key doc with
  | Some k => String.eqb (stored_key s) k
  | None => false
  end.

(** [createIfNotExist]: the document is created when [findOne(q)] finds
    nothing, and the stored one is handed back otherwise. The message
    that the console gets in that case is left out. *)
Definition createIfNotExist (doc : D) (newId : string) (now : Z) (coll : list S)
  : cbres S * list S :=
  match find (same_key doc) coll with
  | None => create doc newId now coll
  | Some result => (CbOk result, coll)
  end.

End CreateIfNotExist.

(** [action.authorId = defaultUserId] *)
Definition with_author (defaultUserId : string) (action : Actions.actionInput)
  : Actions.actionInput :=
  {| Actions.ia_name := Actions.ia_name action;
     Actions.ia_nameIt := Actions.ia_nameIt action;
     Actions.ia_nameSe := Actions.ia_nameSe action;
     Actions.ia_description := Actions.ia_description action;
     Actions.ia_descriptionIt := Actions.ia_descriptionIt action;
     Actions.ia_descriptionSe := Actions.ia_descriptionSe action;
     Actions.ia_category := Actions.ia_category action;
     Actions.ia_type := Actions.ia_type action;
     Actions.ia_season := Actions.ia_season action;
     Actions.ia_ratings := Actions.ia_ratings action;
     Actions.ia_impact := Actions.ia_impact action;
     Actions.ia_effort := Actions.ia_effort action;
     Actions.ia_authorId := Some defaultUserId |}.

(** [createIfNotExist('actions', 'name', action, ...)] *)
Definition createAction (action : Actions.actionInput) (newId : string) (now : Z)
    (coll : list Actions.action) : cbres Actions.action * list Actions.action :=
  createIfNotExist Actions.ia_name Actions.a_name Actions.create action newId now coll.

(** The second step of [async.series]: [async.eachSeries(data.actions, ...)]
    creates the actions one after the other and stops at the first
    error. [gen k] and [clock k] are the ObjectId and the date of the
    [k]-th call. *)
Fixpoint seedActions (defaultUserId : string) (data : list Actions.actionInput)
    (gen : nat -> string) (clock : nat -> Z) (k : nat) (coll : list Actions.action)
  : cbres unit * list Actions.action :=
  match data with
  | [] => (CbOk tt, coll)
  | action :: data' =>
      match createAction (with_author defaultUserId action) (gen k) (clock k) coll with
      | (CbOk _, coll') => seedActions defaultUserId data' gen clock (S k) coll'
      | (CbErr err, coll') => (CbErr err, coll')
      | (CbErrObj err, coll') => (CbErrObj err, coll')
      end
  end.

End Seed.

(** * Statements of the specification and sample data *)

(** ** The effort estimate *)

(** An entry as [Actions.rate] leaves it: the effort is missing or one of
    1..5. *)
Definition submitted (r : Actions.rating) : Prop :=
  match Actions.rt_effort r with
  | Some e => 1 <= e <= 5
  | None => True
  end.

(** The array of the specification: five copies of the stored effort,
    then the effort of every rating that has one, in iteration order. *)
Definition spec_effortEstimates (a : Actions.actionObj) : list (option Z) :=
  (replicate 5 (Actions.o_effort a)
   ++ filter (fun e => is_Some e)
        (map Actions.rt_effort
           (JsObject.values (default [] (Actions.o_ratings a)))))%list.

(** ** Sequences of rating calls *)

(** One call of [Actions.rate] on a given action. *)
Record rateCall : Type := {
  rc_user : option userDoc;
  rc_rating : option Z;
  rc_effort : option Z;
  rc_now : Z
}.

(** The calls are run in order on the collection; the result is the list
    of the users whose call succeeded, and the collection at the end. *)
Fixpoint rate_seq (id : string) (calls : list rateCall) (actions : list Actions.action)
  : list string * list Actions.action :=
  match calls with
  | [] => ([], actions)
  | c :: calls' =>
      let '(r, actions1) :=
        Actions.rate id (rc_user c) (rc_rating c) (rc_effort c) (rc_now c) actions in
      let '(raters, final) := rate_seq id calls' actions1 in
      (match r, rc_user c ≫= u_id with
       | CbOk _, Some uid => uid :: raters
       | _, _ => raters
       end, final)
  end.

(** One call of [ActionComments.rate] on a given comment. *)
Record likeCall : Type := {
  lc_user : option userDoc;
  lc_rating : option Z;
  lc_now : Z
}.

Fixpoint like_seq (actionId commentId : string) (calls : list likeCall)
    (coll : list ActionComments.aComment)
  : list string * list ActionComments.aComment :=
  match calls with
  | [] => ([], coll)
  | c :: calls' =>
      let '(r, coll1) :=
        ActionComments.rate actionId commentId (lc_user c) (lc_rating c) (lc_now c) coll in
      let '(raters, final) := like_seq actionId commentId calls' coll1 in
      (match r, lc_user c ≫= u_id with
       | CbOk _, Some uid => uid :: raters
       | _, _ => raters
       end, final)
  end.

(** The values that [Actions.rate] takes: a rating that is 0, 1 or not
    given, an effort in 1..5 or not given. *)
Definition valid_rating (rating : option Z) : Prop :=
  rating = None \/ rating = Some 0 \/ rating = Some 1.

Definition valid_effort (effort : option Z) : Prop :=
  match effort with
  | Some e => 1 <= e <= 5
  | None => True
  end.

(** A call of [Actions.rate] by a user who has an id and a name, with
    such values; a call of [ActionComments.rate] by a user who has an id,
    with a like that is 0 or 1. *)
Definition valid_call (c : rateCall) : Prop :=
  (exists u uid name,
      rc_user c = Some u /\ u_id u = Some uid
      /\ u_profile u ≫= p_name = Some name /\ name <> "")
  /\ valid_rating (rc_rating c) /\ valid_effort (rc_effort c).

Definition valid_like (c : likeCall) : Prop :=
  (exists u uid, lc_user c = Some u /\ u_id u = Some uid)
  /\ (lc_rating c = Some 0 \/ lc_rating c = Some 1).

(** The users who make the calls of a run. *)
Definition callers (calls : list rateCall) : list string :=
  omap (fun c => rc_user c ≫= u_id) calls.

Definition likers (calls : list likeCall) : list string :=
  omap (fun c => lc_user c ≫= u_id) calls.

(** The query [{_id: id}] on the actions. *)
Definition by_id (id : string) (a : Actions.action) : bool :=
  String.eqb (Actions.a_id a) id.

(** ** Sample data *)

Definition no_actions : userActions :=
  {| ua_done := ∅; ua_declined := ∅; ua_na := ∅; ua_pending := ∅;
     ua_inProgress := ∅ |}.

Definition sample_user (id : string) (language : string) : userDoc :=
  {| u_id := Some id; u_email := "testuser1@test.com";
     u_profile := Some {| p_name := Some "Test User"; p_language := Some language |};
     u_actions := no_actions |}.

Definition jane : userDoc := sample_user "5593ccfa9255daa130890164" "English".
Definition jack : userDoc := sample_user "5593ccfa9255daa130890165" "Italian".

Definition sample_action (id name : string) (ratings : JsObject.t Actions.rating)
  : Actions.action :=
  {| Actions.a_id := id; Actions.a_name := name;
     Actions.a_nameSe := None; Actions.a_nameIt := None;
     Actions.a_type := "onetime"; Actions.a_category := None;
     Actions.a_season := None;
     Actions.a_description := "Disabling standby can save up to 10% in total electricity costs.";
     Actions.a_descriptionSe := None; Actions.a_descriptionIt := None;
     Actions.a_impact := 3; Actions.a_effort := 3;
     Actions.a_ratings := ratings; Actions.a_date := 1435752273599;
     Actions.a_authorId := "5593ccfa9255daa130890160" |}.

Definition standby : Actions.action :=
  sample_action "5594dbeadfbb985d0ac150c4" "Disable standby" [].

Definition sample_comment (ratings : JsObject.t ActionComments.commentRating)
  : ActionComments.aComment :=
  {| ActionComments.c_id := "555f0163688305b57c7cef6d";
     ActionComments.c_actionId := "5594dbeadfbb985d0ac150c4";
     ActionComments.c_userId := "5593ccfa9255daa130890164";
     ActionComments.c_name := "Test User";
     ActionComments.c_email := "testuser1@test.com";
     ActionComments.c_comment := "This is an amazing and easy to perform action!";
     ActionComments.c_date := 1435752273599;
     ActionComments.c_hasPicture := false;
     ActionComments.c_ratings := ratings |}.

(** Jane likes the action, Jack does not, Jane then changes her effort
    estimate only. *)
Definition sample_calls : list rateCall :=
  [ {| rc_user := Some jane; rc_rating := Some 1; rc_effort := Some 2; rc_now := 10 |};
    {| rc_user := Some jack; rc_rating := Some 0; rc_effort := Some 5; rc_now := 11 |};
    {| rc_user := Some jane; rc_rating := None; rc_effort := Some 4; rc_now := 12 |} ].

Definition sample_likes : list likeCall :=
  [ {| lc_user := Some jane; lc_rating := Some 1; lc_now := 10 |};
    {| lc_user := Some jack; lc_rating := Some 1; lc_now := 11 |};
    {| lc_user := Some jane; lc_rating := Some 0; lc_now := 12 |} ].

(** An action that six users have rated, with their effort estimates. *)
Definition effort_entry (e : option Z) : Actions.rating :=
  {| Actions.rt_rating := Some 1; Actions.rt_effort := e;
     Actions.rt_name := "Test User"; Actions.rt_date := 10 |}.

Definition rated_by_six : Actions.actionObj :=
  Actions.toObject
    (sample_action "5594dbeadfbb985d0ac150c5" "Lower the thermostat"
       [("5593ccfa9255daa130890161", effort_entry (Some 1));
        ("5593ccfa9255daa130890162", effort_entry None);
        ("5593ccfa9255daa130890163", effort_entry (Some 2));
        ("5593ccfa9255daa130890164", effort_entry (Some 4));
        ("5593ccfa9255daa130890165", effort_entry (Some 5));
        ("5593ccfa9255daa130890166", effort_entry (Some 5));
        ("5593ccfa9255daa130890167", effort_entry (Some 1))]).

(** ** The rating reduction *)

Definition positive (v : option Z) : bool :=
  match v with
  | Some z => 0 <? z
  | None => false
  end.

(** The number of entries of a rating map whose value is positive. *)
Definition count_positive {V} (val : V -> option Z) (ratings : JsObject.t V) : Z :=
  Z.of_nat (length (List.filter (fun r => positive (val r)) (JsObject.values ratings))).

(** The values that the two [rate] operations store: a like is 0 or 1, a
    rating of an action is 0, 1 or missing. *)
Definition like_value (r : ActionComments.commentRating) : Prop :=
  ActionComments.cr_value r = Some 0 \/ ActionComments.cr_value r = Some 1.

Definition rating_value (r : Actions.rating) : Prop :=
  Actions.rt_rating r = None \/ Actions.rt_rating r = Some 0
  \/ Actions.rt_rating r = Some 1.

Definition likes_stored (coll : list ActionComments.aComment) : Prop :=
  Forall (fun c => Forall like_value (JsObject.values (ActionComments.c_ratings c))) coll.

Definition ratings_stored (actions : list Actions.action) : Prop :=
  Forall (fun a => JsObject.wf (Actions.a_ratings a)
                   /\ Forall rating_value (JsObject.values (Actions.a_ratings a)))
    actions.

(** [co] is the reduction of the stored comment [c] for the requesting
    user [user]: the likes are counted, the user's own like is exposed,
    the map is gone. *)
Definition reduced_comment (user : idval) (c : ActionComments.aComment)
    (co : ActionComments.aCommentObj) : Prop :=
  ActionComments.co_id co = ActionComments.c_id c
  /\ ActionComments.co_numLikes co
      = Some (count_positive ActionComments.cr_value (ActionComments.c_ratings c))
  /\ (forall r, str_truthy (String_ user) = true ->
         JsObject.get (String_ user) (ActionComments.c_ratings c) = Some r ->
         ActionComments.co_userRating co = ActionComments.cr_value r)
  /\ ActionComments.co_ratings co = None.

(** [o] carries the statistics of the stored action [a] for the
    requesting user: the likes are counted and the user's own rating is
    exposed. What becomes of the map is stated apart. *)
Definition rated_action (user : idval) (a : Actions.action) (o : Actions.actionObj)
  : Prop :=
  Actions.o_id o = Actions.a_id a
  /\ Actions.o_numLikes o = Some (count_positive Actions.rt_rating (Actions.a_ratings a))
  /\ (forall r, JsObject.get (String_ user) (Actions.a_ratings a) = Some r ->
         Actions.o_userRating o = Actions.rt_rating r).

(** The id that the comment reads pass to [calcRating]. *)
Definition requester (user : option userDoc) : idval :=
  match user with Some u => id_of u | None => IdNull end.

(** ** Orders *)

(** The ascending order of [orderBy] on a key. *)
Definition ascending {A} (key : A -> Z) (x y : A) : Prop := key x <= key y.

(** An action that Jane likes and Jack does not. *)
Definition liked : Actions.action :=
  sample_action "5594dbeadfbb985d0ac150c6" "Air dry the laundry"
    [("5593ccfa9255daa130890164",
      {| Actions.rt_rating := Some 1; Actions.rt_effort := Some 2;
         Actions.rt_name := "Test User"; Actions.rt_date := 10 |});
     ("5593ccfa9255daa130890165",
      {| Actions.rt_rating := Some 0; Actions.rt_effort := Some 5;
         Actions.rt_name := "Test User"; Actions.rt_date := 11 |})].

(** A comment on it that both like. *)
Definition liked_comment : ActionComments.aComment :=
  sample_comment
    [("5593ccfa9255daa130890164",
      {| ActionComments.cr_value := Some 1; ActionComments.cr_date := 10 |});
     ("5593ccfa9255daa130890165",
      {| ActionComments.cr_value := Some 1; ActionComments.cr_date := 11 |})].

(** ** Suggested actions *)

(** The projection and the renaming of the branch of [getSuggested] that
    the user's language selects. *)
Definition select_for (user : userDoc) : Actions.action -> Actions.suggestion :=
  if Actions.lang_is (Actions.language user) "Italian" then Actions.select_It
  else if Actions.lang_is (Actions.language user) "Swedish" then Actions.select_Se
  else Actions.select_En.

Definition rename_for (user : userDoc) : Actions.suggestion -> Actions.suggestion :=
  if Actions.lang_is (Actions.language user) "Italian" then Actions.rename_It
  else if Actions.lang_is (Actions.language user) "Swedish" then Actions.rename_Se
  else fun s => s.

(** The reading of "shuffle, and cap at 5": the candidates are always
    shuffled, then cut. *)
Definition spec_getSuggested (user : userDoc) (rnd : nat -> nat)
    (actions : list Actions.action) : list Actions.suggestion :=
  map (rename_for user)
    (take 5 (Actions.shuffleArray rnd (map (select_for user) (Actions.candidates user actions)))).

(** The action is in none of the five status dictionaries of the user. *)
Definition in_no_bucket (user : userDoc) (id : string) : Prop :=
  ua_done (u_actions user) !! id = None
  /\ ua_declined (u_actions user) !! id = None
  /\ ua_na (u_actions user) !! id = None
  /\ ua_pending (u_actions user) !! id = None
  /\ ua_inProgress (u_actions user) !! id = None.

(** ** Runs of the join handler *)

(** Join requests handled one after the other. *)
Definition join_seq {store community : Type}
    (util_inspect : list CommunityRoutes.validationError -> string)
    (Community_addMember : string -> idval -> store -> cbres community * store)
    (User_getUserCommunities : idval -> store -> cbres (list community))
    (reqs : list (CommunityRoutes.request unit)) (sv : CommunityRoutes.server)
  : CommunityRoutes.server :=
  fold_left
    (fun sv req =>
       (CommunityRoutes.put_join util_inspect Community_addMember
          User_getUserCommunities req sv).2)
    reqs sv.

(** A stand-in for the community model, to run the handlers on sample
    requests: a community is its id with the ids of its members. *)
Definition sample_community : Type := string * list string.

Definition sample_addMember (id : string) (userId : idval) (st : list sample_community)
  : cbres sample_community * list sample_community :=
  match find (fun c => String.eqb c.1 id) st with
  | None => (CbErr "Community not found", st)
  | Some c =>
      let c' := (c.1, (c.2 ++ [String_ userId])%list) in
      (CbOk c', update_first (fun c => String.eqb c.1 id) (fun _ => c') st)
  end.

Definition sample_getUserCommunities (userId : idval) (st : list sample_community)
  : cbres (list sample_community) :=
  CbOk (filter (fun c => String_ userId ∈ c.2) st).

Definition sample_inspect (errs : list CommunityRoutes.validationError) : string :=
  String.concat ", " (map CommunityRoutes.ve_msg errs).

Definition sample_server (st : list sample_community) : CommunityRoutes.server :=
  {| CommunityRoutes.sv_store := st; CommunityRoutes.sv_comments := [];
     CommunityRoutes.sv_achievements := ∅; CommunityRoutes.sv_logs := [] |}.

Definition two_communities : list sample_community :=
  [("555ef84b2fd41ffc6e078a34", []); ("555ef84b2fd41ffc6e078a35", [])].

(** ** Responses to an invalid id *)

(** Status 500 with the validation-error message for the path parameter
    [param] whose value [id] is not a MongoId. *)
Definition invalid_id_response {A} (util_inspect : list CommunityRoutes.validationError -> string)
    (param msg id : string) : CommunityRoutes.response A :=
  {| CommunityRoutes.status := 500;
     CommunityRoutes.sent :=
       CommunityRoutes.Text
         ("There have been validation errors: "
          ++ util_inspect [{| CommunityRoutes.ve_param := param;
                              CommunityRoutes.ve_msg := msg;
                              CommunityRoutes.ve_value := Some id |}]) |}.

(** The body of the example request of the API documentation of
    [POST /community/:communityId/comment], and a body that names
    another community. *)
Definition fun_comment (communityId : option string) : CommunityComments.commentInput :=
  {| CommunityComments.ci_communityId := communityId;
     CommunityComments.ci_actionId := None;
     CommunityComments.ci_userId := None;
     CommunityComments.ci_name := None;
     CommunityComments.ci_email := None;
     CommunityComments.ci_comment := Some "This is a fun community!" |}.

(** ** Cooperatives *)

(** The query [{_id: id}] on the cooperatives. *)
Definition coop_by_id (id : string) (c : Cooperatives.cooperative) : bool :=
  String.eqb (Cooperatives.cp_id c) id.

(** The ids of the embedded sub-documents. *)
Definition action_ids (c : Cooperatives.cooperative) : list string :=
  map Cooperatives.ca_id (Cooperatives.cp_actions c).



Definition insulation : Cooperatives.coopActionInput :=
  {| Cooperatives.cai_id := None; Cooperatives.cai_name := Some "Roof insulation";
     Cooperatives.cai_description := Some "200 mm of mineral wool";
     Cooperatives.cai_date := Some 1435752273599 |}.

Definition windows : Cooperatives.coopAction :=
  {| Cooperatives.ca_id := "577f0163688305b57c7cef01";
     Cooperatives.ca_name := Some "New windows";
     Cooperatives.ca_description := None; Cooperatives.ca_date := None |}.

Definition pumps : Cooperatives.coopAction :=
  {| Cooperatives.ca_id := "577f0163688305b57c7cef02";
     Cooperatives.ca_name := Some "Heat pumps";
     Cooperatives.ca_description := None; Cooperatives.ca_date := None |}.

Definition sample_cooperative : Cooperatives.cooperative :=
  {| Cooperatives.cp_id := "566f0163688305b57c7cef00";
     Cooperatives.cp_name := "BRF Hammarby Kaj"; Cooperatives.cp_yearOfConst := 2003;
     Cooperatives.cp_area := 11000; Cooperatives.cp_meters := None;
     Cooperatives.cp_actions := [windows; pumps] |}.

(** An input of [create] with an empty name. *)
Definition unnamed_input : Cooperatives.cooperativeInput :=
  {| Cooperatives.in_name := Some "";
     Cooperatives.in_yearOfConst := Some 1998; Cooperatives.in_area := Some 8500;
     Cooperatives.in_meters := None; Cooperatives.in_actions := [] |}.

(** An input of [create] that also gives meters and actions. *)
Definition full_input : Cooperatives.cooperativeInput :=
  {| Cooperatives.in_name := Some "BRF Sjostaden";
     Cooperatives.in_yearOfConst := Some 1998; Cooperatives.in_area := Some 8500;
     Cooperatives.in_meters :=
       Some {| Cooperatives.m_electricity := Some "735999114"; Cooperatives.m_heating := None |};
     Cooperatives.in_actions := [insulation] |}.

(** ** The rehearsal *)

(** The lists that the rehearse settings enable, one after the other. *)
Definition spec_collect (s : ActionsCtrl.scope) : list ActionsCtrl.userAction :=
  ((if ActionsCtrl.tr_done (ActionsCtrl.sc_toRehearse s)
    then JsObject.values (ActionsCtrl.al_done (ActionsCtrl.sc_actions s)) else [])
   ++ (if ActionsCtrl.tr_declined (ActionsCtrl.sc_toRehearse s)
       then JsObject.values (ActionsCtrl.al_declined (ActionsCtrl.sc_actions s)) else [])
   ++ (if ActionsCtrl.tr_na (ActionsCtrl.sc_toRehearse s)
       then JsObject.values (ActionsCtrl.al_na (ActionsCtrl.sc_actions s)) else []))%list.

Definition entry (id : string) (latestDate : Z) : string * ActionsCtrl.userAction :=
  (id, {| ActionsCtrl.fa_id := id; ActionsCtrl.fa_latestDate := latestDate |}).

(** A user with two actions done, one declined and one not applicable,
    who rehearses all three lists. *)
Definition sample_scope : ActionsCtrl.scope :=
  {| ActionsCtrl.sc_toRehearse :=
       {| ActionsCtrl.tr_done := true; ActionsCtrl.tr_declined := true;
          ActionsCtrl.tr_na := true |};
     ActionsCtrl.sc_actions :=
       {| ActionsCtrl.al_done :=
            [entry "5594dbeadfbb985d0ac150c4" 40; entry "5594dbeadfbb985d0ac150c5" 10];
          ActionsCtrl.al_declined := [entry "5594dbeadfbb985d0ac150c6" 30];
          ActionsCtrl.al_na := [entry "5594dbeadfbb985d0ac150c7" 20];
          ActionsCtrl.al_pending := []; ActionsCtrl.al_inProgress := [] |};
     ActionsCtrl.sc_idx := 5; ActionsCtrl.sc_lastActionUsed := false;
     ActionsCtrl.sc_suggestedActions := [];
     ActionsCtrl.g_actios := None; ActionsCtrl.sc_effects := [] |}.

(** The same user with rehearsal switched off. *)
Definition quiet_scope : ActionsCtrl.scope :=
  {| ActionsCtrl.sc_toRehearse :=
       {| ActionsCtrl.tr_done := false; ActionsCtrl.tr_declined := false;
          ActionsCtrl.tr_na := false |};
     ActionsCtrl.sc_actions := ActionsCtrl.sc_actions sample_scope;
     ActionsCtrl.sc_idx := 5; ActionsCtrl.sc_lastActionUsed := false;
     ActionsCtrl.sc_suggestedActions := [snd (entry "5594dbeadfbb985d0ac150c8" 50)];
     ActionsCtrl.g_actios := None; ActionsCtrl.sc_effects := [] |}.

(** ** Further statements *)

(** The descending order of [.sort({key: -1})] on a key. *)
Definition descending {A} (key : A -> Z) (x y : A) : Prop := key y <= key x.

(** The list that a read hands to its callback, empty on an error. *)
Definition ok_list {A} (r : cbres (list A)) : list A :=
  match r with
  | CbOk l => l
  | _ => []
  end.

(** The entries of a rating map that belong to other users than [uid]. *)
Definition others {V} (uid : string) (ratings : JsObject.t V) : JsObject.t V :=
  List.filter (fun kv => negb (String.eqb kv.1 uid)) ratings.

(** A comment of Jack on the sample action. *)
Definition easy_comment : ActionComments.aCommentInput :=
  {| ActionComments.ai_actionId := Some "5594dbeadfbb985d0ac150c4";
     ActionComments.ai_userId := Some "5593ccfa9255daa130890165";
     ActionComments.ai_name := Some "Test User";
     ActionComments.ai_email := Some "testuser1@test.com";
     ActionComments.ai_comment := Some "Easy to do.";
     ActionComments.ai_ratings := None |}.

(** The comment [co] as a reader sees it once the comment [commentId] has
    its picture flag set to [value]. *)
Definition show_picture (commentId : string) (value : bool)
    (co : ActionComments.aCommentObj) : ActionComments.aCommentObj :=
  if String.eqb (ActionComments.co_id co) commentId then
    {| ActionComments.co_id := ActionComments.co_id co;
       ActionComments.co_actionId := ActionComments.co_actionId co;
       ActionComments.co_userId := ActionComments.co_userId co;
       ActionComments.co_name := ActionComments.co_name co;
       ActionComments.co_email := ActionComments.co_email co;
       ActionComments.co_comment := ActionComments.co_comment co;
       ActionComments.co_date := ActionComments.co_date co;
       ActionComments.co_hasPicture := value;
       ActionComments.co_ratings := ActionComments.co_ratings co;
       ActionComments.co_numLikes := ActionComments.co_numLikes co;
       ActionComments.co_userRating := ActionComments.co_userRating co |}
  else co.

(** The sample action with an Italian name and an empty Italian
    description. *)
Definition standby_it : Actions.action :=
  {| Actions.a_id := "5594dbeadfbb985d0ac150c4"; Actions.a_name := "Disable standby";
     Actions.a_nameSe := None; Actions.a_nameIt := Some "Spegni lo standby";
     Actions.a_type := "onetime"; Actions.a_category := None;
     Actions.a_season := None;
     Actions.a_description := "Disabling standby can save up to 10% in total electricity costs.";
     Actions.a_descriptionSe := None; Actions.a_descriptionIt := Some "";
     Actions.a_impact := 3; Actions.a_effort := 3;
     Actions.a_ratings := []; Actions.a_date := 1435752273599;
     Actions.a_authorId := "5593ccfa9255daa130890160" |}.

(** A comment on the action that Jane likes, and a user who has that
    action in progress. *)
Definition easy_stored : ActionComments.aComment :=
  {| ActionComments.c_id := "555f0163688305b57c7cef71";
     ActionComments.c_actionId := "5594dbeadfbb985d0ac150c6";
     ActionComments.c_userId := "5593ccfa9255daa130890165";
     ActionComments.c_name := "Test User";
     ActionComments.c_email := "testuser1@test.com";
     ActionComments.c_comment := "Easy to do.";
     ActionComments.c_date := 1435752273600;
     ActionComments.c_hasPicture := false;
     ActionComments.c_ratings := [] |}.

Definition busy_user : userDoc :=
  {| u_id := Some "5593ccfa9255daa130890166"; u_email := "testuser2@test.com";
     u_profile := Some {| p_name := Some "Busy User"; p_language := None |};
     u_actions :=
       {| ua_done := ∅; ua_declined := ∅; ua_na := ∅; ua_pending := ∅;
          ua_inProgress := {[ "5594dbeadfbb985d0ac150c6" := 1435752273599 ]} |} |}.

(** Two actions of the seed data, the second without an effort. *)
Definition showers : Actions.actionInput :=
  {| Actions.ia_name := Some "Take shorter showers";
     Actions.ia_nameIt := None; Actions.ia_nameSe := None;
     Actions.ia_description := Some "Five minutes are enough.";
     Actions.ia_descriptionIt := None; Actions.ia_descriptionSe := None;
     Actions.ia_category := Some "water"; Actions.ia_type := Some "routine";
     Actions.ia_season := None; Actions.ia_ratings := None;
     Actions.ia_impact := Some 4; Actions.ia_effort := Some 2;
     Actions.ia_authorId := None |}.

Definition curtains : Actions.actionInput :=
  {| Actions.ia_name := Some "Close the curtains at night";
     Actions.ia_nameIt := None; Actions.ia_nameSe := None;
     Actions.ia_description := Some "Curtains keep the heat in.";
     Actions.ia_descriptionIt := None; Actions.ia_descriptionSe := None;
     Actions.ia_category := None; Actions.ia_type := None;
     Actions.ia_season := Some "winter"; Actions.ia_ratings := None;
     Actions.ia_impact := None; Actions.ia_effort := None;
     Actions.ia_authorId := None |}.

(** Generated ids and dates of the sample runs. *)
Definition sample_gen (k : nat) : string :=
  String.append "5594dbeadfbb985d0ac15" (String (Ascii.ascii_of_nat (97 + k)) "00").

Definition sample_clock (k : nat) : Z := 1435752273599 + Z.of_nat k.

(** The object that the comment route hands to [create] when the body
    names the community. *)
Definition posted_comment : CommunityComments.commentInput :=
  {| CommunityComments.ci_communityId := Some "555f0163688305b57c7cef6c";
     CommunityComments.ci_actionId := None;
     CommunityComments.ci_userId := Some "5593ccfa9255daa130890164";
     CommunityComments.ci_name := Some "Test User";
     CommunityComments.ci_email := Some "testuser1@test.com";
     CommunityComments.ci_comment := Some "This is a fun community!" |}.

Definition stored_comment (id : string) (date : Z) : CommunityComments.communityComment :=
  {| CommunityComments.cc_id := id;
     CommunityComments.cc_communityId := "555f0163688305b57c7cef6c";
     CommunityComments.cc_userId := "5593ccfa9255daa130890164";
     CommunityComments.cc_name := "Test User";
     CommunityComments.cc_email := "testuser1@test.com";
     CommunityComments.cc_comment := "This is a fun community!";
     CommunityComments.cc_date := date |}.

(** A comment on the sample action with the given id and date. *)
Definition dated_comment (id : string) (date : Z) : ActionComments.aComment :=
  {| ActionComments.c_id := id;
     ActionComments.c_actionId := "5594dbeadfbb985d0ac150c4";
     ActionComments.c_userId := "5593ccfa9255daa130890164";
     ActionComments.c_name := "Test User";
     ActionComments.c_email := "testuser1@test.com";
     ActionComments.c_comment := "This is an amazing and easy to perform action!";
     ActionComments.c_date := date;
     ActionComments.c_hasPicture := false;
     ActionComments.c_ratings := [] |}.

(** The query [{actionId: actionId}] on the comments. *)
Definition on_action (actionId : string) (c : ActionComments.aComment) : bool :=
  String.eqb (ActionComments.c_actionId c) actionId.

(** * Properties *)

(** ** Ordered dictionaries *)

Section JsObjectFacts.
Context {V : Type}.
Implicit Types (o : JsObject.t V) (k : string) (v : V).

Lemma eqb_refl_true k : String.eqb k k = true.
Proof. apply String.eqb_eq; reflexivity. Qed.

Lemma eqb_neq_false k k' : k ≠ k' -> String.eqb k k' = false.
Proof. intros H; apply String.eqb_neq; exact H. Qed.

Lemma jsobject_get_set_eq k v o : JsObject.get k (JsObject.set k v o) = Some v.
Proof.
  induction o as [|[k' v'] o IH]; simpl.
  - rewrite eqb_refl_true; reflexivity.
  - destruct (String.eqb k k') eqn:E; simpl; rewrite ?eqb_refl_true, ?E; auto.
Qed.

Lemma jsobject_get_set_ne k k' v o :
  k ≠ k' -> JsObject.get k' (JsObject.set k v o) = JsObject.get k' o.
Proof.
  intros Hne.
  assert (Hf : String.eqb k' k = false) by (apply eqb_neq_false; congruence).
  induction o as [|[k0 v0] o IH]; simpl.
  - rewrite Hf; reflexivity.
  - destruct (String.eqb k k0) eqn:E; simpl.
    + apply String.eqb_eq in E; subst k0. rewrite Hf; reflexivity.
    + rewrite IH; reflexivity.
Qed.

Lemma jsobject_get_None k o : JsObject.get k o = None <-> k ∉ JsObject.keys o.
Proof.
  induction o as [|[k' v'] o IH]; simpl.
  - split; [intros _; apply not_elem_of_nil | reflexivity].
  - destruct (String.eqb k k') eqn:E.
    + apply String.eqb_eq in E; subst. split; [discriminate|].
      intros H; exfalso; apply H; left.
    + apply String.eqb_neq in E. rewrite IH, not_elem_of_cons. tauto.
Qed.

Lemma jsobject_get_Some_elem k v o : JsObject.get k o = Some v -> (k, v) ∈ o.
Proof.
  induction o as [|[k' v'] o IH]; simpl; [discriminate|].
  destruct (String.eqb k k') eqn:E.
  - apply String.eqb_eq in E; subst. intros [= ->]; left.
  - intros H; right; auto.
Qed.

(** Writing a key that is present rewrites its entry in place. *)
Lemma jsobject_keys_set_present k v o :
  k ∈ JsObject.keys o -> JsObject.keys (JsObject.set k v o) = JsObject.keys o.
Proof.
  induction o as [|[k' v'] o IH]; simpl.
  - intros H; inversion H.
  - intros H. destruct (String.eqb k k') eqn:E; simpl.
    + apply String.eqb_eq in E; subst; reflexivity.
    + apply String.eqb_neq in E. apply elem_of_cons in H as [H|H]; [done|].
      f_equal; auto.
Qed.

(** Writing a new key adds it after the others. *)
Lemma jsobject_keys_set_absent k v o :
  k ∉ JsObject.keys o -> JsObject.keys (JsObject.set k v o) = (JsObject.keys o ++ [k])%list.
Proof.
  induction o as [|[k' v'] o IH]; simpl; [reflexivity|].
  intros H. apply not_elem_of_cons in H as [Hne H].
  rewrite (eqb_neq_false _ _ Hne); simpl. f_equal; auto.
Qed.

Lemma jsobject_wf_set k v o : JsObject.wf o -> JsObject.wf (JsObject.set k v o).
Proof.
  unfold JsObject.wf. intros Hwf.
  destruct (decide (k ∈ JsObject.keys o)) as [Hin|Hout].
  - rewrite jsobject_keys_set_present; auto.
  - rewrite jsobject_keys_set_absent by auto.
    apply NoDup_app; repeat split; auto.
    + intros x Hx Hx'. apply list_elem_of_singleton in Hx'; subst; auto.
    + apply NoDup_singleton.
Qed.

Lemma jsobject_keys_set_subseteq k v o :
  JsObject.keys (JsObject.set k v o) ⊆ k :: JsObject.keys o.
Proof.
  destruct (decide (k ∈ JsObject.keys o)) as [Hin|Hout].
  - rewrite jsobject_keys_set_present by auto. intros x Hx; right; exact Hx.
  - rewrite jsobject_keys_set_absent by auto. intros x Hx.
    apply elem_of_app in Hx as [Hx|Hx]; [right; exact Hx|].
    apply list_elem_of_singleton in Hx; subst; left.
Qed.

Lemma jsobject_elem_of_keys_set k' k v o :
  k' ∈ JsObject.keys (JsObject.set k v o) <-> k' = k \/ k' ∈ JsObject.keys o.
Proof.
  destruct (decide (k ∈ JsObject.keys o)) as [Hin|Hout].
  - rewrite jsobject_keys_set_present by auto.
    split; [auto | intros [->|H]; auto].
  - rewrite jsobject_keys_set_absent by auto.
    rewrite elem_of_app, list_elem_of_singleton. tauto.
Qed.

Lemma jsobject_each_app {S} (f : S -> V -> S) o1 o2 (s : S) :
  JsObject.each f (o1 ++ o2)%list s = JsObject.each f o2 (JsObject.each f o1 s).
Proof. unfold JsObject.each, JsObject.values. rewrite map_app, fold_left_app; reflexivity. Qed.

End JsObjectFacts.

(** ** The effort estimate *)

Section EffortEstimate.
Import Actions.

Lemma push_times_replicate {A} n (x : A) arr :
  push_times n x arr = (arr ++ replicate n x)%list.
Proof.
  revert arr; induction n as [|n IH]; intros arr; simpl.
  - rewrite app_nil_r; reflexivity.
  - rewrite IH, <- app_assoc; reflexivity.
Qed.

Lemma submitted_truthy r : submitted r -> truthy (rt_effort r) = bool_decide (is_Some (rt_effort r)).
Proof.
  unfold submitted, truthy. destruct (rt_effort r) as [e|]; intros H.
  - rewrite bool_decide_eq_true_2 by eauto.
    destruct (Z.eqb_spec e 0); [lia | reflexivity].
  - rewrite bool_decide_eq_false_2; [reflexivity | intros [? ?]; discriminate].
Qed.

Lemma each_effort_filter (rs : list rating) (acc : list (option Z)) :
  Forall submitted rs ->
  fold_left
    (fun effortEstimates rating =>
       if truthy (rt_effort rating)
       then (effortEstimates ++ [rt_effort rating])%list
       else effortEstimates) rs acc
  = (acc ++ filter (fun e => is_Some e) (map rt_effort rs))%list.
Proof.
  intros H; revert acc; induction H as [|r rs Hr _ IH]; intros acc; simpl.
  - rewrite app_nil_r; reflexivity.
  - rewrite IH, (submitted_truthy r Hr). rewrite filter_cons.
    destruct (decide (is_Some (rt_effort r))) as [Hs|Hs].
    + rewrite bool_decide_eq_true_2 by exact Hs. rewrite <- app_assoc; reflexivity.
    + rewrite bool_decide_eq_false_2 by exact Hs. reflexivity.
Qed.

Lemma includeMeanEffort_estimates (a : actionObj) :
  Forall submitted (JsObject.values (default [] (o_ratings a))) ->
  o_effort (includeMeanEffort a)
  = mjoin (spec_effortEstimates a !! parseInt_half (length (spec_effortEstimates a))).
Proof.
  intros H. unfold includeMeanEffort, JsObject.each; simpl o_effort.
  rewrite each_effort_filter by exact H.
  reflexivity.
Qed.

Lemma half_lt n : (0 < n)%nat -> (Nat.div n 2 < n)%nat.
Proof. intros H. apply Nat.div_lt; lia. Qed.

(** C1: under ratings submitted through [rate], the effort that a read
    derives is the element at index floor(n/2) of the array made of five
    copies of the stored effort followed by the efforts of the ratings
    that have one, in iteration order, n being the length of that array;
    with no effort among the ratings it is the stored effort. *)
Theorem includeMeanEffort_middle_element (a : actionObj) :
  Forall submitted (JsObject.values (default [] (o_ratings a))) ->
  let est := spec_effortEstimates a in
  est !! Nat.div (length est) 2 = Some (o_effort (includeMeanEffort a))
  /\ (Forall (fun r => rt_effort r = None) (JsObject.values (default [] (o_ratings a))) ->
      o_effort (includeMeanEffort a) = o_effort a).
Proof.
  intros H est.
  assert (Hlen : (Nat.div (length est) 2 < length est)%nat).
  { apply half_lt. unfold est, spec_effortEstimates.
    rewrite length_app, length_replicate. lia. }
  destruct (lookup_lt_is_Some_2 est _ Hlen) as [x Hx].
  assert (Hval : o_effort (includeMeanEffort a) = x).
  { rewrite includeMeanEffort_estimates by exact H.
    fold est. unfold parseInt_half. rewrite Hx. reflexivity. }
  split.
  - rewrite Hx, Hval; reflexivity.
  - intros Hnone. rewrite Hval.
    assert (Hest : est = replicate 5 (o_effort a)).
    { unfold est, spec_effortEstimates.
      replace (filter _ _) with (@nil (option Z)); [apply app_nil_r|].
      symmetry. clear -Hnone.
      induction Hnone as [|r rs Hr _ IH]; simpl; [reflexivity|].
      rewrite filter_cons, Hr.
      destruct (decide (is_Some (@None Z))) as [[? ?]|_]; [discriminate | exact IH]. }
    rewrite Hest in Hx. simpl in Hx. congruence.
Qed.

Lemma includeMeanEffort_middle_element_witness :
  Forall submitted (JsObject.values (default [] (o_ratings rated_by_six)))
  /\ spec_effortEstimates rated_by_six !! 5%nat
     = Some (o_effort (includeMeanEffort rated_by_six))
  /\ o_effort (includeMeanEffort rated_by_six) = Some 1.
Proof.
  assert (H : Forall submitted (JsObject.values (default [] (o_ratings rated_by_six)))).
  { repeat constructor; unfold submitted; simpl; lia. }
  split; [exact H|].
  destruct (includeMeanEffort_middle_element rated_by_six H) as [Hmid _].
  split; [exact Hmid | reflexivity].
Defined.

End EffortEstimate.

(** ** Stored documents *)

Section StoreFacts.
Context {A : Type}.
Implicit Types (p : A -> bool) (l : list A).

Lemma find_update_first p (y : A) l x :
  find p l = Some x -> p y = true ->
  find p (update_first p (fun _ => y) l) = Some y.
Proof.
  intros Hf Hy. induction l as [|z l IH]; simpl in *; [discriminate|].
  destruct (p z) eqn:E; simpl.
  - rewrite Hy; reflexivity.
  - rewrite E; auto.
Qed.

Lemma update_first_not_found p f l : find p l = None -> update_first p f l = l.
Proof.
  induction l as [|z l IH]; simpl; [reflexivity|].
  destruct (p z); [discriminate|]. intros H; f_equal; auto.
Qed.

Lemma length_update_first p f l : length (update_first p f l) = length l.
Proof.
  induction l as [|z l IH]; simpl; [reflexivity|].
  destruct (p z); simpl; auto.
Qed.

Lemma find_Some_true p l x : find p l = Some x -> p x = true.
Proof. intros H; apply find_some in H; tauto. Qed.


End StoreFacts.

(** ** Rating an action or a comment *)

Section Rating.

(** A successful [Actions.rate], taken apart. *)
Lemma actions_rate_ok id user rating effort now actions action' actions' :
  Actions.rate id user rating effort now actions = (CbOk action', actions') ->
  exists u uid name action,
    user = Some u /\ u_id u = Some uid /\ u_profile u ≫= p_name = Some name
    /\ find (by_id id) actions = Some action
    /\ action' =
         Actions.set_ratings
           (JsObject.set uid
              (Actions.new_entry (JsObject.get uid (Actions.a_ratings action))
                 rating effort name now)
              (Actions.a_ratings action)) action
    /\ actions' = update_first (by_id id) (fun _ => action') actions.
Proof.
  unfold Actions.rate. fold (by_id id).
  destruct user as [u|]; [|discriminate].
  destruct (u_id u) as [uid|] eqn:Hid; [|discriminate].
  destruct (u_profile u ≫= p_name) as [name|] eqn:Hname; [|discriminate].
  destruct (negb (str_truthy name)); [discriminate|].
  destruct (find (by_id id) actions) as [action|] eqn:Hfind; [|discriminate].
  destruct (Actions.rate_check _ rating effort); [discriminate|].
  intros [= <- <-]. exists u, uid, name, action. repeat split; auto.
Qed.

(** A call that reports an error writes nothing. *)
Lemma actions_rate_err id user rating effort now actions :
  match Actions.rate id user rating effort now actions with
  | (CbOk _, _) => True
  | (_, actions') => actions' = actions
  end.
Proof.
  unfold Actions.rate.
  destruct user as [u|]; [|reflexivity].
  destruct (u_id u); [|reflexivity].
  destruct (u_profile u ≫= p_name) as [name|]; [|reflexivity].
  destruct (negb (str_truthy name)); [reflexivity|].
  destruct (find _ actions); [|reflexivity].
  destruct (Actions.rate_check _ rating effort); [reflexivity | exact I].
Qed.

Lemma by_id_set_ratings id r a : by_id id (Actions.set_ratings r a) = by_id id a.
Proof. reflexivity. Qed.

(** The keys of the stored action after a run of calls: those it had and
    the users whose call succeeded; still one entry per key. *)
Lemma rate_seq_keys id calls : forall actions a0 raters final,
  find (by_id id) actions = Some a0 ->
  JsObject.wf (Actions.a_ratings a0) ->
  rate_seq id calls actions = (raters, final) ->
  exists a1, find (by_id id) final = Some a1
    /\ JsObject.wf (Actions.a_ratings a1)
    /\ (forall k, k ∈ JsObject.keys (Actions.a_ratings a1)
                  <-> k ∈ JsObject.keys (Actions.a_ratings a0) \/ k ∈ raters).
Proof.
  induction calls as [|c calls IH]; intros actions a0 raters final Hfind Hwf; simpl.
  - intros [= <- <-]. exists a0. repeat split; auto.
    + intros [H|H]; [exact H | inversion H].
  - pose proof (actions_rate_err id (rc_user c) (rc_rating c) (rc_effort c) (rc_now c) actions) as Herr.
    destruct (Actions.rate id (rc_user c) (rc_rating c) (rc_effort c) (rc_now c) actions)
      as [r actions1] eqn:Hrate.
    destruct (rate_seq id calls actions1) as [raters' final'] eqn:Hseq.
    intros [= <- <-].
    destruct r as [msg|name|action'].
    + subst actions1. simpl. exact (IH _ _ _ _ Hfind Hwf Hseq).
    + subst actions1. simpl. exact (IH _ _ _ _ Hfind Hwf Hseq).
    + destruct (actions_rate_ok _ _ _ _ _ _ _ _ Hrate)
        as (u & uid & nm & action & Hu & Huid & _ & Hf & Haction & Hactions).
      rewrite Hfind in Hf; injection Hf as <-.
      assert (Hfind1 : find (by_id id) actions1 = Some action').
      { rewrite Hactions. apply (find_update_first _ _ _ a0 Hfind).
        rewrite Haction, by_id_set_ratings. exact (find_Some_true _ _ _ Hfind). }
      assert (Hwf1 : JsObject.wf (Actions.a_ratings action')).
      { rewrite Haction; simpl. apply jsobject_wf_set; exact Hwf. }
      destruct (IH _ _ _ _ Hfind1 Hwf1 Hseq) as (a1 & Hf1 & Hw1 & Hk).
      exists a1. split; [exact Hf1|]. split; [exact Hw1|].
      intros k. rewrite Hk, Hu. simpl. rewrite Huid. simpl.
      rewrite Haction; simpl. rewrite jsobject_elem_of_keys_set, elem_of_cons.
      tauto.
Qed.

(** A successful [ActionComments.rate], taken apart. *)
Lemma comments_rate_ok actionId commentId user rating now coll c' coll' :
  ActionComments.rate actionId commentId user rating now coll = (CbOk c', coll') ->
  exists u uid r aComment,
    user = Some u /\ u_id u = Some uid /\ rating = Some r /\ (r = 0 \/ r = 1)
    /\ find (ActionComments.matches actionId commentId) coll = Some aComment
    /\ let stored :=
         ActionComments.set_ratings
           (JsObject.set uid
              {| ActionComments.cr_value := Some r; ActionComments.cr_date := now |}
              (ActionComments.c_ratings aComment)) aComment in
       c' = ActionComments.calcRating (ActionComments.toObject stored) (IdStr uid)
       /\ coll' = update_first (ActionComments.matches actionId commentId)
                    (fun _ => stored) coll.
Proof.
  unfold ActionComments.rate.
  destruct user as [u|]; [|discriminate].
  destruct (u_id u) as [uid|] eqn:Hid; [|discriminate].
  destruct rating as [r|]; [|discriminate].
  destruct (find _ coll) as [aComment|] eqn:Hfind; [|discriminate].
  destruct (negb (r =? 0) && negb (r =? 1)) eqn:Hr; [discriminate|].
  intros [= <- <-]. exists u, uid, r, aComment. repeat split; auto.
  destruct (Z.eqb_spec r 0); [left; assumption|].
  destruct (Z.eqb_spec r 1); [right; assumption | discriminate].
Qed.

Lemma comments_rate_err actionId commentId user rating now coll :
  match ActionComments.rate actionId commentId user rating now coll with
  | (CbOk _, _) => True
  | (_, coll') => coll' = coll
  end.
Proof.
  unfold ActionComments.rate.
  destruct user as [u|]; [|reflexivity].
  destruct (u_id u); [|reflexivity].
  destruct rating as [r|]; [|reflexivity].
  destruct (find _ coll); [|reflexivity].
  destruct (negb (r =? 0) && negb (r =? 1)); [reflexivity | exact I].
Qed.

Lemma like_seq_keys actionId commentId calls : forall coll c0 raters final,
  find (ActionComments.matches actionId commentId) coll = Some c0 ->
  JsObject.wf (ActionComments.c_ratings c0) ->
  like_seq actionId commentId calls coll = (raters, final) ->
  exists c1, find (ActionComments.matches actionId commentId) final = Some c1
    /\ JsObject.wf (ActionComments.c_ratings c1)
    /\ (forall k, k ∈ JsObject.keys (ActionComments.c_ratings c1)
                  <-> k ∈ JsObject.keys (ActionComments.c_ratings c0) \/ k ∈ raters).
Proof.
  induction calls as [|c calls IH]; intros coll c0 raters final Hfind Hwf; simpl.
  - intros [= <- <-]. exists c0. repeat split; auto.
    intros [H|H]; [exact H | inversion H].
  - pose proof (comments_rate_err actionId commentId (lc_user c) (lc_rating c) (lc_now c) coll)
      as Herr.
    destruct (ActionComments.rate actionId commentId (lc_user c) (lc_rating c) (lc_now c) coll)
      as [r coll1] eqn:Hrate.
    destruct (like_seq actionId commentId calls coll1) as [raters' final'] eqn:Hseq.
    intros [= <- <-].
    destruct r as [msg|name|c'].
    + subst coll1. simpl. exact (IH _ _ _ _ Hfind Hwf Hseq).
    + subst coll1. simpl. exact (IH _ _ _ _ Hfind Hwf Hseq).
    + destruct (comments_rate_ok _ _ _ _ _ _ _ _ Hrate)
        as (u & uid & v & aComment & Hu & Huid & _ & _ & Hf & _ & Hcoll).
      rewrite Hfind in Hf; injection Hf as <-.
      set (stored := ActionComments.set_ratings _ c0) in Hcoll.
      assert (Hfind1 : find (ActionComments.matches actionId commentId) coll1 = Some stored).
      { rewrite Hcoll. apply (find_update_first _ _ _ c0 Hfind).
        exact (find_Some_true _ _ _ Hfind). }
      assert (Hwf1 : JsObject.wf (ActionComments.c_ratings stored)).
      { simpl. apply jsobject_wf_set; exact Hwf. }
      destruct (IH _ _ _ _ Hfind1 Hwf1 Hseq) as (c1 & Hf1 & Hw1 & Hk).
      exists c1. split; [exact Hf1|]. split; [exact Hw1|].
      intros k. rewrite Hk, Hu. simpl. rewrite Huid. simpl.
      rewrite jsobject_elem_of_keys_set, elem_of_cons.
      tauto.
Qed.

(** One entry per key and every key among [raters]: no more keys than
    distinct raters. *)
Lemma keys_le_distinct (keys raters : list string) :
  NoDup keys -> (forall k, k ∈ keys -> k ∈ raters) ->
  (length keys <= length (remove_dups raters))%nat.
Proof.
  intros Hnd Hsub. apply submseteq_length, NoDup_submseteq; [exact Hnd|].
  intros x Hx. apply elem_of_remove_dups; auto.
Qed.

End Rating.

Section RatingFrame.
Import Actions ActionComments.

(** The checks of [Actions.rate] let valid values through, whether or
    not the caller has rated before. *)
Lemma rate_check_valid old rating effort :
  valid_rating rating -> valid_effort effort -> rate_check old rating effort = None.
Proof.
  intros Hr He. unfold rate_check.
  assert (H1 : isNumber rating
               && num_test (fun r => negb (r =? 1) && negb (r =? 0)) rating = false).
  { destruct Hr as [-> | [-> | ->]]; reflexivity. }
  assert (H2 : num_test (fun e => e <? 1) effort || num_test (fun e => e >? 5) effort
               = false).
  { destruct effort as [e|]; [|reflexivity]. simpl in He |- *.
    destruct (Z.ltb_spec e 1); [lia|]. destruct (Z.gtb_spec e 5); [lia | reflexivity]. }
  destruct old; rewrite H1, H2, ?andb_false_r; reflexivity.
Qed.

(** A valid rating of an action that exists succeeds. *)
Lemma actions_rate_valid id u uid name rating effort now actions action :
  u_id u = Some uid -> u_profile u ≫= p_name = Some name -> name <> "" ->
  find (by_id id) actions = Some action ->
  valid_rating rating -> valid_effort effort ->
  let action' :=
    Actions.set_ratings
      (JsObject.set uid
         (new_entry (JsObject.get uid (a_ratings action)) rating effort name now)
         (a_ratings action)) action in
  Actions.rate id (Some u) rating effort now actions
  = (CbOk action', update_first (by_id id) (fun _ => action') actions).
Proof.
  intros Huid Hname Hne Hf Hr He. cbv zeta. unfold Actions.rate. fold (by_id id).
  rewrite Huid, Hname, Hf, (rate_check_valid _ _ _ Hr He).
  destruct name; [contradiction | reflexivity].
Qed.

(** A valid like of a comment that exists succeeds. *)
Lemma comments_rate_valid actionId commentId u uid r now coll aComment :
  u_id u = Some uid -> r = 0 \/ r = 1 ->
  find (matches actionId commentId) coll = Some aComment ->
  let stored :=
    ActionComments.set_ratings
      (JsObject.set uid {| cr_value := Some r; cr_date := now |} (c_ratings aComment))
      aComment in
  ActionComments.rate actionId commentId (Some u) (Some r) now coll
  = (CbOk (calcRating (ActionComments.toObject stored) (IdStr uid)),
     update_first (matches actionId commentId) (fun _ => stored) coll).
Proof.
  intros Huid Hr Hf. cbv zeta. unfold ActionComments.rate. rewrite Huid, Hf.
  destruct Hr as [-> | ->]; reflexivity.
Qed.

(** In a run of valid calls on a document that exists every call
    succeeds. *)
Lemma rate_seq_valid id calls : forall actions a0,
  find (by_id id) actions = Some a0 ->
  Forall valid_call calls ->
  (rate_seq id calls actions).1 = callers calls.
Proof.
  induction calls as [|c calls IH]; intros actions a0 Hf Hall; [reflexivity|].
  inversion Hall as [|? ? Hc Hall']; subst.
  destruct Hc as ((u & uid & name & Hu & Huid & Hname & Hne) & Hr & He).
  cbn [rate_seq]. rewrite Hu.
  rewrite (actions_rate_valid id u uid name _ _ (rc_now c) actions a0 Huid Hname Hne Hf Hr He).
  set (a1 := Actions.set_ratings _ a0).
  assert (Hf1 : find (by_id id) (update_first (by_id id) (fun _ => a1) actions) = Some a1).
  { apply (find_update_first _ _ _ a0 Hf). exact (find_Some_true _ _ _ Hf). }
  specialize (IH _ a1 Hf1 Hall').
  destruct (rate_seq id calls _) as [raters final]. cbn [fst] in *.
  unfold callers. cbn [omap list_omap]. rewrite Hu. cbn [mbind option_bind].
  rewrite Huid. f_equal. exact IH.
Qed.

Lemma like_seq_valid actionId commentId calls : forall coll c0,
  find (matches actionId commentId) coll = Some c0 ->
  Forall valid_like calls ->
  (like_seq actionId commentId calls coll).1 = likers calls.
Proof.
  induction calls as [|c calls IH]; intros coll c0 Hf Hall; [reflexivity|].
  inversion Hall as [|? ? Hc Hall']; subst.
  destruct Hc as ((u & uid & Hu & Huid) & Hr).
  assert (Hr' : exists r, lc_rating c = Some r /\ (r = 0 \/ r = 1)).
  { destruct Hr as [Hr|Hr]; rewrite Hr; eauto. }
  destruct Hr' as (r & Hrc & Hr01).
  cbn [like_seq]. rewrite Hu, Hrc.
  rewrite (comments_rate_valid actionId commentId u uid r (lc_now c) coll c0 Huid Hr01 Hf).
  set (c1 := ActionComments.set_ratings _ c0).
  assert (Hf1 : find (matches actionId commentId)
                  (update_first (matches actionId commentId) (fun _ => c1) coll) = Some c1).
  { apply (find_update_first _ _ _ c0 Hf). exact (find_Some_true _ _ _ Hf). }
  specialize (IH _ c1 Hf1 Hall').
  destruct (like_seq actionId commentId calls _) as [raters final]. cbn [fst] in *.
  unfold likers. cbn [omap list_omap]. rewrite Hu. cbn [mbind option_bind].
  rewrite Huid. f_equal. exact IH.
Qed.

(** One entry per key and the keys of a list: as many keys as distinct
    elements of the list. *)
Lemma keys_eq_distinct (keys raters : list string) :
  NoDup keys -> (forall k, k ∈ keys <-> k ∈ raters) ->
  length keys = length (remove_dups raters).
Proof.
  intros Hnd Hsame. apply Permutation_length, NoDup_Permutation.
  - exact Hnd.
  - apply NoDup_remove_dups.
  - intros k. rewrite elem_of_remove_dups. apply Hsame.
Qed.

(** C4: a rating with valid values by a user who has an id and a name
    succeeds, for actions and for action comments; a successful rating
    writes the caller's entry under the caller's id, in place of the
    entry the caller had, and leaves every other user's entry as it was;
    over any run of calls on a document that starts without ratings the
    keys are the users whose call succeeded, one entry each, so they are
    never more than the distinct users who have rated; when every call
    of the run is valid they are exactly the distinct callers. *)
Theorem rate_overwrites_own_entry :
  (forall id u uid name rating effort now actions action,
      u_id u = Some uid -> u_profile u ≫= p_name = Some name -> name <> "" ->
      find (by_id id) actions = Some action ->
      valid_rating rating -> valid_effort effort ->
      exists action' actions',
        Actions.rate id (Some u) rating effort now actions = (CbOk action', actions')
        /\ find (by_id id) actions' = Some action'
        /\ JsObject.get uid (a_ratings action')
           = Some {| rt_rating :=
                       if isNumber rating then rating
                       else JsObject.get uid (a_ratings action) ≫= rt_rating;
                     rt_effort :=
                       if isNumber effort then effort
                       else JsObject.get uid (a_ratings action) ≫= rt_effort;
                     rt_name := name; rt_date := now |}
        /\ (forall uid', uid' ≠ uid ->
              JsObject.get uid' (a_ratings action') = JsObject.get uid' (a_ratings action))
        /\ (forall k, k ∈ JsObject.keys (a_ratings action')
                      <-> k = uid \/ k ∈ JsObject.keys (a_ratings action)))
  /\ (forall actionId commentId u uid r now coll aComment,
      u_id u = Some uid -> r = 0 \/ r = 1 ->
      find (matches actionId commentId) coll = Some aComment ->
      exists c' coll' stored,
        ActionComments.rate actionId commentId (Some u) (Some r) now coll = (CbOk c', coll')
        /\ find (matches actionId commentId) coll' = Some stored
        /\ JsObject.get uid (c_ratings stored)
           = Some {| cr_value := Some r; cr_date := now |}
        /\ (forall uid', uid' ≠ uid ->
              JsObject.get uid' (c_ratings stored) = JsObject.get uid' (c_ratings aComment))
        /\ (forall k, k ∈ JsObject.keys (c_ratings stored)
                      <-> k = uid \/ k ∈ JsObject.keys (c_ratings aComment)))
  /\ (forall id u rating effort now actions action' actions',
      Actions.rate id (Some u) rating effort now actions = (CbOk action', actions') ->
      exists uid name action,
        u_id u = Some uid /\ u_profile u ≫= p_name = Some name
        /\ find (by_id id) actions = Some action
        /\ find (by_id id) actions' = Some action'
        /\ JsObject.get uid (a_ratings action')
           = Some {| rt_rating :=
                       if isNumber rating then rating
                       else JsObject.get uid (a_ratings action) ≫= rt_rating;
                     rt_effort :=
                       if isNumber effort then effort
                       else JsObject.get uid (a_ratings action) ≫= rt_effort;
                     rt_name := name; rt_date := now |}
        /\ (forall uid', uid' ≠ uid ->
              JsObject.get uid' (a_ratings action') = JsObject.get uid' (a_ratings action))
        /\ (forall k, k ∈ JsObject.keys (a_ratings action')
                      <-> k = uid \/ k ∈ JsObject.keys (a_ratings action)))
  /\ (forall actionId commentId u rating now coll c' coll',
      ActionComments.rate actionId commentId (Some u) rating now coll = (CbOk c', coll') ->
      exists uid r aComment stored,
        u_id u = Some uid /\ rating = Some r
        /\ find (matches actionId commentId) coll = Some aComment
        /\ find (matches actionId commentId) coll' = Some stored
        /\ JsObject.get uid (c_ratings stored)
           = Some {| cr_value := Some r; cr_date := now |}
        /\ (forall uid', uid' ≠ uid ->
              JsObject.get uid' (c_ratings stored) = JsObject.get uid' (c_ratings aComment))
        /\ (forall k, k ∈ JsObject.keys (c_ratings stored)
                      <-> k = uid \/ k ∈ JsObject.keys (c_ratings aComment)))
  /\ (forall id calls actions a0 raters final,
      find (by_id id) actions = Some a0 -> a_ratings a0 = [] ->
      rate_seq id calls actions = (raters, final) ->
      exists a1, find (by_id id) final = Some a1
        /\ NoDup (JsObject.keys (a_ratings a1))
        /\ (forall k, k ∈ JsObject.keys (a_ratings a1) <-> k ∈ raters)
        /\ (JsObject.size (a_ratings a1) <= length (remove_dups raters))%nat
        /\ (Forall valid_call calls ->
            raters = callers calls
            /\ JsObject.size (a_ratings a1) = length (remove_dups (callers calls))))
  /\ (forall actionId commentId calls coll c0 raters final,
      find (matches actionId commentId) coll = Some c0 -> c_ratings c0 = [] ->
      like_seq actionId commentId calls coll = (raters, final) ->
      exists c1, find (matches actionId commentId) final = Some c1
        /\ NoDup (JsObject.keys (c_ratings c1))
        /\ (forall k, k ∈ JsObject.keys (c_ratings c1) <-> k ∈ raters)
        /\ (JsObject.size (c_ratings c1) <= length (remove_dups raters))%nat
        /\ (Forall valid_like calls ->
            raters = likers calls
            /\ JsObject.size (c_ratings c1) = length (remove_dups (likers calls)))).
Proof.
  assert (Hone : forall id u rating effort now actions action' actions',
      Actions.rate id (Some u) rating effort now actions = (CbOk action', actions') ->
      exists uid name action,
        u_id u = Some uid /\ u_profile u ≫= p_name = Some name
        /\ find (by_id id) actions = Some action
        /\ find (by_id id) actions' = Some action'
        /\ JsObject.get uid (a_ratings action')
           = Some {| rt_rating :=
                       if isNumber rating then rating
                       else JsObject.get uid (a_ratings action) ≫= rt_rating;
                     rt_effort :=
                       if isNumber effort then effort
                       else JsObject.get uid (a_ratings action) ≫= rt_effort;
                     rt_name := name; rt_date := now |}
        /\ (forall uid', uid' ≠ uid ->
              JsObject.get uid' (a_ratings action') = JsObject.get uid' (a_ratings action))
        /\ (forall k, k ∈ JsObject.keys (a_ratings action')
                      <-> k = uid \/ k ∈ JsObject.keys (a_ratings action))).
  { intros id u rating effort now actions action' actions' H.
    destruct (actions_rate_ok _ _ _ _ _ _ _ _ H)
      as (u' & uid & name & action & [= <-] & Huid & Hname & Hf & Haction & Hactions).
    exists uid, name, action.
    split; [exact Huid|]. split; [exact Hname|]. split; [exact Hf|].
    split.
    { rewrite Hactions. apply (find_update_first _ _ _ action Hf).
      rewrite Haction, by_id_set_ratings. exact (find_Some_true _ _ _ Hf). }
    rewrite Haction; simpl. split; [apply jsobject_get_set_eq|].
    split.
    + intros uid' Hne. apply jsobject_get_set_ne; congruence.
    + intros k. apply jsobject_elem_of_keys_set. }
  assert (Htwo : forall actionId commentId u rating now coll c' coll',
      ActionComments.rate actionId commentId (Some u) rating now coll = (CbOk c', coll') ->
      exists uid r aComment stored,
        u_id u = Some uid /\ rating = Some r
        /\ find (matches actionId commentId) coll = Some aComment
        /\ find (matches actionId commentId) coll' = Some stored
        /\ JsObject.get uid (c_ratings stored)
           = Some {| cr_value := Some r; cr_date := now |}
        /\ (forall uid', uid' ≠ uid ->
              JsObject.get uid' (c_ratings stored) = JsObject.get uid' (c_ratings aComment))
        /\ (forall k, k ∈ JsObject.keys (c_ratings stored)
                      <-> k = uid \/ k ∈ JsObject.keys (c_ratings aComment))).
  { intros actionId commentId u rating now coll c' coll' H.
    destruct (comments_rate_ok _ _ _ _ _ _ _ _ H)
      as (u' & uid & r & aComment & [= <-] & Huid & Hr & _ & Hf & _ & Hcoll).
    exists uid, r, aComment. eexists.
    split; [exact Huid|]. split; [exact Hr|]. split; [exact Hf|].
    split.
    { rewrite Hcoll. apply (find_update_first _ _ _ aComment Hf).
      exact (find_Some_true _ _ _ Hf). }
    simpl. split; [apply jsobject_get_set_eq|].
    split.
    + intros uid' Hne. apply jsobject_get_set_ne; congruence.
    + intros k. apply jsobject_elem_of_keys_set. }
  split; [|split; [|split; [exact Hone|split; [exact Htwo|split]]]].
  - intros id u uid name rating effort now actions action Huid Hname Hne Hf Hr He.
    pose proof (actions_rate_valid id u uid name rating effort now actions action
                  Huid Hname Hne Hf Hr He) as Hrate.
    cbv zeta in Hrate. eexists _, _. split; [exact Hrate|].
    destruct (Hone _ _ _ _ _ _ _ _ Hrate)
      as (uid' & name' & action0 & Huid' & Hname' & Hf0 & Hf' & Hget & Hothers & Hkeys).
    rewrite Huid in Huid'. injection Huid' as <-.
    rewrite Hname in Hname'. injection Hname' as <-.
    rewrite Hf in Hf0. injection Hf0 as <-.
    split; [exact Hf'|]. split; [exact Hget|]. split; [exact Hothers | exact Hkeys].
  - intros actionId commentId u uid r now coll aComment Huid Hr Hf.
    pose proof (comments_rate_valid actionId commentId u uid r now coll aComment
                  Huid Hr Hf) as Hrate.
    cbv zeta in Hrate.
    destruct (Htwo _ _ _ _ _ _ _ _ Hrate)
      as (uid' & r' & c0 & stored & Huid' & [= <-] & Hf0 & Hf' & Hget & Hothers & Hkeys).
    rewrite Huid in Huid'. injection Huid' as <-.
    rewrite Hf in Hf0. injection Hf0 as <-.
    eexists _, _, stored. split; [exact Hrate|].
    split; [exact Hf'|]. split; [exact Hget|]. split; [exact Hothers | exact Hkeys].
  - intros id calls actions a0 raters final Hf H0 Hseq.
    assert (Hwf : JsObject.wf (a_ratings a0)) by (rewrite H0; apply NoDup_nil_2).
    destruct (rate_seq_keys _ _ _ _ _ _ Hf Hwf Hseq) as (a1 & Hf1 & Hw1 & Hk).
    rewrite H0 in Hk. exists a1. split; [exact Hf1|]. split; [exact Hw1|].
    assert (Hk' : forall k, k ∈ JsObject.keys (a_ratings a1) <-> k ∈ raters).
    { intros k. rewrite Hk. split; [intros [Hn|Hr]; [inversion Hn | exact Hr] | auto]. }
    split; [exact Hk'|].
    unfold JsObject.size. rewrite <- (length_map fst).
    split; [apply keys_le_distinct; [exact Hw1 | intros k; apply Hk']|].
    intros Hvalid.
    pose proof (rate_seq_valid id calls actions a0 Hf Hvalid) as Hr.
    rewrite Hseq in Hr. cbn [fst] in Hr. subst raters.
    split; [reflexivity|]. apply keys_eq_distinct; [exact Hw1 | exact Hk'].
  - intros actionId commentId calls coll c0 raters final Hf H0 Hseq.
    assert (Hwf : JsObject.wf (c_ratings c0)) by (rewrite H0; apply NoDup_nil_2).
    destruct (like_seq_keys _ _ _ _ _ _ _ Hf Hwf Hseq) as (c1 & Hf1 & Hw1 & Hk).
    rewrite H0 in Hk. exists c1. split; [exact Hf1|]. split; [exact Hw1|].
    assert (Hk' : forall k, k ∈ JsObject.keys (c_ratings c1) <-> k ∈ raters).
    { intros k. rewrite Hk. split; [intros [Hn|Hr]; [inversion Hn | exact Hr] | auto]. }
    split; [exact Hk'|].
    unfold JsObject.size. rewrite <- (length_map fst).
    split; [apply keys_le_distinct; [exact Hw1 | intros k; apply Hk']|].
    intros Hvalid.
    pose proof (like_seq_valid actionId commentId calls coll c0 Hf Hvalid) as Hr.
    rewrite Hseq in Hr. cbn [fst] in Hr. subst raters.
    split; [reflexivity|]. apply keys_eq_distinct; [exact Hw1 | exact Hk'].
Qed.

Example sample_calls_run :
  rate_seq "5594dbeadfbb985d0ac150c4" sample_calls [standby]
  = (["5593ccfa9255daa130890164"; "5593ccfa9255daa130890165";
      "5593ccfa9255daa130890164"],
     [sample_action "5594dbeadfbb985d0ac150c4" "Disable standby"
        [("5593ccfa9255daa130890164",
          {| rt_rating := Some 1; rt_effort := Some 4; rt_name := "Test User";
             rt_date := 12 |});
         ("5593ccfa9255daa130890165",
          {| rt_rating := Some 0; rt_effort := Some 5; rt_name := "Test User";
             rt_date := 11 |})]]).
Proof. vm_compute. reflexivity. Qed.

(** Jane rates an action that Jack has rated: her call succeeds, her
    entry is written and Jack's stays. Over the sample runs, in which
    Jane calls twice and Jack once, two entries are stored. *)
Lemma rate_overwrites_own_entry_witness :
  (exists action' actions',
      Actions.rate "5594dbeadfbb985d0ac150c6" (Some jane) None (Some 4) 12 [liked]
      = (CbOk action', actions')
      /\ find (by_id "5594dbeadfbb985d0ac150c6") actions' = Some action'
      /\ JsObject.get "5593ccfa9255daa130890164" (a_ratings action')
         = Some {| rt_rating := Some 1; rt_effort := Some 4; rt_name := "Test User";
                   rt_date := 12 |}
      /\ JsObject.get "5593ccfa9255daa130890165" (a_ratings action')
         = JsObject.get "5593ccfa9255daa130890165" (a_ratings liked))
  /\ (exists c' coll' stored,
      ActionComments.rate "5594dbeadfbb985d0ac150c4" "555f0163688305b57c7cef6d"
        (Some jack) (Some 1) 11 [sample_comment []] = (CbOk c', coll')
      /\ find (matches "5594dbeadfbb985d0ac150c4" "555f0163688305b57c7cef6d") coll'
         = Some stored
      /\ JsObject.get "5593ccfa9255daa130890165" (c_ratings stored)
         = Some {| cr_value := Some 1; cr_date := 11 |})
  /\ (exists a1,
      find (by_id "5594dbeadfbb985d0ac150c4")
        (rate_seq "5594dbeadfbb985d0ac150c4" sample_calls [standby]).2 = Some a1
      /\ (forall k, k ∈ JsObject.keys (a_ratings a1) <-> k ∈ callers sample_calls)
      /\ JsObject.size (a_ratings a1) = 2%nat)
  /\ (exists c1,
      find (matches "5594dbeadfbb985d0ac150c4" "555f0163688305b57c7cef6d")
        (like_seq "5594dbeadfbb985d0ac150c4" "555f0163688305b57c7cef6d" sample_likes
           [sample_comment []]).2 = Some c1
      /\ (forall k, k ∈ JsObject.keys (c_ratings c1) <-> k ∈ likers sample_likes)
      /\ JsObject.size (c_ratings c1) = 2%nat).
Proof.
  destruct rate_overwrites_own_entry as (Hrate & Hlike & _ & _ & Hactions & Hcomments).
  assert (Hcalls : Forall valid_call sample_calls).
  { unfold sample_calls, valid_call, valid_rating, valid_effort.
    repeat (apply List.Forall_cons;
            [cbn [rc_user rc_rating rc_effort];
             split; [eexists _, _, _; repeat (split; [reflexivity|]); discriminate
                    | split; [auto | lia]]|]).
    apply List.Forall_nil. }
  assert (Hlikes : Forall valid_like sample_likes).
  { unfold sample_likes, valid_like.
    repeat (apply List.Forall_cons;
            [cbn [lc_user lc_rating];
             split; [eexists _, _; split; reflexivity | auto]|]).
    apply List.Forall_nil. }
  split; [|split; [|split]].
  - destruct (Hrate "5594dbeadfbb985d0ac150c6" jane "5593ccfa9255daa130890164" "Test User"
                None (Some 4) 12 [liked] liked)
      as (action' & actions' & Hr & Hf & Hget & Hothers & _);
      [reflexivity | reflexivity | discriminate | reflexivity | left; reflexivity
       | simpl; lia |].
    exists action', actions'. split; [exact Hr|]. split; [exact Hf|].
    split; [exact Hget|]. apply Hothers. discriminate.
  - destruct (Hlike "5594dbeadfbb985d0ac150c4" "555f0163688305b57c7cef6d" jack
                "5593ccfa9255daa130890165" 1 11 [sample_comment []] (sample_comment []))
      as (c' & coll' & stored & Hr & Hf & Hget & _);
      [reflexivity | right; reflexivity | reflexivity |].
    exists c', coll', stored. split; [exact Hr|]. split; [exact Hf | exact Hget].
  - destruct (Hactions "5594dbeadfbb985d0ac150c4" sample_calls [standby] standby
                (rate_seq "5594dbeadfbb985d0ac150c4" sample_calls [standby]).1
                (rate_seq "5594dbeadfbb985d0ac150c4" sample_calls [standby]).2)
      as (a1 & Hf & _ & Hk & _ & Hv);
      [reflexivity | reflexivity | apply surjective_pairing |].
    destruct (Hv Hcalls) as [Hr Hsize].
    exists a1. split; [exact Hf|]. split; [|rewrite Hsize; reflexivity].
    intros k. rewrite (Hk k), Hr. reflexivity.
  - destruct (Hcomments "5594dbeadfbb985d0ac150c4" "555f0163688305b57c7cef6d" sample_likes
                [sample_comment []] (sample_comment [])
                (like_seq "5594dbeadfbb985d0ac150c4" "555f0163688305b57c7cef6d" sample_likes
                   [sample_comment []]).1
                (like_seq "5594dbeadfbb985d0ac150c4" "555f0163688305b57c7cef6d" sample_likes
                   [sample_comment []]).2)
      as (c1 & Hf & _ & Hk & _ & Hv);
      [reflexivity | reflexivity | apply surjective_pairing |].
    destruct (Hv Hlikes) as [Hr Hsize].
    exists c1. split; [exact Hf|]. split; [|rewrite Hsize; reflexivity].
    intros k. rewrite (Hk k), Hr. reflexivity.
Defined.

End RatingFrame.

(** ** Sorting and paging of query results *)

Section QueryFacts.
Context {A : Type}.
Implicit Types (key : A -> Z) (l : list A).

Lemma insert_by_perm key desc x l : insert_by key desc x l ≡ₚ x :: l.
Proof.
  induction l as [|y l IH]; simpl; [reflexivity|].
  destruct (if desc then key x <? key y else key y <? key x); [|reflexivity].
  rewrite IH. apply Permutation_swap.
Qed.

Lemma sort_by_perm key desc l : sort_by key desc l ≡ₚ l.
Proof.
  induction l as [|x l IH]; simpl; [reflexivity|].
  unfold sort_by in *; simpl. rewrite insert_by_perm, IH. reflexivity.
Qed.

Lemma elem_of_sort_by key desc l x : x ∈ sort_by key desc l <-> x ∈ l.
Proof. rewrite (sort_by_perm key desc l). reflexivity. Qed.

Lemma length_sort_by key desc l : length (sort_by key desc l) = length l.
Proof. apply Permutation_length, sort_by_perm. Qed.

Lemma insert_by_sorted key x l :
  StronglySorted (ascending key) l -> StronglySorted (ascending key) (insert_by key false x l).
Proof.
  induction l as [|y l IH]; intros Hs; simpl.
  - repeat constructor.
  - inversion Hs as [|? ? Hl Hy]; subst.
    destruct (Z.ltb_spec (key y) (key x)) as [Hlt|Hge].
    + constructor; [apply IH; exact Hl|].
      apply Forall_forall. intros z Hz.
      rewrite (insert_by_perm key false x l) in Hz.
      apply elem_of_cons in Hz as [->|Hz].
      * unfold ascending; lia.
      * rewrite Forall_forall in Hy. apply Hy; exact Hz.
    + constructor; [exact Hs|].
      constructor; [exact Hge|].
      rewrite Forall_forall in Hy |- *. intros z Hz.
      specialize (Hy z Hz). unfold ascending in *; lia.
Qed.

Lemma sort_by_sorted key l : StronglySorted (ascending key) (sort_by key false l).
Proof.
  induction l as [|x l IH]; simpl; [constructor|].
  apply insert_by_sorted; exact IH.
Qed.

Lemma elem_of_q_skip n l x : x ∈ q_skip n l -> x ∈ l.
Proof. destruct n as [k|]; simpl; [apply subseteq_drop | auto]. Qed.

Lemma elem_of_q_limit n l x : x ∈ q_limit n l -> x ∈ l.
Proof. destruct n as [[|k]|]; cbn [q_limit]; [auto | apply subseteq_take | auto]. Qed.

End QueryFacts.

(** ** The rating reduction *)

Section RatingReduction.

(** A [Forall] over an explicit list, entry by entry. *)
Ltac each_entry :=
  repeat match goal with |- Forall _ _ => constructor end.

Lemma count_truthy {V} (val : V -> option Z) (vals : list V) (acc : Z) :
  Forall (fun r => truthy (val r) = positive (val r)) vals ->
  fold_left (fun n r => if truthy (val r) then n + 1 else n) vals acc
  = acc + Z.of_nat (length (List.filter (fun r => positive (val r)) vals)).
Proof.
  intros H; revert acc; induction H as [|r vals Hr _ IH]; intros acc; simpl.
  - lia.
  - rewrite IH, Hr. destruct (positive (val r)); simpl length; lia.
Qed.

Lemma like_value_truthy r :
  like_value r -> truthy (ActionComments.cr_value r) = positive (ActionComments.cr_value r).
Proof. intros [H|H]; rewrite H; reflexivity. Qed.

Lemma rating_value_truthy r :
  rating_value r -> truthy (Actions.rt_rating r) = positive (Actions.rt_rating r).
Proof. intros [H|[H|H]]; rewrite H; reflexivity. Qed.

Lemma calcRating_reduced (c : ActionComments.aComment) (user : idval) :
  Forall like_value (JsObject.values (ActionComments.c_ratings c)) ->
  reduced_comment user c (ActionComments.calcRating (ActionComments.toObject c) user).
Proof.
  intros Hv. unfold reduced_comment, ActionComments.calcRating; simpl.
  split; [reflexivity|]. split; [|split; [|reflexivity]].
  - unfold JsObject.each, count_positive. f_equal.
    rewrite (count_truthy ActionComments.cr_value); [lia|].
    eapply Forall_impl; [exact Hv | exact like_value_truthy].
  - intros r Ht Hget. rewrite Ht, Hget. reflexivity.
Qed.

Lemma comments_get_eq actionId limit skip user coll :
  ActionComments.get actionId limit skip user coll
  = CbOk (map (fun c => ActionComments.calcRating (ActionComments.toObject c) (requester user))
            (ActionComments.find_sorted
               (fun c => String.eqb (ActionComments.c_actionId c) actionId) limit skip coll)).
Proof.
  unfold ActionComments.get, requester.
  destruct (ActionComments.find_sorted _ limit skip coll); [reflexivity|].
  rewrite map_map. reflexivity.
Qed.

Lemma comments_getByUser_eq u limit skip coll :
  ActionComments.getByUser u limit skip coll
  = CbOk (map (fun c => ActionComments.calcRating (ActionComments.toObject c) (id_of u))
            (ActionComments.find_sorted
               (fun c => String.eqb (ActionComments.c_userId c) (String_ (id_of u)))
               limit skip coll)).
Proof.
  unfold ActionComments.getByUser.
  destruct (ActionComments.find_sorted _ limit skip coll); [reflexivity|].
  rewrite map_map. reflexivity.
Qed.

Lemma elem_of_find_sorted q limit skip coll c :
  c ∈ ActionComments.find_sorted q limit skip coll -> c ∈ coll /\ q c = true.
Proof.
  unfold ActionComments.find_sorted. intros H.
  apply elem_of_q_limit, elem_of_q_skip in H.
  apply elem_of_sort_by, list_elem_of_filter in H. tauto.
Qed.

Lemma reduced_comments (user : idval) q limit skip coll :
  likes_stored coll ->
  Forall (fun co => exists c, c ∈ coll /\ q c = true /\ reduced_comment user c co)
    (map (fun c => ActionComments.calcRating (ActionComments.toObject c) user)
       (ActionComments.find_sorted q limit skip coll)).
Proof.
  intros Hst. apply Forall_forall. intros co Hco.
  apply list_elem_of_fmap in Hco as (c & -> & Hc).
  apply elem_of_find_sorted in Hc as [Hc Hq].
  exists c. split; [exact Hc|]. split; [exact Hq|].
  apply calcRating_reduced.
  unfold likes_stored in Hst. rewrite Forall_forall in Hst. apply Hst; exact Hc.
Qed.

(** The map that [toObject()] shows: the stored entries in reverse order. *)
Lemma default_minimized {V} (o : JsObject.t V) :
  default [] (JsObject.minimized o) = rev o.
Proof. destruct o; reflexivity. Qed.

Lemma minimized_empty {V} (o : JsObject.t V) : o = [] -> JsObject.minimized o = None.
Proof. intros ->. reflexivity. Qed.

Lemma minimized_entries {V} (o : JsObject.t V) :
  o <> [] -> JsObject.minimized o = Some (rev o).
Proof. destruct o; [contradiction | reflexivity]. Qed.

Lemma jsobject_get_app {V} k (o1 o2 : JsObject.t V) :
  JsObject.get k (o1 ++ o2)%list
  = match JsObject.get k o1 with
    | Some v => Some v
    | None => JsObject.get k o2
    end.
Proof.
  induction o1 as [|[k' v'] o1 IH]; simpl; [reflexivity|].
  destruct (String.eqb k k'); [reflexivity | exact IH].
Qed.

Lemma jsobject_get_absent {V} k (o : JsObject.t V) :
  k ∉ JsObject.keys o -> JsObject.get k o = None.
Proof.
  induction o as [|[k' v'] o IH]; simpl; [reflexivity|].
  intros H. apply not_elem_of_cons in H as [Hne H].
  rewrite (eqb_neq_false k k' Hne). auto.
Qed.

(** With one entry per key a lookup does not depend on the order. *)
Lemma jsobject_get_rev {V} k (o : JsObject.t V) :
  JsObject.wf o -> JsObject.get k (rev o) = JsObject.get k o.
Proof.
  unfold JsObject.wf. induction o as [|[k' v'] o IH]; simpl; [reflexivity|].
  intros Hnd. apply NoDup_cons in Hnd as [Hout Hnd].
  rewrite jsobject_get_app, (IH Hnd). simpl.
  destruct (String.eqb k k') eqn:E.
  - apply String.eqb_eq in E. subst k'.
    rewrite (jsobject_get_absent k o Hout). reflexivity.
  - destruct (JsObject.get k o); reflexivity.
Qed.

Lemma count_positive_rev {V} (val : V -> option Z) (o : JsObject.t V) :
  count_positive val (rev o) = count_positive val o.
Proof.
  unfold count_positive, JsObject.values.
  rewrite map_rev, List.filter_rev, length_rev. reflexivity.
Qed.

Lemma count_fold {V} (val : V -> option Z) (vals : list V) (acc : Z) :
  fold_left (fun n r => if truthy (val r) then n + 1 else n) vals acc
  = acc + Z.of_nat (length (List.filter (fun r => truthy (val r)) vals)).
Proof.
  revert acc; induction vals as [|r vals IH]; intros acc; simpl; [lia|].
  rewrite IH. destruct (truthy (val r)); simpl length; lia.
Qed.

(** What [calcRating] makes of a comment does not depend on the order of
    the keys of its rating map, nor on whether an empty map is there. *)
Lemma calcRating_any_order (c : ActionComments.aComment) (user : idval) :
  JsObject.wf (ActionComments.c_ratings c) ->
  ActionComments.calcRating
    {| ActionComments.co_id := ActionComments.c_id c;
       ActionComments.co_actionId := ActionComments.c_actionId c;
       ActionComments.co_userId := ActionComments.c_userId c;
       ActionComments.co_name := ActionComments.c_name c;
       ActionComments.co_email := ActionComments.c_email c;
       ActionComments.co_comment := ActionComments.c_comment c;
       ActionComments.co_date := ActionComments.c_date c;
       ActionComments.co_hasPicture := ActionComments.c_hasPicture c;
       ActionComments.co_ratings := JsObject.minimized (ActionComments.c_ratings c);
       ActionComments.co_numLikes := None;
       ActionComments.co_userRating := None |} user
  = ActionComments.calcRating (ActionComments.toObject c) user.
Proof.
  intros Hwf. unfold ActionComments.calcRating, ActionComments.toObject, JsObject.each.
  cbn [ActionComments.co_id ActionComments.co_actionId ActionComments.co_userId
       ActionComments.co_name ActionComments.co_email ActionComments.co_comment
       ActionComments.co_date ActionComments.co_hasPicture ActionComments.co_ratings
       ActionComments.co_userRating].
  rewrite default_minimized. cbn [default].
  f_equal.
  - f_equal. rewrite !count_fold. unfold JsObject.values.
    rewrite map_rev, List.filter_rev, length_rev. unfold Datatypes.id. reflexivity.
  - destruct (str_truthy (String_ user)); [|reflexivity].
    destruct (ActionComments.c_ratings c) as [|e l] eqn:Hl; [reflexivity|].
    rewrite minimized_entries by discriminate.
    rewrite (jsobject_get_rev _ _ Hwf). reflexivity.
Qed.

(** The statistics of an action, through the steps of [get] and [all]. *)
Lemma includeRatingStats_numLikes (a : Actions.action) f :
  Forall rating_value (JsObject.values (Actions.a_ratings a)) ->
  Actions.o_ratings (f (Actions.toObject a)) = JsObject.minimized (Actions.a_ratings a) ->
  Actions.o_numLikes (Actions.includeRatingStats (f (Actions.toObject a)))
  = Some (count_positive Actions.rt_rating (Actions.a_ratings a)).
Proof.
  intros Hv Hr. unfold Actions.includeRatingStats; simpl. rewrite Hr, default_minimized.
  rewrite <- (count_positive_rev Actions.rt_rating (Actions.a_ratings a)).
  unfold JsObject.each, count_positive. f_equal.
  rewrite (count_truthy Actions.rt_rating); [lia|].
  unfold JsObject.values. rewrite map_rev. apply Forall_rev.
  eapply Forall_impl; [exact Hv | exact rating_value_truthy].
Qed.

Lemma find_elem_of {A} (p : A -> bool) l x : find p l = Some x -> x ∈ l /\ p x = true.
Proof. intros H. apply find_some in H as [H1 H2]. split; [apply list_elem_of_In|]; auto. Qed.

(** What [get] and [all] do to an object after the statistics: the
    user's own entry, looked up in the map that [toObject()] left. *)
Lemma own_rating_exposed (a : Actions.action) (o : Actions.actionObj) (uid : idval) :
  JsObject.wf (Actions.a_ratings a) ->
  Actions.o_ratings o = JsObject.minimized (Actions.a_ratings a) ->
  let v :=
    match JsObject.minimized (Actions.a_ratings a) with
    | Some ratings =>
        match JsObject.get (String_ uid) ratings with
        | Some r => Actions.with_userRating (Actions.rt_rating r) o
        | None => o
        end
    | None => o
    end in
  Actions.o_id v = Actions.o_id o
  /\ Actions.o_numLikes v = Actions.o_numLikes o
  /\ Actions.o_ratings v = JsObject.minimized (Actions.a_ratings a)
  /\ (forall r, JsObject.get (String_ uid) (Actions.a_ratings a) = Some r ->
        Actions.o_userRating v = Actions.rt_rating r).
Proof.
  intros Hwf Hr. cbv zeta.
  destruct (Actions.a_ratings a) as [|e l] eqn:Hl.
  - cbn [JsObject.minimized] in *.
    do 3 (split; [first [reflexivity | exact Hr]|]). intros r Hget. discriminate Hget.
  - rewrite minimized_entries in * by discriminate.
    rewrite (jsobject_get_rev _ _ Hwf).
    destruct (JsObject.get (String_ uid) (e :: l)) as [r|].
    + do 3 (split; [first [reflexivity | exact Hr]|]). intros r' [= <-]. reflexivity.
    + do 3 (split; [first [reflexivity | exact Hr]|]). intros r' Hget. discriminate Hget.
Qed.

Lemma actions_get_ok id u actions comments users v :
  ratings_stored actions ->
  Actions.get id u actions comments users = CbOk v ->
  exists a, a ∈ actions /\ Actions.a_id a = id
            /\ rated_action (id_of u) a v
            /\ Actions.o_ratings v = JsObject.minimized (Actions.a_ratings a).
Proof.
  intros Hst. unfold Actions.get.
  destruct (find _ actions) as [a|] eqn:Hf; [|discriminate].
  apply find_elem_of in Hf as [Hin Hid]. apply String.eqb_eq in Hid.
  rewrite comments_get_eq. intros [= <-].
  exists a. split; [exact Hin|]. split; [exact Hid|].
  unfold ratings_stored in Hst. rewrite Forall_forall in Hst.
  destruct (Hst a Hin) as [Hwf Hval].
  pose proof (includeRatingStats_numLikes a (Actions.localize (Actions.language u)) Hval eq_refl)
    as Hlikes.
  set (o := Actions.includeMeanEffort
              (Actions.includeRatingStats
                 (Actions.localize (Actions.language u) (Actions.toObject a)))).
  destruct (own_rating_exposed a o (id_of u) Hwf eq_refl) as (Hi & Hn & Hr & Hu).
  unfold rated_action. cbn [Actions.with_counts Actions.o_id Actions.o_numLikes
    Actions.o_userRating Actions.o_ratings].
  change (Actions.o_ratings o) with (JsObject.minimized (Actions.a_ratings a)).
  rewrite Hi, Hn, Hr. repeat split; [exact Hlikes | exact Hu].
Qed.

Lemma actions_all_ok limit skip includeRatings user actions l :
  ratings_stored actions ->
  Actions.all limit skip includeRatings user actions = CbOk l ->
  Forall (fun v => exists a, a ∈ actions
            /\ Actions.o_id v = Actions.a_id a
            /\ Actions.o_numLikes v = Some (count_positive Actions.rt_rating (Actions.a_ratings a))
            /\ (forall u, user = Some u -> rated_action (id_of u) a v)
            /\ Actions.o_ratings v
               = if includeRatings then JsObject.minimized (Actions.a_ratings a) else None) l.
Proof.
  intros Hst. unfold Actions.all. intros [= <-].
  set (docs := q_limit limit (q_skip skip (sort_by Actions.a_date true actions))).
  assert (Hdocs : forall a, a ∈ docs -> a ∈ actions).
  { intros a Ha. unfold docs in Ha.
    apply elem_of_q_limit, elem_of_q_skip, elem_of_sort_by in Ha. exact Ha. }
  unfold ratings_stored in Hst. rewrite Forall_forall in Hst.
  set (view := fun action : Actions.actionObj =>
                 match user, Actions.o_ratings action with
                 | Some u, Some ratings =>
                     match JsObject.get (String_ (id_of u)) ratings with
                     | Some r => Actions.with_userRating (Actions.rt_rating r) action
                     | None => action
                     end
                 | _, _ => action
                 end).
  assert (Hone : forall a, a ∈ docs ->
            let v := view (Actions.includeMeanEffort
                             (Actions.includeRatingStats (Actions.toObject a))) in
            Actions.o_id v = Actions.a_id a
            /\ Actions.o_numLikes v
               = Some (count_positive Actions.rt_rating (Actions.a_ratings a))
            /\ (forall u, user = Some u -> rated_action (id_of u) a v)
            /\ Actions.o_ratings v = JsObject.minimized (Actions.a_ratings a)).
  { intros a Ha. cbv zeta. destruct (Hst a (Hdocs a Ha)) as [Hwf Hval].
    pose proof (includeRatingStats_numLikes a (fun o => o) Hval eq_refl) as Hlikes.
    set (o := Actions.includeMeanEffort (Actions.includeRatingStats (Actions.toObject a))).
    unfold view. destruct user as [u|].
    - destruct (own_rating_exposed a o (id_of u) Hwf eq_refl) as (Hi & Hn & Hr & Hu).
      change (Actions.o_ratings o) with (JsObject.minimized (Actions.a_ratings a)).
      rewrite Hi, Hn, Hr. split; [reflexivity|]. split; [exact Hlikes|].
      split; [|reflexivity].
      intros u' [= <-]. unfold rated_action. rewrite Hi, Hn.
      split; [reflexivity|]. split; [exact Hlikes | exact Hu].
    - split; [reflexivity|]. split; [exact Hlikes|]. split; [intros ? [=] | reflexivity]. }
  rewrite !map_map. apply Forall_forall. intros v Hv.
  destruct includeRatings; cbn [negb] in Hv.
  - apply list_elem_of_fmap in Hv as (a & -> & Ha).
    destruct (Hone a Ha) as (H0 & H1 & H2 & H3).
    exists a. auto using Hdocs.
  - apply list_elem_of_fmap in Hv as (a & -> & Ha).
    destruct (Hone a Ha) as (H0 & H1 & H2 & H3).
    exists a. split; [auto using Hdocs|]. split; [exact H0|]. split; [exact H1|].
    split; [|reflexivity].
    intros u Hu. destruct (H2 u Hu) as (Ha1 & Ha2 & Ha3).
    split; [exact Ha1|]. split; [exact Ha2 | exact Ha3].
Qed.

(** C3, as the code has it, for rating maps as the [rate] operations
    leave them (one entry per user; a like is 0 or 1, a rating of an
    action is 0, 1 or missing): every comment that [get] or [getByUser]
    returns is reduced (likes counted, own like exposed, map removed);
    every action that [get] or [all] returns has its likes counted and
    the requesting user's rating exposed, but the rating map is removed
    only by [all], and only when [includeRatings] is not set. [get], and
    [all] with [includeRatings], return the map as [toObject()] gives
    it: the entries in reverse order, and no map when no one has rated. *)
Theorem rating_reduction (coll : list ActionComments.aComment) (actions : list Actions.action) :
  likes_stored coll -> ratings_stored actions ->
  (forall actionId limit skip user l,
      ActionComments.get actionId limit skip user coll = CbOk l ->
      Forall (fun co => exists c, c ∈ coll /\ ActionComments.c_actionId c = actionId
                                  /\ reduced_comment (requester user) c co) l)
  /\ (forall u limit skip l,
      ActionComments.getByUser u limit skip coll = CbOk l ->
      Forall (fun co => exists c, c ∈ coll /\ reduced_comment (id_of u) c co) l)
  /\ (forall id u comments users v,
      Actions.get id u actions comments users = CbOk v ->
      exists a, a ∈ actions /\ Actions.a_id a = id /\ rated_action (id_of u) a v
                /\ (Actions.a_ratings a = [] -> Actions.o_ratings v = None)
                /\ (Actions.a_ratings a <> [] ->
                    Actions.o_ratings v = Some (rev (Actions.a_ratings a))))
  /\ (forall limit skip includeRatings user l,
      Actions.all limit skip includeRatings user actions = CbOk l ->
      Forall (fun v => exists a, a ∈ actions
                /\ Actions.o_id v = Actions.a_id a
                /\ Actions.o_numLikes v
                   = Some (count_positive Actions.rt_rating (Actions.a_ratings a))
                /\ (forall u, user = Some u -> rated_action (id_of u) a v)
                /\ (includeRatings = false -> Actions.o_ratings v = None)
                /\ (includeRatings = true -> Actions.a_ratings a = [] ->
                    Actions.o_ratings v = None)
                /\ (includeRatings = true -> Actions.a_ratings a <> [] ->
                    Actions.o_ratings v = Some (rev (Actions.a_ratings a)))) l).
Proof.
  intros Hlikes Hratings. split; [|split; [|split]].
  - intros actionId limit skip user l. rewrite comments_get_eq. intros [= <-].
    eapply Forall_impl; [apply reduced_comments; exact Hlikes|].
    intros co (c & Hc & Hq & Hred). apply String.eqb_eq in Hq. eauto.
  - intros u limit skip l. rewrite comments_getByUser_eq. intros [= <-].
    eapply Forall_impl; [apply reduced_comments; exact Hlikes|].
    intros co (c & Hc & _ & Hred). eauto.
  - intros id u comments users v Hget.
    destruct (actions_get_ok _ _ _ _ _ _ Hratings Hget) as (a & Hin & Hid & Hra & Hmap).
    exists a. split; [exact Hin|]. split; [exact Hid|]. split; [exact Hra|].
    rewrite Hmap. split; [apply minimized_empty | apply minimized_entries].
  - intros limit skip includeRatings user l Hall.
    eapply Forall_impl; [apply (actions_all_ok _ _ _ _ _ _ Hratings Hall)|].
    intros v (a & Hin & Hid & Hn & Hu & Hmap).
    exists a. split; [exact Hin|]. split; [exact Hid|]. split; [exact Hn|].
    split; [exact Hu|]. rewrite Hmap.
    split; [intros ->; reflexivity|].
    split; intros ->; [apply minimized_empty | apply minimized_entries].
Qed.

(** C3 as stated fails on [Actions.get]: the action comes back with
    its likes counted and Jane's rating exposed, and with the rating map. *)
Lemma actions_get_keeps_ratings :
  exists v,
    Actions.get "5594dbeadfbb985d0ac150c6" jane [liked] [liked_comment] [] = CbOk v
    /\ Actions.o_numLikes v = Some 1
    /\ Actions.o_userRating v = Some 1
    /\ Actions.o_ratings v = Some (rev (Actions.a_ratings liked))
    /\ Actions.o_ratings v <> None.
Proof.
  eexists. split; [vm_compute; reflexivity|].
  repeat split. discriminate.
Qed.

Lemma rating_reduction_witness :
  likes_stored [liked_comment] /\ ratings_stored [liked]
  /\ (exists l,
        ActionComments.get "5594dbeadfbb985d0ac150c4" (Some 10%nat) (Some 0%nat) (Some jane)
          [liked_comment] = CbOk l
        /\ Forall (fun co => exists c, c ∈ [liked_comment]
                     /\ ActionComments.c_actionId c = "5594dbeadfbb985d0ac150c4"
                     /\ reduced_comment (requester (Some jane)) c co) l)
  /\ (exists v,
        Actions.get "5594dbeadfbb985d0ac150c6" jack [liked] [liked_comment] [] = CbOk v
        /\ rated_action (id_of jack) liked v
        /\ Actions.o_ratings v = Some (rev (Actions.a_ratings liked)))
  /\ (exists l,
        Actions.all None None false (Some jack) [liked] = CbOk l
        /\ Forall (fun v => exists a, a ∈ [liked]
                     /\ Actions.o_numLikes v
                        = Some (count_positive Actions.rt_rating (Actions.a_ratings a))
                     /\ (forall u, Some jack = Some u -> rated_action (id_of u) a v)
                     /\ Actions.o_ratings v = None) l).
Proof.
  assert (H1 : likes_stored [liked_comment]).
  { unfold likes_stored; each_entry; unfold like_value; simpl; auto. }
  assert (H2 : ratings_stored [liked]).
  { unfold ratings_stored; each_entry.
    split; [|each_entry; unfold rating_value; simpl; auto].
    unfold JsObject.wf; simpl. repeat constructor.
    - rewrite list_elem_of_singleton. discriminate.
    - apply not_elem_of_nil. }
  destruct (rating_reduction [liked_comment] [liked] H1 H2) as (Hget & _ & Hone & Hall).
  split; [exact H1|]. split; [exact H2|]. split; [|split].
  - eexists. split; [reflexivity|].
    apply (Hget _ (Some 10%nat) (Some 0%nat) (Some jane)). reflexivity.
  - eexists. split; [reflexivity|].
    destruct (Hone "5594dbeadfbb985d0ac150c6" jack [liked_comment] [] _ eq_refl)
      as (a & Ha & _ & Hra & _ & Hmap).
    apply list_elem_of_singleton in Ha. subst a.
    split; [exact Hra | apply Hmap; discriminate].
  - eexists. split; [reflexivity|].
    eapply Forall_impl; [apply (Hall None None false (Some jack)); reflexivity|].
    intros v (a & Hin & _ & Hn & Hu & Hnone & _).
    exists a. split; [exact Hin|]. split; [exact Hn|]. split; [exact Hu|].
    apply Hnone. reflexivity.
Defined.

End RatingReduction.

(** ** Suggested actions *)

Section Suggested.
Import Actions.

(** Writing [x] over a [y] found at [j] in [l], with [y] put in front, is
    a rearrangement of [x :: l]. *)
Lemma insert_swap_head {A} (l : list A) j x y :
  l !! j = Some y -> y :: <[j := x]> l ≡ₚ x :: l.
Proof.
  revert j; induction l as [|z l IH]; intros [|j] H; simpl in *; try discriminate.
  - injection H as ->. apply Permutation_swap.
  - rewrite (Permutation_swap z y), (IH j H). apply Permutation_swap.
Qed.

(** The exchange of two cells of an array is a rearrangement. *)
Lemma swap_perm {A} (array : list A) i j temp aj :
  array !! i = Some temp -> array !! j = Some aj ->
  <[j := temp]> (<[i := aj]> array) ≡ₚ array.
Proof.
  revert i j; induction array as [|z l IH]; intros [|i] [|j] Hi Hj;
    simpl in *; try discriminate.
  - injection Hi as ->. injection Hj as ->. reflexivity.
  - injection Hi as ->. apply insert_swap_head; exact Hj.
  - injection Hj as ->. rewrite (insert_swap_head l i aj temp Hi). reflexivity.
  - rewrite (IH i j Hi Hj). reflexivity.
Qed.

Lemma shuffle_loop_perm {A} rnd i : forall k (array : list A),
  shuffle_loop rnd k i array ≡ₚ array.
Proof.
  induction i as [|i IH]; intros k array; cbn [shuffle_loop]; [reflexivity|].
  rewrite IH.
  generalize (Nat.modulo (rnd k) (S i + 1)); intros j.
  destruct (array !! S i) as [temp|] eqn:Hi; [|reflexivity].
  destruct (array !! j) as [aj|] eqn:Hj; [|reflexivity].
  apply (swap_perm array _ _ temp aj Hi Hj).
Qed.

Lemma shuffleArray_perm {A} rnd (array : list A) : shuffleArray rnd array ≡ₚ array.
Proof. apply shuffle_loop_perm. Qed.

Lemma cap5_length {A} rnd (l : list A) : (length (cap5 rnd l) <= 5)%nat.
Proof.
  unfold cap5. destruct (Nat.ltb_spec 5 (length l)) as [H|H].
  - rewrite length_take. lia.
  - exact H.
Qed.

Lemma cap5_subseteq {A} rnd (l : list A) x : x ∈ cap5 rnd l -> x ∈ l.
Proof.
  unfold cap5. destruct (5 <? length l)%nat; [|auto].
  intros H. apply subseteq_take in H. rewrite shuffleArray_perm in H. exact H.
Qed.

Lemma bucket_keys_lookup (m : gmap string Z) id :
  id ∈ bucket_keys m <-> is_Some (m !! id).
Proof.
  unfold bucket_keys. rewrite list_elem_of_fmap. split.
  - intros ([k v] & -> & H). apply elem_of_map_to_list in H. eauto.
  - intros [v H]. exists (id, v). split; [reflexivity|].
    apply elem_of_map_to_list; exact H.
Qed.

Lemma nin_lookup m a : nin m a = true <-> m !! a_id a = None.
Proof.
  unfold nin. rewrite negb_true_iff, bool_decide_eq_false, bucket_keys_lookup.
  rewrite <- eq_None_not_Some. reflexivity.
Qed.

Lemma not_in_buckets_spec user a :
  not_in_buckets (u_actions user) a = true <-> in_no_bucket user (a_id a).
Proof.
  unfold not_in_buckets, in_no_bucket.
  rewrite !andb_true_iff, !nin_lookup. tauto.
Qed.

Lemma getSuggested_eq user rnd actions :
  getSuggested user rnd actions
  = CbOk (map (rename_for user)
            (cap5 rnd (map (select_for user) (candidates user actions)))).
Proof.
  unfold getSuggested, candidates, rename_for, select_for.
  destruct (lang_is (language user) "Italian"); [reflexivity|].
  destruct (lang_is (language user) "Swedish"); [reflexivity|].
  rewrite map_id. reflexivity.
Qed.

Lemma candidates_spec user actions a :
  a ∈ candidates user actions ->
  a ∈ actions /\ in_no_bucket user (a_id a)
  /\ (lang_is (language user) "Italian" = true -> is_Some (a_nameIt a))
  /\ (lang_is (language user) "Swedish" = true -> is_Some (a_nameSe a)).
Proof.
  unfold candidates.
  destruct (lang_is (language user) "Italian") eqn:HIt;
    [|destruct (lang_is (language user) "Swedish") eqn:HSe];
    rewrite list_elem_of_filter; intros [Hp Hin].
  - apply andb_true_iff in Hp as [Hb Hn]. apply bool_decide_eq_true in Hn.
    apply not_in_buckets_spec in Hb.
    split; [exact Hin|]. split; [exact Hb|]. split; [intros _; exact Hn|].
    intros HSe. unfold lang_is in *. destruct (language user) as [l|]; [|discriminate].
    apply String.eqb_eq in HIt, HSe. congruence.
  - apply andb_true_iff in Hp as [Hb Hn]. apply bool_decide_eq_true in Hn.
    apply not_in_buckets_spec in Hb.
    split; [exact Hin|]. split; [exact Hb|]. split; [discriminate | intros _; exact Hn].
  - apply not_in_buckets_spec in Hp.
    split; [exact Hin|]. split; [exact Hp|]. split; discriminate.
Qed.

Lemma view_of_candidate user a :
  sg_id (rename_for user (select_for user a)) = a_id a
  /\ (lang_is (language user) "Italian" = true ->
      sg_name (rename_for user (select_for user a)) = a_nameIt a)
  /\ (lang_is (language user) "Swedish" = true ->
      sg_name (rename_for user (select_for user a)) = a_nameSe a).
Proof.
  unfold rename_for, select_for.
  destruct (lang_is (language user) "Italian") eqn:HIt;
    [|destruct (lang_is (language user) "Swedish") eqn:HSe]; simpl.
  - split; [reflexivity|]. split; [reflexivity|].
    intros HSe. unfold lang_is in *. destruct (language user) as [l|]; [|discriminate].
    apply String.eqb_eq in HIt, HSe. congruence.
  - split; [reflexivity|]. split; [discriminate | reflexivity].
  - split; [reflexivity|]. split; discriminate.
Qed.

(** C2, as the code has it: the suggestions are at most 5, each is an
    action that is in none of the user's five status dictionaries and,
    for an Italian or Swedish profile, has the localized name; up to 5
    candidates are returned as the query gave them, without any shuffle,
    and more than 5 are shuffled and cut to the first 5. *)
Theorem getSuggested_capped (user : userDoc) (rnd : nat -> nat) (actions : list action) :
  exists l,
    getSuggested user rnd actions = CbOk l
    /\ Forall (fun s => exists a, a ∈ actions /\ sg_id s = a_id a
                 /\ in_no_bucket user (a_id a)
                 /\ (lang_is (language user) "Italian" = true ->
                     is_Some (a_nameIt a) /\ sg_name s = a_nameIt a)
                 /\ (lang_is (language user) "Swedish" = true ->
                     is_Some (a_nameSe a) /\ sg_name s = a_nameSe a)) l
    /\ (length l <= 5)%nat
    /\ ((length (candidates user actions) <= 5)%nat ->
        l = map (rename_for user) (map (select_for user) (candidates user actions)))
    /\ ((5 < length (candidates user actions))%nat ->
        l = spec_getSuggested user rnd actions /\ length l = 5%nat).
Proof.
  eexists. split; [apply getSuggested_eq|].
  split; [|split; [|split]].
  - apply Forall_forall. intros s Hs.
    apply list_elem_of_fmap in Hs as (s' & -> & Hs').
    apply cap5_subseteq, list_elem_of_fmap in Hs' as (a & -> & Ha).
    apply candidates_spec in Ha as (Hin & Hb & HIt & HSe).
    destruct (view_of_candidate user a) as (Hid & HnIt & HnSe).
    exists a. split; [exact Hin|]. split; [exact Hid|]. split; [exact Hb|].
    split; intros H; auto.
  - rewrite length_map. apply cap5_length.
  - intros Hle. unfold cap5. rewrite length_map.
    destruct (Nat.ltb_spec 5 (length (candidates user actions))); [lia | reflexivity].
  - intros Hlt. unfold cap5. rewrite length_map.
    destruct (Nat.ltb_spec 5 (length (candidates user actions))); [|lia].
    split; [reflexivity|].
    rewrite length_map, length_take, (Permutation_length (shuffleArray_perm _ _)), length_map.
    lia.
Qed.

(** C2 as stated fails when there are few candidates: with two of them
    and a random source that makes the shuffle exchange them, the result
    is still in the order of the query. *)
Lemma getSuggested_few_not_shuffled :
  getSuggested jane (fun _ => 0%nat) [standby; liked]
  = CbOk [select_En standby; select_En liked]
  /\ spec_getSuggested jane (fun _ => 0%nat) [standby; liked]
     = [select_En liked; select_En standby]
  /\ getSuggested jane (fun _ => 0%nat) [standby; liked]
     <> CbOk (spec_getSuggested jane (fun _ => 0%nat) [standby; liked]).
Proof.
  split; [vm_compute; reflexivity|].
  split; [vm_compute; reflexivity|].
  vm_compute. discriminate.
Qed.

End Suggested.

(** ** The community router *)

Section Router.
Import CommunityRoutes.
Context {store community removed topAction picture uploaded : Type}.
Variable util_inspect : list validationError -> string.
Variable Community_getCommunityInfo : string -> store -> cbres community.
Variable Community_delete : string -> store -> cbres removed * store.
Variable Community_addMember : string -> idval -> store -> cbres community * store.
Variable Community_topActions : string -> option Z -> store -> cbres (list topAction).
Variable Community_rate :
  string -> userDoc -> option Z -> option string -> store -> cbres community * store.
Variable User_getUserCommunities : idval -> store -> cbres (list community).
Variable common_getUserHome : string.
Variable common_uploadPicture :
  picture -> Z -> string -> string -> store -> cbres uploaded * store.

Abbreviation join := (put_join util_inspect Community_addMember User_getUserCommunities).

Lemma validationErrors_route name msg id :
  validationErrors name msg {[ name := id ]}
  = if isMongoId id then []
    else [{| ve_param := name; ve_msg := msg; ve_value := Some id |}].
Proof. unfold validationErrors. rewrite lookup_singleton_eq. reflexivity. Qed.

Lemma param_route {B} name id (b : B) u : param name (route_request name id b u) = id.
Proof. unfold param, route_request; simpl. rewrite lookup_singleton_eq. reflexivity. Qed.

Lemma achievement_update userId name f achievements userId' name' :
  achievement userId' name' (updateAchievement userId name f achievements)
  = if decide ((userId, name) = (userId', name'))
    then f (achievement userId name achievements)
    else achievement userId' name' achievements.
Proof.
  unfold achievement, updateAchievement. rewrite lookup_insert.
  destruct (decide ((userId, name) = (userId', name'))); reflexivity.
Qed.

(** No counter of any user decreases when a join request is handled. *)
Lemma join_monotone (req : request unit) (sv : server) userId name :
  achievement userId name (sv_achievements sv)
  <= achievement userId name (sv_achievements (join req sv).2).
Proof.
  unfold put_join.
  destruct (validationErrors "id" "Invalid Community id" (params req)); [|simpl; lia].
  destruct (Community_addMember _ _ _) as [r st].
  destruct r as [msg|e|c]; simpl; try lia.
  destruct (User_getUserCommunities _ st) as [msg|e|communities]; simpl; try lia.
  rewrite achievement_update.
  destruct (decide _) as [[= <- <-]|_]; lia.
Qed.

Lemma join_seq_monotone reqs : forall (sv : server) userId name,
  achievement userId name (sv_achievements sv)
  <= achievement userId name
       (sv_achievements
          (join_seq util_inspect Community_addMember User_getUserCommunities reqs sv)).
Proof.
  induction reqs as [|req reqs IH]; intros sv userId name; simpl; [lia|].
  etransitivity; [apply (join_monotone req sv userId name)|].
  apply IH.
Qed.

(** C5: a join that succeeds sets the user's [communitiesJoined] counter
    to the maximum of its old value and the number of the user's
    communities, and over any run of join requests no counter
    decreases. *)
Theorem join_sets_max (id : string) (u : userDoc) (sv : server) c st communities :
  isMongoId id = true ->
  Community_addMember id (id_of u) (sv_store sv) = (CbOk c, st) ->
  User_getUserCommunities (id_of u) st = CbOk communities ->
  achievement (String_ (id_of u)) "communitiesJoined"
    (sv_achievements (join (route_request "id" id tt u) sv).2)
  = Z.max (achievement (String_ (id_of u)) "communitiesJoined" (sv_achievements sv))
      (Z.of_nat (length communities))
  /\ (join (route_request "id" id tt u) sv).1 = {| status := 200; sent := Json c |}
  /\ (forall reqs sv0 userId name,
        achievement userId name (sv_achievements sv0)
        <= achievement userId name
             (sv_achievements
                (join_seq util_inspect Community_addMember User_getUserCommunities
                   reqs sv0))).
Proof.
  intros Hid Hadd Hget. unfold put_join.
  rewrite param_route. cbn [params route_request req_user].
  rewrite validationErrors_route, Hid, Hadd, Hget. cbn.
  split; [|split; [reflexivity|]].
  - rewrite achievement_update. destruct (decide _) as [_|Hne]; [reflexivity|].
    exfalso; apply Hne; reflexivity.
  - intros reqs sv0 userId name. apply join_seq_monotone.
Qed.

(** What the comment handler stores: the community id is the one of the
    request body, and without one nothing is stored. *)
Lemma post_comment_community communityId body u newId now (sv : @server store) :
  match sent (post_comment (route_request "communityId" communityId body u) newId now sv).1 with
  | Json c => Some (CommunityComments.cc_communityId c)
              = CommunityComments.ci_communityId body
  | _ => sv_comments (post_comment (route_request "communityId" communityId body u)
                        newId now sv).2 = sv_comments sv
  end.
Proof.
  unfold post_comment, CommunityComments.create, ActionComments.required.
  cbn [CommunityRoutes.body route_request req_user CommunityComments.ci_communityId
       CommunityComments.ci_userId CommunityComments.ci_name
       CommunityComments.ci_email CommunityComments.ci_comment].
  destruct (CommunityComments.ci_communityId body) as [[|ch cid]|]; try reflexivity.
  cbn [str_truthy].
  destruct (u_id u) as [[|? ?]|]; try reflexivity.
  destruct (u_profile u ≫= p_name) as [[|? ?]|]; try reflexivity.
  destruct (u_email u) as [|? ?]; try reflexivity.
  destruct (CommunityComments.ci_comment body) as [[|? ?]|]; reflexivity.
Qed.

(** C7: each of the six handlers that validate an id answers a request
    whose id is not a MongoId with status 500 and the validation-error
    message, and touches nothing; the models report a missing document or
    a rating outside 0 and 1 as a string in the first argument of the
    callback. *)
Theorem invalid_id_and_domain_errors :
  (forall id u (sv : server) limit rating pic,
      isMongoId id = false ->
      get_community util_inspect Community_getCommunityInfo (route_request "id" id tt u) sv
      = (invalid_id_response util_inspect "id" "Invalid community id" id, sv)
      /\ delete_community util_inspect Community_delete (route_request "id" id tt u) sv
         = (invalid_id_response util_inspect "id" "Invalid Community id" id, sv)
      /\ join (route_request "id" id tt u) sv
         = (invalid_id_response util_inspect "id" "Invalid Community id" id, sv)
      /\ get_top util_inspect Community_topActions (route_request "id" id limit u) sv
         = (invalid_id_response util_inspect "id" "Invalid Community id" id, sv)
      /\ post_communityPicture util_inspect common_getUserHome common_uploadPicture
           (route_request "communityId" id pic u) sv
         = (invalid_id_response util_inspect "communityId" "Invalid Community id" id, sv)
      /\ put_rate util_inspect Community_rate (route_request "id" id rating u) sv
         = (invalid_id_response util_inspect "id" "Invalid community id" id, sv))
  /\ (forall id u actions comments users,
      find (by_id id) actions = None ->
      Actions.get id u actions comments users = CbErr "Action not found")
  /\ (forall id u uid name rating effort now actions,
      u_id u = Some uid -> u_profile u ≫= p_name = Some name -> str_truthy name = true ->
      find (by_id id) actions = None ->
      Actions.rate id (Some u) rating effort now actions
      = (CbErr "Action not found", actions))
  /\ (forall id u uid name r effort now actions a,
      u_id u = Some uid -> u_profile u ≫= p_name = Some name -> str_truthy name = true ->
      find (by_id id) actions = Some a -> r <> 0 -> r <> 1 ->
      exists msg,
        Actions.rate id (Some u) (Some r) effort now actions = (CbErr msg, actions)
        /\ (msg = "Invalid rating estimate" \/ msg = "Missing/invalid rating"))
  /\ (forall actionId commentId u uid r now coll,
      u_id u = Some uid -> r <> 0 -> r <> 1 ->
      exists msg,
        ActionComments.rate actionId commentId (Some u) (Some r) now coll
        = (CbErr msg, coll)
        /\ (msg = "Action comment not found" \/ msg = "invalid rating! should be 0 or 1")).
Proof.
  split; [|split; [|split; [|split]]].
  - intros id u sv limit rating pic Hid.
    unfold get_community, delete_community, put_join, get_top, post_communityPicture,
      put_rate, invalid_id_response.
    cbn [params route_request]. rewrite !validationErrors_route, Hid.
    repeat split; reflexivity.
  - intros id u actions comments users Hf. unfold Actions.get.
    fold (by_id id). rewrite Hf. reflexivity.
  - intros id u uid name rating effort now actions Hu Hn Ht Hf. unfold Actions.rate.
    fold (by_id id). rewrite Hu, Hn, Ht, Hf. reflexivity.
  - intros id u uid name r effort now actions a Hu Hn Ht Hf H0 H1. unfold Actions.rate.
    fold (by_id id). rewrite Hu, Hn, Ht, Hf. cbn [negb].
    unfold Actions.rate_check. cbn [isNumber Actions.num_test andb].
    destruct (Z.eqb_spec r 1); [contradiction|].
    destruct (Z.eqb_spec r 0); [contradiction|]. cbn [negb andb].
    destruct (JsObject.get uid (Actions.a_ratings a)); eexists; split; eauto.
  - intros actionId commentId u uid r now coll Hu H0 H1. unfold ActionComments.rate.
    rewrite Hu.
    destruct (find _ coll); [|eexists; split; eauto].
    destruct (Z.eqb_spec r 0); [contradiction|].
    destruct (Z.eqb_spec r 1); [contradiction|]. cbn [negb andb].
    eexists; split; eauto.
Qed.

End Router.

(** ** The router on sample requests *)

Section RouterSamples.
Import CommunityRoutes.

(** Jane joins the first community, then the second. *)
Example jane_joins_twice :
  let join := put_join sample_inspect sample_addMember sample_getUserCommunities in
  let sv1 := (join (route_request "id" "555ef84b2fd41ffc6e078a34" tt jane)
                (sample_server two_communities)).2 in
  let sv2 := (join (route_request "id" "555ef84b2fd41ffc6e078a35" tt jane) sv1).2 in
  achievement "5593ccfa9255daa130890164" "communitiesJoined" (sv_achievements sv1) = 1
  /\ achievement "5593ccfa9255daa130890164" "communitiesJoined" (sv_achievements sv2) = 2.
Proof. split; vm_compute; reflexivity. Qed.

Lemma join_sets_max_witness :
  isMongoId "555ef84b2fd41ffc6e078a34" = true
  /\ sample_addMember "555ef84b2fd41ffc6e078a34" (id_of jane) two_communities
     = (CbOk ("555ef84b2fd41ffc6e078a34", ["5593ccfa9255daa130890164"]),
        [("555ef84b2fd41ffc6e078a34", ["5593ccfa9255daa130890164"]);
         ("555ef84b2fd41ffc6e078a35", [])])
  /\ achievement "5593ccfa9255daa130890164" "communitiesJoined"
       (sv_achievements
          (put_join sample_inspect sample_addMember sample_getUserCommunities
             (route_request "id" "555ef84b2fd41ffc6e078a34" tt jane)
             (sample_server two_communities)).2)
     = Z.max 0 1.
Proof.
  split; [reflexivity|]. split; [reflexivity|].
  exact (proj1 (join_sets_max sample_inspect sample_addMember sample_getUserCommunities
                  "555ef84b2fd41ffc6e078a34" jane (sample_server two_communities)
                  ("555ef84b2fd41ffc6e078a34", ["5593ccfa9255daa130890164"])
                  [("555ef84b2fd41ffc6e078a34", ["5593ccfa9255daa130890164"]);
                   ("555ef84b2fd41ffc6e078a35", [])]
                  [("555ef84b2fd41ffc6e078a34", ["5593ccfa9255daa130890164"])]
                  eq_refl eq_refl eq_refl)).
Defined.

(** C6 on the request of the API documentation: the path names the
    community, the body does not; the community id of the path is not
    used, the validation of the required [communityId] fails and no
    comment is stored. With a body that names another community the
    comment is stored under that one. *)
Lemma post_comment_drops_path_id :
  let path := "555f0163688305b57c7cef6c" in
  let other := "555f0163688305b57c7cef6f" in
  let sv := sample_server two_communities in
  post_comment (route_request "communityId" path (fun_comment None) jane)
    "555f0163688305b57c7cef6d" 1435752273599 sv
  = ({| status := 500; sent := ErrorObj "ValidationError" |},
     log jane "Community Comments" "create" sv)
  /\ (exists c sv',
        post_comment (route_request "communityId" path (fun_comment (Some other)) jane)
          "555f0163688305b57c7cef6d" 1435752273599 sv
        = ({| status := 200; sent := Json c |}, sv')
        /\ sv_comments sv' = [c]
        /\ CommunityComments.cc_communityId c = other
        /\ CommunityComments.cc_communityId c <> path).
Proof.
  split; [vm_compute; reflexivity|].
  eexists _, _. split; [vm_compute; reflexivity|].
  split; [reflexivity|]. split; [reflexivity|]. discriminate.
Qed.

Lemma invalid_id_and_domain_errors_witness :
  isMongoId "list" = false
  /\ post_communityPicture (store := list sample_community) (uploaded := unit)
       sample_inspect "/home/youpower"
       (fun (pic : string) _ _ _ st => (CbOk tt, st))
       (route_request "communityId" "list" "png" jane) (sample_server two_communities)
     = ({| status := 500;
           sent := Text "There have been validation errors: Invalid Community id" |},
        sample_server two_communities)
  /\ (exists msg,
        ActionComments.rate "5594dbeadfbb985d0ac150c4" "555f0163688305b57c7cef6d"
          (Some jane) (Some 2) 10 [liked_comment] = (CbErr msg, [liked_comment])
        /\ (msg = "Action comment not found" \/ msg = "invalid rating! should be 0 or 1")).
Proof.
  split; [reflexivity|].
  destruct (invalid_id_and_domain_errors
              (store := list sample_community) (community := sample_community)
              (removed := unit) (topAction := unit) (picture := string) (uploaded := unit)
              sample_inspect
              (fun _ _ => CbErr "Community not found")
              (fun _ st => (CbOk tt, st))
              sample_addMember
              (fun _ _ _ => CbOk [])
              (fun _ _ _ _ st => (CbErr "Community not found", st))
              sample_getUserCommunities
              "/home/youpower"
              (fun (pic : string) _ _ _ st => (CbOk tt, st)))
    as (Hroutes & _ & _ & _ & Hlike).
  split.
  - destruct (Hroutes "list" jane (sample_server two_communities)
                {| b_limit := None |} {| b_rating := None; b_comment := None |} "png"
                eq_refl) as (_ & _ & _ & _ & Hpic & _).
    exact Hpic.
  - apply (Hlike _ _ jane "5593ccfa9255daa130890164"); [reflexivity | lia | lia].
Defined.

End RouterSamples.

(** ** Cooperatives *)

Section CooperativeFacts.
Import Cooperatives.

Lemma actions_id_None actionId l :
  actions_id actionId l = None <-> actionId ∉ map ca_id l.
Proof.
  unfold actions_id. induction l as [|a l IH]; simpl.
  - split; [intros _; apply not_elem_of_nil | reflexivity].
  - destruct (String.eqb (ca_id a) actionId) eqn:E.
    + apply String.eqb_eq in E. split; [discriminate|].
      intros H; exfalso; apply H; rewrite E; left.
    + apply String.eqb_neq in E. rewrite IH, not_elem_of_cons. split; [auto|tauto].
Qed.



Lemma pull_absent actionId l : actionId ∉ map ca_id l -> pull actionId l = l.
Proof.
  unfold pull. induction l as [|a l IH]; simpl; [reflexivity|].
  intros H. apply not_elem_of_cons in H as [Hne H].
  rewrite filter_cons. destruct (decide _) as [_|Hd].
  - f_equal; auto.
  - exfalso; apply Hd. apply String.eqb_neq; congruence.
Qed.


Lemma find_save c c' coll :
  find (coop_by_id (cp_id c)) coll = Some c -> cp_id c' = cp_id c ->
  find (coop_by_id (cp_id c)) (save c' coll) = Some c'.
Proof.
  intros Hf Hid. unfold save. rewrite Hid. fold (coop_by_id (cp_id c)).
  apply (find_update_first _ _ _ c Hf). unfold coop_by_id. rewrite Hid. apply eqb_refl_true.
Qed.




(** C9: [create] reads the name, the year of construction and the area
    of its input and nothing else: two inputs that agree on these three
    give the same result, whatever meters and actions they carry. A
    name that is not empty and no other cooperative has, with a year and
    an area, gives a cooperative with these three values, no meters and
    an empty list of actions, stored at the end; a name that is missing
    or empty, or a missing year or area, gives a validation error, a
    name that is taken a duplicate-key error, and then nothing is
    stored. *)
Theorem create_reads_three_fields (input : cooperativeInput) (newId : string)
    (coll : list cooperative) :
  (forall input',
      in_name input' = in_name input -> in_yearOfConst input' = in_yearOfConst input ->
      in_area input' = in_area input ->
      create input' newId coll = create input newId coll)
  /\ (forall c coll',
        create input newId coll = (CbOk c, coll') ->
        in_name input = Some (cp_name c) /\ cp_name c <> ""
        /\ in_yearOfConst input = Some (cp_yearOfConst c)
        /\ in_area input = Some (cp_area c)
        /\ cp_id c = newId
        /\ cp_meters c = None /\ cp_actions c = []
        /\ coll' = (coll ++ [c])%list)
  /\ (forall name yearOfConst area,
        in_name input = Some name -> name <> "" ->
        in_yearOfConst input = Some yearOfConst ->
        in_area input = Some area ->
        Forall (fun c => cp_name c <> name) coll ->
        exists c, create input newId coll = (CbOk c, (coll ++ [c])%list)
                  /\ cp_id c = newId /\ cp_name c = name
                  /\ cp_yearOfConst c = yearOfConst /\ cp_area c = area
                  /\ cp_meters c = None /\ cp_actions c = [])
  /\ (in_name input = None \/ in_name input = Some ""
      \/ in_yearOfConst input = None \/ in_area input = None ->
      create input newId coll = (CbErrObj "ValidationError", coll))
  /\ (forall name yearOfConst area c0,
        in_name input = Some name -> name <> "" ->
        in_yearOfConst input = Some yearOfConst ->
        in_area input = Some area ->
        c0 ∈ coll -> cp_name c0 = name ->
        create input newId coll = (CbErrObj "MongoError", coll)).
Proof.
  split; [|split; [|split; [|split]]].
  - intros input' Hn Hy Ha. unfold create. rewrite Hn, Hy, Ha. reflexivity.
  - intros c coll'. unfold create, model_create.
    destruct (in_name input) as [name|]; [|discriminate].
    destruct name as [|ch name]; [discriminate|]. cbn [ActionComments.required str_truthy].
    destruct (in_yearOfConst input) as [y|]; [|discriminate].
    destruct (in_area input) as [a|]; [|discriminate].
    destruct (existsb _ coll); [discriminate|].
    intros [= <- <-]. repeat split; try reflexivity. discriminate.
  - intros name y a Hn Hne Hy Ha Hfresh. unfold create, model_create.
    rewrite Hn, Hy, Ha.
    destruct name as [|ch name]; [contradiction|]. cbn [ActionComments.required str_truthy].
    replace (existsb (fun c => String.eqb (cp_name c) (String ch name)) coll) with false.
    + eexists. repeat split; reflexivity.
    + symmetry. apply not_true_iff_false. intros Hex.
      apply existsb_exists in Hex as (c & Hc & Heq).
      apply String.eqb_eq in Heq. rewrite Forall_forall in Hfresh.
      apply (Hfresh c); [apply list_elem_of_In; exact Hc | exact Heq].
  - unfold create, model_create. intros [H | [H | [H | H]]]; rewrite H.
    + reflexivity.
    + reflexivity.
    + destruct (ActionComments.required (in_name input)); reflexivity.
    + destruct (ActionComments.required (in_name input)), (in_yearOfConst input);
        reflexivity.
  - intros name y a c0 Hn Hne Hy Ha Hin Hname. unfold create, model_create.
    rewrite Hn, Hy, Ha.
    destruct name as [|ch name]; [contradiction|]. cbn [ActionComments.required str_truthy].
    replace (existsb (fun c => String.eqb (cp_name c) (String ch name)) coll) with true;
      [reflexivity|].
    symmetry. apply existsb_exists. exists c0.
    split; [apply list_elem_of_In; exact Hin | apply String.eqb_eq; exact Hname].
Qed.

(** An input with meters and actions: the cooperative is created without
    them; the same input with an empty name is refused. *)
Lemma create_reads_three_fields_witness :
  (exists c,
      create full_input "566f0163688305b57c7cef01" [sample_cooperative]
      = (CbOk c, [sample_cooperative; c])
      /\ cp_name c = "BRF Sjostaden"
      /\ cp_meters c = None /\ cp_actions c = [])
  /\ create unnamed_input "566f0163688305b57c7cef01" [sample_cooperative]
     = (CbErrObj "ValidationError", [sample_cooperative]).
Proof.
  split.
  - destruct (create_reads_three_fields full_input "566f0163688305b57c7cef01"
                [sample_cooperative]) as (_ & _ & Hok & _).
    destruct (Hok "BRF Sjostaden" 1998 8500) as (c & Hc & _ & Hn & _ & _ & Hm & Ha);
      [reflexivity | discriminate | reflexivity | reflexivity | |].
    + repeat constructor. discriminate.
    + exists c. split; [exact Hc|]. split; [exact Hn|]. split; [exact Hm | exact Ha].
  - destruct (create_reads_three_fields unnamed_input "566f0163688305b57c7cef01"
                [sample_cooperative]) as (_ & _ & _ & Herr & _).
    apply Herr. right; left. reflexivity.
Defined.

End CooperativeFacts.

(** ** The rehearsal *)

Section Rehearsal.
Import ActionsCtrl.

Lemma collect_spec s : collect s = spec_collect s.
Proof.
  unfold collect, spec_collect.
  destruct (tr_done (sc_toRehearse s)), (tr_declined (sc_toRehearse s)),
    (tr_na (sc_toRehearse s)); simpl; rewrite ?app_nil_r, <- ?app_assoc; reflexivity.
Qed.

Lemma rehearse_nothing s :
  collect s = [] -> rehearseActions s = alertNoRehearseActions s.
Proof. unfold rehearseActions, rehearseActions_with. intros ->. reflexivity. Qed.

(** After the sorted list is stored, [showNextTip] opens its first
    action, whatever its call of [checkRehearse] would do. *)
Lemma rehearse_any_tip checkRehearse s :
  collect s <> [] ->
  exists first rest,
    orderBy_latestDate (collect s) = first :: rest
    /\ rehearseActions_with (showNextTip_then checkRehearse) s
       = {| sc_toRehearse := sc_toRehearse s; sc_actions := sc_actions s;
            sc_idx := 0; sc_lastActionUsed := false;
            sc_suggestedActions := first :: rest;
            g_actios :=
              if (preferredNumberOfActions <? length (first :: rest))%nat
              then Some (take preferredNumberOfActions (first :: rest))
              else g_actios s;
            sc_effects :=
              (sc_effects s
               ++ [ConsoleLog (first :: rest); LoadActionDetails (first :: rest);
                   StateGo (fa_id first)])%list |}.
Proof.
  intros Hne. unfold rehearseActions_with.
  destruct (collect s) as [|x l] eqn:Hc; [contradiction|].
  cbn [length Nat.eqb].
  destruct (orderBy_latestDate (x :: l)) as [|first rest] eqn:Hs.
  { apply (f_equal length) in Hs. unfold orderBy_latestDate in Hs.
    rewrite length_sort_by in Hs. discriminate. }
  exists first, rest. split; [reflexivity|].
  unfold showNextTip_then, emit, js_index; simpl.
  rewrite <- !app_assoc. reflexivity.
Qed.

Lemma rehearse_something s :
  collect s <> [] ->
  exists first rest,
    orderBy_latestDate (collect s) = first :: rest
    /\ rehearseActions s
       = {| sc_toRehearse := sc_toRehearse s; sc_actions := sc_actions s;
            sc_idx := 0; sc_lastActionUsed := false;
            sc_suggestedActions := first :: rest;
            g_actios :=
              if (preferredNumberOfActions <? length (first :: rest))%nat
              then Some (take preferredNumberOfActions (first :: rest))
              else g_actios s;
            sc_effects :=
              (sc_effects s
               ++ [ConsoleLog (first :: rest); LoadActionDetails (first :: rest);
                   StateGo (fa_id first)])%list |}.
Proof. apply rehearse_any_tip. Qed.

(** The equation of the source: [rehearseActions] ends with a call of
    [showNextTip]. *)
Lemma rehearseActions_eq isToRehearse isNotToRehearse s :
  rehearseActions s
  = rehearseActions_with (showNextTip isToRehearse isNotToRehearse) s.
Proof.
  destruct (collect s) as [|x l] eqn:Hc.
  - unfold rehearseActions, rehearseActions_with. rewrite Hc. reflexivity.
  - assert (Hne : collect s <> []) by (rewrite Hc; discriminate).
    destruct (rehearse_something s Hne) as (first & rest & Hs & ->).
    destruct (rehearse_any_tip (checkRehearse isToRehearse isNotToRehearse) s Hne)
      as (first' & rest' & Hs' & H').
    rewrite Hs in Hs'. injection Hs' as <- <-.
    symmetry. exact H'.
Qed.

(** C10: [rehearseActions] stores as [suggestedActions] all the actions
    of the enabled lists, sorted ascending by [latestDate], as many as
    they are: the slice to [preferredNumberOfActions] goes to the global
    [actios]. When the enabled lists are empty the alert is shown and
    [suggestedActions] stays as it was. *)
Theorem rehearseActions_suggests_all (s : scope) :
  collect s = spec_collect s
  /\ (spec_collect s = [] ->
      sc_suggestedActions (rehearseActions s) = sc_suggestedActions s
      /\ sc_effects (rehearseActions s) = (sc_effects s ++ [AlertNoRehearseActions])%list)
  /\ (spec_collect s <> [] ->
      sc_suggestedActions (rehearseActions s) = orderBy_latestDate (spec_collect s)
      /\ sc_suggestedActions (rehearseActions s) ≡ₚ spec_collect s
      /\ StronglySorted (ascending fa_latestDate) (sc_suggestedActions (rehearseActions s))
      /\ length (sc_suggestedActions (rehearseActions s)) = length (spec_collect s)
      /\ g_actios (rehearseActions s)
         = (if (preferredNumberOfActions <? length (spec_collect s))%nat
            then Some (take preferredNumberOfActions (orderBy_latestDate (spec_collect s)))
            else g_actios s)
      /\ (exists first,
            head (orderBy_latestDate (spec_collect s)) = Some first
            /\ sc_effects (rehearseActions s)
               = (sc_effects s
                  ++ [ConsoleLog (orderBy_latestDate (spec_collect s));
                      LoadActionDetails (orderBy_latestDate (spec_collect s));
                      StateGo (fa_id first)])%list)).
Proof.
  split; [apply collect_spec|]. rewrite <- collect_spec. split.
  - intros Hnil. rewrite (rehearse_nothing s Hnil). split; reflexivity.
  - intros Hne. destruct (rehearse_something s Hne) as (first & rest & Hs & ->).
    cbn [sc_suggestedActions g_actios sc_effects]. rewrite <- Hs.
    split; [reflexivity|].
    split; [apply sort_by_perm|].
    split; [apply sort_by_sorted|].
    split; [apply length_sort_by|].
    split.
    + unfold orderBy_latestDate. rewrite length_sort_by. reflexivity.
    + exists first. rewrite Hs. split; reflexivity.
Qed.

(** Four actions are enabled and all four are suggested, oldest first;
    the first three sit in [actios]. *)
Lemma rehearseActions_suggests_all_witness :
  spec_collect sample_scope <> []
  /\ map fa_latestDate (sc_suggestedActions (rehearseActions sample_scope)) = [10; 20; 30; 40]
  /\ length (sc_suggestedActions (rehearseActions sample_scope)) = 4%nat
  /\ (option_map (map fa_latestDate) (g_actios (rehearseActions sample_scope))
      = Some [10; 20; 30])
  /\ spec_collect quiet_scope = []
  /\ sc_suggestedActions (rehearseActions quiet_scope) = sc_suggestedActions quiet_scope
  /\ sc_effects (rehearseActions quiet_scope) = [AlertNoRehearseActions].
Proof.
  assert (Hne : spec_collect sample_scope <> []) by discriminate.
  assert (Hnil : spec_collect quiet_scope = []) by reflexivity.
  destruct (rehearseActions_suggests_all sample_scope) as (_ & _ & Hsome).
  destruct (Hsome Hne) as (Hsorted & _ & _ & Hlen & Hactios & _).
  destruct (rehearseActions_suggests_all quiet_scope) as (_ & Hnone & _).
  destruct (Hnone Hnil) as (Hkeep & Halert).
  split; [exact Hne|].
  split; [rewrite Hsorted; reflexivity|].
  split; [rewrite Hlen; reflexivity|].
  split; [rewrite Hactios; reflexivity|].
  split; [exact Hnil|].
  split; [exact Hkeep | exact Halert].
Defined.

End Rehearsal.

(** ** What [rate] stores *)

Section StoredRatings.
Import Actions.

Lemma jsobject_values_set_Forall {V} (P : V -> Prop) k v (o : JsObject.t V) :
  P v -> Forall P (JsObject.values o) -> Forall P (JsObject.values (JsObject.set k v o)).
Proof.
  intros Hv. induction o as [|[k' v'] o IH]; simpl; intros Ho.
  - constructor; [exact Hv | constructor].
  - inversion Ho as [|? ? Hv' Ho']; subst.
    destruct (String.eqb k k'); simpl; constructor; auto.
Qed.

Lemma jsobject_get_Forall {V} (P : V -> Prop) k v (o : JsObject.t V) :
  Forall P (JsObject.values o) -> JsObject.get k o = Some v -> P v.
Proof.
  intros Ho Hget. apply jsobject_get_Some_elem in Hget.
  rewrite Forall_forall in Ho. apply Ho.
  apply list_elem_of_fmap. exists (k, v). auto.
Qed.

(** The entry that a successful [rate] writes has an effort in 1..5 or
    none, and a rating of 0 or 1 or none, when the caller's previous
    entry had. *)
Lemma new_entry_well_formed old rating effort name now :
  rate_check old rating effort = None ->
  (forall r, old = Some r -> submitted r /\ rating_value r) ->
  submitted (new_entry old rating effort name now)
  /\ rating_value (new_entry old rating effort name now).
Proof.
  intros Hcheck Hold. unfold submitted, rating_value, new_entry; simpl.
  assert (Hr : forall r, rating = Some r -> r = 0 \/ r = 1).
  { intros r ->. unfold rate_check in Hcheck. simpl in Hcheck.
    destruct (Z.eqb_spec r 1); [auto|]. destruct (Z.eqb_spec r 0); [auto|].
    destruct old; discriminate. }
  assert (He : forall e, effort = Some e -> 1 <= e <= 5).
  { intros e ->. unfold rate_check in Hcheck. simpl in Hcheck.
    destruct (Z.ltb_spec e 1), (Z.gtb_spec e 5); try lia;
      destruct old, (isNumber rating && _); discriminate. }
  split.
  - destruct effort as [e|]; simpl; [apply He; reflexivity|].
    destruct old as [r|]; simpl; [|exact I].
    destruct (Hold r eq_refl) as [Hs _]. exact Hs.
  - destruct rating as [r|]; simpl.
    + destruct (Hr r eq_refl) as [-> | ->]; auto.
    + destruct old as [r|]; simpl; [|auto].
      destruct (Hold r eq_refl) as [_ Hv]. exact Hv.
Qed.

Lemma rate_keeps_well_formed id user rating effort now actions action' actions' a :
  Actions.rate id user rating effort now actions = (CbOk action', actions') ->
  find (by_id id) actions = Some a ->
  Forall submitted (JsObject.values (a_ratings a)) ->
  Forall rating_value (JsObject.values (a_ratings a)) ->
  Forall submitted (JsObject.values (a_ratings action'))
  /\ Forall rating_value (JsObject.values (a_ratings action')).
Proof.
  intros H Hf Hs Hv. unfold Actions.rate in H. fold (by_id id) in H.
  destruct user as [u|]; [|discriminate].
  destruct (u_id u) as [uid|]; [|discriminate].
  destruct (u_profile u ≫= p_name) as [name|]; [|discriminate].
  destruct (negb (str_truthy name)); [discriminate|].
  rewrite Hf in H.
  destruct (rate_check _ rating effort) eqn:Hcheck; [discriminate|].
  injection H as <- _. simpl.
  destruct (new_entry_well_formed _ _ _ name now Hcheck) as [Hs' Hv'].
  { intros r Hr. split; eapply jsobject_get_Forall; eauto. }
  split; apply jsobject_values_set_Forall; assumption.
Qed.

(** The effort that [get] returns is the one [includeMeanEffort] derives
    from the stored action. *)
Lemma get_effort id u actions comments users v :
  Actions.get id u actions comments users = CbOk v ->
  exists a, find (by_id id) actions = Some a
            /\ o_effort v = o_effort (includeMeanEffort (toObject a)).
Proof.
  unfold Actions.get. fold (by_id id).
  destruct (find (by_id id) actions) as [a|]; [|discriminate].
  rewrite comments_get_eq. intros [= <-]. exists a. split; [reflexivity|].
  cbn [with_counts o_effort].
  destruct (JsObject.minimized (a_ratings a)) as [ratings|]; [|reflexivity].
  destruct (JsObject.get _ ratings); reflexivity.
Qed.

(** Seven candidates: the shuffle runs and five of them are returned. *)
Example seven_candidates :
  let names := ["a1"; "a2"; "a3"; "a4"; "a5"; "a6"; "a7"] in
  let actions := map (fun n => sample_action n n []) names in
  exists l, getSuggested jane (fun k => k) actions = CbOk l
            /\ map sg_id l = ["a7"; "a5"; "a6"; "a4"; "a3"].
Proof. eexists. split; vm_compute; reflexivity. Qed.

End StoredRatings.

(** * Further properties of the code *)

(** ** Pages of sorted results *)

Section PageFacts.
Context {A : Type}.
Implicit Types (key : A -> Z) (l : list A).

Lemma insert_by_sorted_desc key x l :
  StronglySorted (descending key) l ->
  StronglySorted (descending key) (insert_by key true x l).
Proof.
  induction l as [|y l IH]; intros Hs; simpl.
  - repeat constructor.
  - inversion Hs as [|? ? Hl Hy]; subst.
    destruct (Z.ltb_spec (key x) (key y)) as [Hlt|Hge].
    + constructor; [apply IH; exact Hl|].
      apply Forall_forall. intros z Hz.
      rewrite (insert_by_perm key true x l) in Hz.
      apply elem_of_cons in Hz as [->|Hz].
      * unfold descending; lia.
      * rewrite Forall_forall in Hy. apply Hy; exact Hz.
    + constructor; [exact Hs|].
      constructor; [exact Hge|].
      rewrite Forall_forall in Hy |- *. intros z Hz.
      specialize (Hy z Hz). unfold descending in *; lia.
Qed.

Lemma sort_by_sorted_desc key l : StronglySorted (descending key) (sort_by key true l).
Proof.
  induction l as [|x l IH]; simpl; [constructor|].
  apply insert_by_sorted_desc; exact IH.
Qed.

Lemma StronglySorted_take (R : relation A) n l :
  StronglySorted R l -> StronglySorted R (take n l).
Proof.
  intros H. rewrite <- (take_drop n l) in H.
  eapply StronglySorted_app_1_l; exact H.
Qed.

Lemma StronglySorted_drop (R : relation A) n l :
  StronglySorted R l -> StronglySorted R (drop n l).
Proof.
  intros H. rewrite <- (take_drop n l) in H.
  eapply StronglySorted_app_1_r; exact H.
Qed.

Lemma StronglySorted_page (R : relation A) limit skip l :
  StronglySorted R l -> StronglySorted R (q_limit limit (q_skip skip l)).
Proof.
  intros H. destruct limit as [[|n]|], skip; cbn [q_limit q_skip];
    auto using StronglySorted_take, StronglySorted_drop.
Qed.

Lemma StronglySorted_map {B} (R : relation A) (R' : relation B) (f : A -> B) l :
  (forall x y, R x y -> R' (f x) (f y)) ->
  StronglySorted R l -> StronglySorted R' (map f l).
Proof.
  intros Hf H. induction H as [|x l Hl IH Hx]; simpl; constructor; [exact IH|].
  apply Forall_forall. intros y Hy. apply list_elem_of_fmap in Hy as (z & -> & Hz).
  rewrite Forall_forall in Hx. auto.
Qed.

Lemma q_limit_positive n l : (0 < n)%nat -> q_limit (Some n) l = take n l.
Proof. destruct n; [lia | reflexivity]. Qed.

Lemma q_limit_length n l : (0 < n)%nat -> (length (q_limit (Some n) l) <= n)%nat.
Proof. intros Hn. rewrite (q_limit_positive n l Hn), length_take. lia. Qed.

(** A limit of 0 and a skip of 0 ask for everything. *)
Lemma q_page_all limit skip l :
  limit = None \/ limit = Some 0%nat -> skip = None \/ skip = Some 0%nat ->
  q_limit limit (q_skip skip l) = l.
Proof. intros [-> | ->] [-> | ->]; reflexivity. Qed.

(** Two consecutive pages make up the page of their joint size. *)
Lemma pages_append n m k l :
  (0 < n)%nat -> (0 < m)%nat ->
  (q_limit (Some n) (q_skip (Some k) l)
   ++ q_limit (Some m) (q_skip (Some (k + n)%nat) l))%list
  = q_limit (Some (n + m)%nat) (q_skip (Some k) l).
Proof.
  intros Hn Hm. rewrite !q_limit_positive by lia. cbn [q_skip].
  rewrite <- drop_drop. apply take_take_drop.
Qed.

End PageFacts.

(** ** Reading the comments of an action *)

Section CommentReads.
Import ActionComments.

Lemma calcRating_keeps c user :
  co_id (calcRating (toObject c) user) = c_id c
  /\ co_actionId (calcRating (toObject c) user) = c_actionId c
  /\ co_date (calcRating (toObject c) user) = c_date c
  /\ co_hasPicture (calcRating (toObject c) user) = c_hasPicture c
  /\ co_comment (calcRating (toObject c) user) = c_comment c
  /\ co_ratings (calcRating (toObject c) user) = None.
Proof. repeat split; reflexivity. Qed.




(** X2: the pages of [get] follow one another when their sizes are not
    0: the page of [n] comments after [k] skipped ones, followed by the
    page of [m] comments after [k + n], is the page of [n + m] comments
    after [k]. No comment is lost or repeated between the two requests. *)
Theorem comments_pages_follow actionId n m k user coll :
  (0 < n)%nat -> (0 < m)%nat ->
  (ok_list (ActionComments.get actionId (Some n) (Some k) user coll)
   ++ ok_list (ActionComments.get actionId (Some m) (Some (k + n)%nat) user coll))%list
  = ok_list (ActionComments.get actionId (Some (n + m)%nat) (Some k) user coll).
Proof.
  intros Hn Hm. rewrite !comments_get_eq. cbn [ok_list]. unfold find_sorted.
  rewrite <- map_app, pages_append by assumption. reflexivity.
Qed.

(** Three comments of one action, read in a page of one and a page of
    two. *)
Lemma comments_pages_follow_witness :
  let coll := [dated_comment "555f0163688305b57c7cef61" 10;
               dated_comment "555f0163688305b57c7cef62" 30;
               dated_comment "555f0163688305b57c7cef63" 20] in
  (ok_list (ActionComments.get "5594dbeadfbb985d0ac150c4" (Some 1%nat) (Some 0%nat)
              (Some jane) coll)
   ++ ok_list (ActionComments.get "5594dbeadfbb985d0ac150c4" (Some 2%nat) (Some 1%nat)
                 (Some jane) coll))%list
  = ok_list (ActionComments.get "5594dbeadfbb985d0ac150c4" (Some 3%nat) (Some 0%nat)
               (Some jane) coll).
Proof.
  cbv zeta.
  apply (comments_pages_follow "5594dbeadfbb985d0ac150c4" 1 2 0 (Some jane)); lia.
Defined.

End CommentReads.

(** ** Reading after rating *)

Section RateThenRead.
Import ActionComments.

Lemma others_absent {V} uid (o : JsObject.t V) :
  uid ∉ JsObject.keys o -> others uid o = o.
Proof.
  induction o as [|[k v] o IH]; simpl; [reflexivity|].
  intros H. apply not_elem_of_cons in H as [Hne H].
  rewrite (eqb_neq_false k uid) by congruence. simpl. f_equal. apply IH; exact H.
Qed.

(** The positive entries after a write: those of the other users and the
    written one. *)
Lemma count_positive_set {V} (val : V -> option Z) uid v (o : JsObject.t V) :
  JsObject.wf o ->
  count_positive val (JsObject.set uid v o)
  = count_positive val (others uid o) + (if positive (val v) then 1 else 0).
Proof.
  unfold JsObject.wf, count_positive.
  induction o as [|[k w] o IH]; intros Hwf; simpl.
  - destruct (positive (val v)); reflexivity.
  - apply NoDup_cons in Hwf as [Hk Hwf].
    destruct (String.eqb uid k) eqn:E.
    + apply String.eqb_eq in E; subst k. rewrite eqb_refl_true. simpl.
      rewrite (others_absent uid o Hk).
      destruct (positive (val v)); simpl length; lia.
    + assert (E' : String.eqb k uid = false).
      { apply String.eqb_neq in E. apply eqb_neq_false. congruence. }
      rewrite E'. simpl. specialize (IH Hwf).
      destruct (positive (val w)); simpl length; lia.
Qed.

Lemma matches_spec actionId commentId c :
  matches actionId commentId c = true <-> c_actionId c = actionId /\ c_id c = commentId.
Proof. unfold matches. rewrite andb_true_iff, !String.eqb_eq. reflexivity. Qed.

(** X3: the comment that a successful like returns shows the like as the
    caller's [userRating], and so does the comment in the list that the
    caller reads next. *)
Theorem rate_then_get actionId commentId u uid r now coll co coll' :
  ActionComments.rate actionId commentId (Some u) (Some r) now coll = (CbOk co, coll') ->
  u_id u = Some uid -> str_truthy uid = true ->
  co_id co = commentId /\ co_userRating co = Some r /\ co_ratings co = None
  /\ (exists co',
        co' ∈ ok_list (ActionComments.get actionId None None (Some u) coll')
        /\ co_id co' = commentId /\ co_userRating co' = Some r).
Proof.
  intros H Hu Ht.
  destruct (comments_rate_ok _ _ _ _ _ _ _ _ H)
    as (u' & uid' & r' & c & [= <-] & Hu' & [= <-] & _ & Hf & Hco & Hcoll).
  rewrite Hu in Hu'. injection Hu' as <-.
  set (stored := set_ratings _ c) in *.
  pose proof (find_Some_true _ _ _ Hf) as Hm. apply matches_spec in Hm as [Hact Hid].
  assert (Hrating : co_userRating (calcRating (toObject stored) (IdStr uid)) = Some r).
  { unfold calcRating; simpl. rewrite Ht, jsobject_get_set_eq. reflexivity. }
  split; [rewrite Hco; exact Hid|]. split; [rewrite Hco; exact Hrating|].
  split; [rewrite Hco; reflexivity|].
  exists (calcRating (toObject stored) (IdStr uid)).
  split; [|split; [exact Hid | exact Hrating]].
  rewrite comments_get_eq. cbn [ok_list]. unfold requester, id_of. rewrite Hu.
  apply list_elem_of_fmap. exists stored. split; [reflexivity|].
  unfold find_sorted; simpl. apply elem_of_sort_by, list_elem_of_filter.
  split; [apply String.eqb_eq; exact Hact|].
  assert (Hfs : find (matches actionId commentId) coll' = Some stored).
  { rewrite Hcoll. apply (find_update_first _ _ _ c Hf).
    apply matches_spec. split; assumption. }
  apply find_elem_of in Hfs. tauto.
Qed.

Lemma rate_then_get_witness :
  (exists co coll',
      ActionComments.rate "5594dbeadfbb985d0ac150c4" "555f0163688305b57c7cef6d"
        (Some jack) (Some 0) 12 [liked_comment] = (CbOk co, coll')
      /\ co_userRating co = Some 0
      /\ co_numLikes co = Some 1).
Proof.
  eexists _, _. split; [reflexivity|].
  split; [|reflexivity].
  exact (proj1 (proj2 (rate_then_get "5594dbeadfbb985d0ac150c4" "555f0163688305b57c7cef6d"
                         jack "5593ccfa9255daa130890165" 0 12 [liked_comment] _ _
                         eq_refl eq_refl eq_refl))).
Defined.

(** X4: after a like, [numLikes] is the number of positive likes of the
    other users plus the value just given: liking again, or taking a like
    back, never counts a user twice. *)
Theorem rate_counts_each_user_once actionId commentId u uid r now coll co coll' c :
  ActionComments.rate actionId commentId (Some u) (Some r) now coll = (CbOk co, coll') ->
  find (matches actionId commentId) coll = Some c ->
  u_id u = Some uid ->
  Forall like_value (JsObject.values (c_ratings c)) ->
  JsObject.wf (c_ratings c) ->
  co_numLikes co = Some (count_positive cr_value (others uid (c_ratings c)) + r).
Proof.
  intros H Hf Hu Hv Hwf.
  destruct (comments_rate_ok _ _ _ _ _ _ _ _ H)
    as (u' & uid' & r' & c' & [= <-] & Hu' & [= <-] & Hr & Hf' & Hco & _).
  rewrite Hu in Hu'. injection Hu' as <-.
  rewrite Hf in Hf'. injection Hf' as <-.
  set (stored := set_ratings _ c) in *.
  assert (Hstored : Forall like_value (JsObject.values (c_ratings stored))).
  { simpl. apply jsobject_values_set_Forall; [|exact Hv].
    unfold like_value; simpl. destruct Hr as [-> | ->]; auto. }
  destruct (calcRating_reduced stored (IdStr uid) Hstored) as (_ & Hlikes & _).
  rewrite Hco, Hlikes. f_equal. simpl.
  rewrite (count_positive_set cr_value uid _ (c_ratings c) Hwf). simpl.
  destruct Hr as [-> | ->]; reflexivity.
Qed.

Lemma rate_counts_each_user_once_witness :
  exists co coll',
    ActionComments.rate "5594dbeadfbb985d0ac150c4" "555f0163688305b57c7cef6d"
      (Some jane) (Some 1) 12 [liked_comment] = (CbOk co, coll')
    /\ co_numLikes co = Some (1 + 1).
Proof.
  eexists _, _. split; [reflexivity|].
  apply (rate_counts_each_user_once "5594dbeadfbb985d0ac150c4" "555f0163688305b57c7cef6d"
           jane "5593ccfa9255daa130890164" 1 12 [liked_comment] _ _ liked_comment
           eq_refl eq_refl eq_refl).
  - simpl. repeat (constructor; [right; reflexivity|]). constructor.
  - unfold JsObject.wf; simpl. apply NoDup_cons; split.
    + rewrite not_elem_of_cons. split; [discriminate | apply not_elem_of_nil].
    + apply NoDup_singleton.
Defined.

End RateThenRead.

(** ** Removing documents *)

Section RemoveFacts.
Context {A : Type}.
Implicit Types (p : A -> bool) (l : list A).

Lemma removed_and_kept p l :
  (length (filter (fun x => p x = true) l) + length (filter (fun x => p x = false) l))%nat
  = length l.
Proof.
  induction l as [|x l IH]; simpl; [reflexivity|].
  rewrite !filter_cons. destruct (p x) eqn:E.
  - destruct (decide (true = true)) as [_|H]; [|contradiction].
    destruct (decide (true = false)) as [H|_]; [discriminate|]. simpl. lia.
  - destruct (decide (false = true)) as [H|_]; [discriminate|].
    destruct (decide (false = false)) as [_|H]; [|contradiction]. simpl. lia.
Qed.

Lemma nothing_left p l :
  filter (fun x => p x = true) (filter (fun x => p x = false) l) = [].
Proof.
  induction l as [|x l IH]; simpl; [reflexivity|].
  rewrite filter_cons. destruct (decide (p x = false)) as [E|E]; [|exact IH].
  rewrite filter_cons. destruct (decide (p x = true)) as [E'|_]; [congruence | exact IH].
Qed.

Lemma kept_again p l :
  filter (fun x => p x = false) (filter (fun x => p x = false) l)
  = filter (fun x => p x = false) l.
Proof.
  induction l as [|x l IH]; simpl; [reflexivity|].
  rewrite filter_cons. destruct (decide (p x = false)) as [E|E]; [|exact IH].
  rewrite filter_cons. destruct (decide (p x = false)) as [_|E']; [|contradiction].
  f_equal; exact IH.
Qed.

Lemma kept_all p l :
  Forall (fun x => p x = false) l -> filter (fun x => p x = false) l = l.
Proof.
  induction 1 as [|x l Hx _ IH]; simpl; [reflexivity|].
  rewrite filter_cons. destruct (decide (p x = false)) as [_|E]; [|contradiction].
  f_equal; exact IH.
Qed.

Lemma kept_app p l x :
  p x = true -> Forall (fun y => p y = false) l ->
  filter (fun y => p y = false) (l ++ [x])%list = l.
Proof.
  intros Hx Hl. rewrite filter_app, (kept_all p l Hl), filter_cons.
  destruct (decide (p x = false)) as [E|_]; [congruence|]. apply app_nil_r.
Qed.

End RemoveFacts.

Section CommentWrites.
Import ActionComments.

(** X5: a comment that [create] accepts is stored at the end of the
    collection, behind the comments that were there, with the given
    action, the given text and the date of the call; it is handed back
    without picture and without its rating map; the list that [get] then
    returns for its action has this comment and the comments it had
    before, and what [get] returns for any other action is as before. *)
Theorem comment_create_then_get input newId now coll co coll' :
  ActionComments.create input newId now coll = (CbOk co, coll') ->
  exists actionId c,
    ai_actionId input = Some actionId
    /\ coll' = (coll ++ [c])%list
    /\ c_id c = newId /\ c_actionId c = actionId /\ c_date c = now
    /\ c_hasPicture c = false /\ ai_comment input = Some (c_comment c)
    /\ co_id co = newId /\ co_actionId co = actionId /\ co_comment co = c_comment c
    /\ co_hasPicture co = false /\ co_ratings co = None
    /\ (forall user,
          map co_id (ok_list (ActionComments.get actionId None None user coll'))
          ≡ₚ newId :: map co_id (ok_list (ActionComments.get actionId None None user coll)))
    /\ (forall user, exists co',
          co' ∈ ok_list (ActionComments.get actionId None None user coll')
          /\ co_id co' = newId /\ co_comment co' = co_comment co)
    /\ (forall a limit skip user,
          a <> actionId ->
          ActionComments.get a limit skip user coll'
          = ActionComments.get a limit skip user coll).
Proof.
  unfold ActionComments.create, required.
  destruct (ai_actionId input) as [actionId|]; [|discriminate].
  destruct (str_truthy actionId); [|discriminate].
  destruct (ai_userId input) as [userId|]; [|discriminate].
  destruct (str_truthy userId); [|discriminate].
  destruct (ai_name input) as [name|]; [|discriminate].
  destruct (str_truthy name); [|discriminate].
  destruct (ai_email input) as [email|]; [|discriminate].
  destruct (str_truthy email); [|discriminate].
  destruct (ai_comment input) as [comment|]; [|discriminate].
  destruct (str_truthy comment); [|discriminate].
  intros [= <- <-]. exists actionId. eexists.
  split; [reflexivity|]. split; [reflexivity|].
  do 10 (split; [reflexivity|]).
  split; [|split].
  - intros user. rewrite !comments_get_eq. cbn [ok_list]. rewrite !map_map.
    unfold find_sorted. cbn [q_limit q_skip].
    rewrite !sort_by_perm, filter_app, filter_cons. cbn [c_actionId].
    destruct (decide (String.eqb actionId actionId = true)) as [_|E];
      [|exfalso; apply E, eqb_refl_true].
    rewrite filter_nil, map_app. cbn [map toObject calcRating co_id c_id].
    rewrite Permutation_app_comm. reflexivity.
  - intros user. rewrite comments_get_eq. cbn [ok_list].
    match goal with
    | |- context [(coll ++ [?doc])%list] =>
        exists (calcRating (toObject doc) (requester user))
    end.
    split; [|split; reflexivity].
    apply list_elem_of_fmap. eexists. split; [reflexivity|].
    unfold find_sorted; simpl. apply elem_of_sort_by, list_elem_of_filter.
    split; [|apply elem_of_app; right; left]. apply eqb_refl_true.
  - intros a limit skip user Hne. rewrite !comments_get_eq. unfold find_sorted.
    rewrite filter_app, filter_cons. simpl c_actionId.
    destruct (decide (String.eqb actionId a = true)) as [E|_].
    + apply String.eqb_eq in E. congruence.
    + rewrite app_nil_r. reflexivity.
Qed.

(** Jack comments on an action that has one comment. *)
Lemma comment_create_then_get_witness :
  exists co coll' c,
    ActionComments.create easy_comment "555f0163688305b57c7cef70" 20 [liked_comment]
    = (CbOk co, coll')
    /\ coll' = [liked_comment; c]
    /\ c_comment c = "Easy to do." /\ co_id co = "555f0163688305b57c7cef70".
Proof.
  destruct (comment_create_then_get easy_comment "555f0163688305b57c7cef70" 20
              [liked_comment] _ _ eq_refl)
    as (actionId & c & _ & Hcoll & _ & _ & _ & _ & Htext & Hid & _).
  eexists _, _, c. split; [reflexivity|].
  split; [exact Hcoll|]. split; [|exact Hid].
  injection Htext as <-. reflexivity.
Defined.

(** X6: [delete] removes the comments with the given id under the given
    action and no other: the number it reports and the comments that stay
    add up to the collection, a comment stays exactly when it does not
    match, [get] no longer returns the id, and a second [delete] removes
    nothing. *)
Theorem comment_delete_removes actionId id coll :
  (exists n, (ActionComments.delete actionId id coll).1 = CbOk n
             /\ (n + length (ActionComments.delete actionId id coll).2)%nat = length coll)
  /\ (forall c, c ∈ (ActionComments.delete actionId id coll).2
                <-> c ∈ coll /\ ~ (c_actionId c = actionId /\ c_id c = id))
  /\ (forall user limit skip,
        Forall (fun co => co_id co <> id)
          (ok_list (ActionComments.get actionId limit skip user
                      (ActionComments.delete actionId id coll).2)))
  /\ ActionComments.delete actionId id (ActionComments.delete actionId id coll).2
     = (CbOk 0%nat, (ActionComments.delete actionId id coll).2).
Proof.
  unfold ActionComments.delete; cbn [fst snd].
  assert (Hkept : forall c,
            c ∈ filter (fun c => matches actionId id c = false) coll
            <-> c ∈ coll /\ ~ (c_actionId c = actionId /\ c_id c = id)).
  { intros c. rewrite list_elem_of_filter, <- matches_spec, not_true_iff_false. tauto. }
  split; [|split; [|split]].
  - eexists. split; [reflexivity|]. apply removed_and_kept.
  - exact Hkept.
  - intros user limit skip. rewrite comments_get_eq. cbn [ok_list].
    apply Forall_forall. intros co Hco.
    apply list_elem_of_fmap in Hco as (c & -> & Hc).
    apply elem_of_find_sorted in Hc as [Hc Hq]. apply String.eqb_eq in Hq.
    apply Hkept in Hc as [_ Hc]. simpl. intros Hid. apply Hc. split; assumption.
  - rewrite nothing_left, kept_again. reflexivity.
Qed.

End CommentWrites.

(** ** Rewriting one document of a collection *)

Section RewriteFacts.
Context {A : Type}.
Implicit Types (p : A -> bool) (g : A -> A) (l : list A).

(** With one document per id, rewriting the first match is rewriting
    every match. *)
Lemma update_first_map (id : A -> string) k g l x :
  NoDup (map id l) ->
  find (fun y => String.eqb (id y) k) l = Some x ->
  update_first (fun y => String.eqb (id y) k) (fun _ => g x) l
  = map (fun y => if String.eqb (id y) k then g y else y) l.
Proof.
  induction l as [|z l IH]; simpl; [discriminate|].
  intros Hnd Hf. apply NoDup_cons in Hnd as [Hz Hnd].
  destruct (String.eqb (id z) k) eqn:E.
  - injection Hf as ->. f_equal. apply String.eqb_eq in E.
    symmetry. erewrite map_ext_in; [apply map_id|].
    intros y Hy. simpl. destruct (String.eqb (id y) k) eqn:E'; [|reflexivity].
    apply String.eqb_eq in E'. exfalso. apply Hz. rewrite E, <- E'.
    apply list_elem_of_fmap. exists y. split; [reflexivity | apply list_elem_of_In; exact Hy].
  - f_equal. apply IH; assumption.
Qed.

Lemma filter_map_keeps (q : A -> bool) g l :
  (forall x, q (g x) = q x) ->
  filter (fun x => q x = true) (map g l) = map g (filter (fun x => q x = true) l).
Proof.
  intros Hq. induction l as [|x l IH]; simpl; [reflexivity|].
  rewrite !filter_cons, Hq. destruct (decide (q x = true)); simpl; rewrite IH; reflexivity.
Qed.

Lemma insert_by_map (key : A -> Z) desc g x l :
  (forall y, key (g y) = key y) ->
  insert_by key desc (g x) (map g l) = map g (insert_by key desc x l).
Proof.
  intros Hk. induction l as [|y l IH]; simpl; [reflexivity|].
  rewrite !Hk. destruct (if desc then key x <? key y else key y <? key x); simpl;
    [rewrite IH|]; reflexivity.
Qed.

Lemma sort_by_map (key : A -> Z) desc g l :
  (forall y, key (g y) = key y) ->
  sort_by key desc (map g l) = map g (sort_by key desc l).
Proof.
  intros Hk. induction l as [|x l IH]; simpl; [reflexivity|].
  unfold sort_by in *; simpl. rewrite IH. apply insert_by_map; exact Hk.
Qed.

Lemma page_map {B} (f : A -> B) limit skip l :
  q_limit limit (q_skip skip (map f l)) = map f (q_limit limit (q_skip skip l)).
Proof.
  destruct limit as [[|n]|], skip; cbn [q_limit q_skip];
    rewrite <- ?(fmap_drop f), <- ?(fmap_take f); reflexivity.
Qed.

End RewriteFacts.

Section PictureFlag.
Import ActionComments.

(** X7: [setHasPicture] on a comment that exists, in a collection with
    one comment per id, changes the picture flag of that comment and
    nothing else that a reader can see: every list that [get] returns
    afterwards is the list it returned before with the flag set on that
    comment. *)
Theorem setHasPicture_changes_flag_only commentId value coll c :
  find (fun c => String.eqb (c_id c) commentId) coll = Some c ->
  NoDup (map c_id coll) ->
  exists co coll',
    setHasPicture commentId value coll = (CbOk co, coll')
    /\ co_id co = commentId /\ co_hasPicture co = value
    /\ length coll' = length coll
    /\ (forall actionId limit skip user,
          ok_list (ActionComments.get actionId limit skip user coll')
          = map (show_picture commentId value)
              (ok_list (ActionComments.get actionId limit skip user coll))).
Proof.
  intros Hf Hnd. unfold setHasPicture. rewrite Hf.
  eexists _, _. split; [reflexivity|].
  split; [apply find_Some_true in Hf; apply String.eqb_eq in Hf; exact Hf|].
  split; [reflexivity|]. split; [apply length_update_first|].
  intros actionId limit skip user.
  rewrite (update_first_map c_id commentId (set_hasPicture value) coll c Hnd Hf).
  rewrite !comments_get_eq. cbn [ok_list]. unfold find_sorted.
  rewrite (filter_map_keeps (fun c => String.eqb (c_actionId c) actionId)).
  2:{ intros x. destruct (String.eqb (c_id x) commentId); reflexivity. }
  rewrite (sort_by_map c_date).
  2:{ intros x. destruct (String.eqb (c_id x) commentId); reflexivity. }
  rewrite page_map, !map_map. apply map_ext. intros x.
  unfold show_picture. simpl.
  destruct (String.eqb (c_id x) commentId); reflexivity.
Qed.

Lemma setHasPicture_changes_flag_only_witness :
  exists co coll',
    setHasPicture "555f0163688305b57c7cef6d" true [liked_comment] = (CbOk co, coll')
    /\ co_hasPicture co = true
    /\ map co_hasPicture
         (ok_list (ActionComments.get "5594dbeadfbb985d0ac150c4" None None None coll'))
       = [true].
Proof.
  destruct (setHasPicture_changes_flag_only "555f0163688305b57c7cef6d" true
              [liked_comment] liked_comment eq_refl)
    as (co & coll' & Hset & _ & Hflag & _ & Hget).
  { simpl. apply NoDup_singleton. }
  exists co, coll'. split; [exact Hset|]. split; [exact Hflag|].
  rewrite Hget. reflexivity.
Defined.

End PictureFlag.

(** ** Reading actions *)

Section ActionReads.
Import Actions.

Lemma lang_is_spec lang l : lang_is lang l = true <-> lang = Some l.
Proof.
  unfold lang_is. destruct lang as [l'|]; [|split; discriminate].
  rewrite String.eqb_eq. split; [intros ->; reflexivity | intros [= ->]; reflexivity].
Qed.

Lemma lang_is_false lang l : lang <> Some l -> lang_is lang l = false.
Proof. intros H. apply not_true_iff_false. rewrite lang_is_spec. exact H. Qed.

Lemma or_else_set n dflt : n <> "" -> or_else (Some n) dflt = n.
Proof. unfold or_else. destruct n; [contradiction | reflexivity]. Qed.

Lemma or_else_nonempty loc dflt : dflt <> "" -> or_else loc dflt <> "".
Proof.
  unfold or_else. intros H. destruct loc as [s|]; [|exact H].
  destruct s; simpl; [exact H | discriminate].
Qed.

(** The action that [get] returns, before the counts are attached. *)
Lemma get_view id u actions comments users v :
  Actions.get id u actions comments users = CbOk v ->
  exists a, find (by_id id) actions = Some a
    /\ o_name v = o_name (localize (language u) (toObject a))
    /\ o_description v = o_description (localize (language u) (toObject a))
    /\ o_nameIt v = None /\ o_nameSe v = None
    /\ o_descriptionIt v = None /\ o_descriptionSe v = None
    /\ o_numComments v
       = Some (length (ok_list (ActionComments.get id None None None comments)))
    /\ o_numUsers v = Some (length (filter (fun u => doing id u = true) users)).
Proof.
  unfold Actions.get. fold (by_id id).
  destruct (find (by_id id) actions) as [a|]; [|discriminate].
  rewrite comments_get_eq. cbn [ok_list]. intros [= <-]. exists a.
  split; [reflexivity|].
  cbn [with_counts o_name o_description o_nameIt o_nameSe o_descriptionIt
       o_descriptionSe o_numComments o_numUsers].
  destruct (JsObject.minimized (a_ratings a)) as [ratings|];
    [destruct (JsObject.get _ ratings)|]; repeat split; reflexivity.
Qed.

(** X8: the action that [get] returns never carries the localized
    fields; its name and description are the Italian or Swedish ones for
    a user with that language when they are set and not empty, and the
    English ones in every other case, so that a name or a description
    that is not empty in the database is never empty in the answer. *)
Theorem get_localizes id u actions comments users v a :
  Actions.get id u actions comments users = CbOk v ->
  find (by_id id) actions = Some a ->
  (o_nameIt v = None /\ o_nameSe v = None
   /\ o_descriptionIt v = None /\ o_descriptionSe v = None)
  /\ (language u = Some "Italian" ->
      (forall n, a_nameIt a = Some n -> n <> "" -> o_name v = n)
      /\ (a_nameIt a = None \/ a_nameIt a = Some "" -> o_name v = a_name a)
      /\ (forall d, a_descriptionIt a = Some d -> d <> "" -> o_description v = d)
      /\ (a_descriptionIt a = None \/ a_descriptionIt a = Some "" ->
          o_description v = a_description a))
  /\ (language u = Some "Swedish" ->
      (forall n, a_nameSe a = Some n -> n <> "" -> o_name v = n)
      /\ (a_nameSe a = None \/ a_nameSe a = Some "" -> o_name v = a_name a)
      /\ (forall d, a_descriptionSe a = Some d -> d <> "" -> o_description v = d)
      /\ (a_descriptionSe a = None \/ a_descriptionSe a = Some "" ->
          o_description v = a_description a))
  /\ (language u <> Some "Italian" -> language u <> Some "Swedish" ->
      o_name v = a_name a /\ o_description v = a_description a)
  /\ (a_name a <> "" -> o_name v <> "")
  /\ (a_description a <> "" -> o_description v <> "").
Proof.
  intros H Hf. destruct (get_view _ _ _ _ _ _ H)
    as (a' & Hf' & Hname & Hdesc & H1 & H2 & H3 & H4 & _).
  rewrite Hf in Hf'. injection Hf' as <-.
  split; [auto|]. rewrite Hname, Hdesc. unfold localize.
  cbn [o_name o_description toObject o_nameIt o_nameSe o_descriptionIt o_descriptionSe].
  split; [|split; [|split; [|split]]].
  - intros HIt. apply lang_is_spec in HIt. rewrite HIt.
    split; [|split; [|split]].
    + intros n -> Hne. apply or_else_set; exact Hne.
    + intros [-> | ->]; reflexivity.
    + intros d -> Hne. apply or_else_set; exact Hne.
    + intros [-> | ->]; reflexivity.
  - intros HSe.
    rewrite (lang_is_false _ "Italian") by (rewrite HSe; discriminate).
    apply lang_is_spec in HSe. rewrite HSe.
    split; [|split; [|split]].
    + intros n -> Hne. apply or_else_set; exact Hne.
    + intros [-> | ->]; reflexivity.
    + intros d -> Hne. apply or_else_set; exact Hne.
    + intros [-> | ->]; reflexivity.
  - intros HIt HSe.
    rewrite (lang_is_false _ "Italian"), (lang_is_false _ "Swedish") by assumption.
    split; reflexivity.
  - intros Hne.
    destruct (lang_is (language u) "Italian"); [apply or_else_nonempty; exact Hne|].
    destruct (lang_is (language u) "Swedish"); [apply or_else_nonempty; exact Hne|].
    exact Hne.
  - intros Hne.
    destruct (lang_is (language u) "Italian"); [apply or_else_nonempty; exact Hne|].
    destruct (lang_is (language u) "Swedish"); [apply or_else_nonempty; exact Hne|].
    exact Hne.
Qed.

(** Jack reads in Italian an action that has an Italian name and an
    empty Italian description. *)
Lemma get_localizes_witness :
  exists v,
    Actions.get "5594dbeadfbb985d0ac150c4" jack [standby_it] [] [] = CbOk v
    /\ o_name v = "Spegni lo standby"
    /\ o_description v = a_description standby_it
    /\ o_nameIt v = None.
Proof.
  eexists. split; [reflexivity|].
  destruct (get_localizes "5594dbeadfbb985d0ac150c4" jack [standby_it] [] [] _ standby_it
              eq_refl eq_refl) as ((Hblank & _) & HIt & _).
  destruct (HIt eq_refl) as (Hname & _ & _ & Hdesc).
  split; [|split; [|exact Hblank]].
  - apply Hname; [reflexivity | discriminate].
  - apply Hdesc. right. reflexivity.
Defined.

(** X9: the [numComments] of the action that [get] returns is the number
    of all the comments of that action, whatever their number, and its
    [numUsers] is the number of users who have the action in progress or
    done. *)
Theorem get_counts id u actions comments users v :
  Actions.get id u actions comments users = CbOk v ->
  o_numComments v = Some (length (filter (fun c => on_action id c = true) comments))
  /\ o_numUsers v
     = Some (length (filter (fun u => is_Some (ua_inProgress (u_actions u) !! id)
                                       \/ is_Some (ua_done (u_actions u) !! id)) users)).
Proof.
  intros H. destruct (get_view _ _ _ _ _ _ H) as (a & _ & _ & _ & _ & _ & _ & _ & Hc & Hu).
  split.
  - rewrite Hc, comments_get_eq. cbn [ok_list]. rewrite length_map.
    unfold ActionComments.find_sorted; simpl. rewrite length_sort_by. reflexivity.
  - rewrite Hu. f_equal. f_equal. clear.
    induction users as [|x l IH]; [reflexivity|].
    rewrite !filter_cons, IH. unfold doing.
    destruct (decide (is_Some (ua_inProgress (u_actions x) !! id)
                      \/ is_Some (ua_done (u_actions x) !! id))) as [Hd|Hd];
      destruct (decide (_ = true)) as [E|E]; try reflexivity; exfalso.
    + apply E. apply orb_true_iff.
      destruct Hd as [Hd|Hd]; [left|right]; apply bool_decide_eq_true; exact Hd.
    + apply Hd. apply orb_true_iff in E.
      destruct E as [E|E]; [left|right]; apply bool_decide_eq_true in E; exact E.
Qed.

Lemma get_counts_witness :
  exists v,
    Actions.get "5594dbeadfbb985d0ac150c6" jane [liked] [liked_comment; easy_stored]
      [jane; busy_user] = CbOk v
    /\ o_numComments v = Some 1%nat /\ o_numUsers v = Some 1%nat.
Proof.
  eexists. split; [reflexivity|].
  destruct (get_counts "5594dbeadfbb985d0ac150c6" jane [liked] [liked_comment; easy_stored]
              [jane; busy_user] _ eq_refl) as [Hc Hu].
  split; [rewrite Hc | rewrite Hu]; reflexivity.
Defined.

(** X10: [all] answers with the newest actions first and never with
    more than a limit that is not 0; without a limit or with the limit
    0, and without a skip or with the skip 0, every action of the
    collection is in the answer exactly once. *)
Theorem all_newest_first limit skip includeRatings user actions :
  exists l,
    Actions.all limit skip includeRatings user actions = CbOk l
    /\ StronglySorted (descending o_date) l
    /\ (forall n, limit = Some n -> (0 < n)%nat -> (length l <= n)%nat)
    /\ (limit = None \/ limit = Some 0%nat -> skip = None \/ skip = Some 0%nat ->
        map o_id l ≡ₚ map a_id actions).
Proof.
  unfold Actions.all. eexists. split; [reflexivity|].
  set (docs := q_limit limit (q_skip skip (sort_by a_date true actions))).
  set (view := fun action : actionObj =>
                 match user, o_ratings action with
                 | Some u, Some ratings =>
                     match JsObject.get (String_ (id_of u)) ratings with
                     | Some r => with_userRating (rt_rating r) action
                     | None => action
                     end
                 | _, _ => action
                 end).
  assert (Hview : forall o, o_date (view o) = o_date o /\ o_id (view o) = o_id o).
  { intros o. unfold view. destruct user; [|auto]. destruct (o_ratings o); [|auto].
    destruct (JsObject.get _ _); auto. }
  set (f := fun a => view (includeMeanEffort (includeRatingStats (toObject a)))).
  assert (Hl : (if negb includeRatings
                then map (with_ratings None)
                       (map view (map includeMeanEffort
                                    (map includeRatingStats (map toObject docs))))
                else map view (map includeMeanEffort
                                 (map includeRatingStats (map toObject docs))))
               = map (fun a => if negb includeRatings then with_ratings None (f a) else f a)
                   docs).
  { rewrite !map_map. destruct includeRatings; reflexivity. }
  rewrite Hl. clear Hl.
  assert (Hf : forall a,
            o_date (if negb includeRatings then with_ratings None (f a) else f a) = a_date a
            /\ o_id (if negb includeRatings then with_ratings None (f a) else f a) = a_id a).
  { intros a. unfold f.
    destruct (Hview (includeMeanEffort (includeRatingStats (toObject a)))) as [Hd Hi].
    destruct includeRatings; simpl; rewrite ?Hd, ?Hi; split; reflexivity. }
  split; [|split].
  - apply (StronglySorted_map (descending a_date)).
    + intros x y Hxy. unfold descending in *.
      rewrite (proj1 (Hf x)), (proj1 (Hf y)). exact Hxy.
    + apply StronglySorted_page, sort_by_sorted_desc.
  - intros n -> Hn. rewrite length_map. apply q_limit_length, Hn.
  - intros Hlim Hskip. rewrite map_map. unfold docs.
    rewrite (q_page_all limit skip _ Hlim Hskip).
    erewrite map_ext; [|intros a; apply (proj2 (Hf a))].
    apply Permutation_map, sort_by_perm.
Qed.

(** Two actions, read with the limit 0 and with the limit 1. *)
Lemma all_newest_first_witness :
  (exists l,
      Actions.all (Some 0%nat) None false (Some jane) [standby; liked] = CbOk l
      /\ map o_id l ≡ₚ ["5594dbeadfbb985d0ac150c4"; "5594dbeadfbb985d0ac150c6"])
  /\ (exists l,
      Actions.all (Some 1%nat) None false (Some jane) [standby; liked] = CbOk l
      /\ (length l <= 1)%nat).
Proof.
  split.
  - destruct (all_newest_first (Some 0%nat) None false (Some jane) [standby; liked])
      as (l & Hl & _ & _ & Hall).
    exists l. split; [exact Hl|].
    apply Hall; [right; reflexivity | left; reflexivity].
  - destruct (all_newest_first (Some 1%nat) None false (Some jane) [standby; liked])
      as (l & Hl & _ & Hlim & _).
    exists l. split; [exact Hl|]. apply (Hlim 1%nat); [reflexivity | lia].
Defined.

End ActionReads.

(** ** Validation of ratings *)

Section RatingValidation.
Import Actions.




(** X12: an effort that is a number below 1 or above 5 is never stored:
    whoever calls and whatever the rating, [rate] reports an error and
    leaves the actions as they are. *)
Theorem rate_rejects_effort_out_of_range id user rating e now actions :
  e < 1 \/ 5 < e ->
  exists msg, Actions.rate id user rating (Some e) now actions = (CbErr msg, actions).
Proof.
  intros He. unfold Actions.rate.
  destruct user as [u|]; [|eauto].
  destruct (u_id u) as [uid|]; [|eauto].
  destruct (u_profile u ≫= p_name) as [name|]; [|eauto].
  destruct (negb (str_truthy name)); [eauto|].
  destruct (find _ actions) as [a|]; [|eauto].
  assert (Hrange : (e <? 1) || (e >? 5) = true).
  { apply orb_true_iff. destruct He; [left; apply Z.ltb_lt | right; apply Z.gtb_lt]; lia. }
  unfold rate_check, num_test, isNumber.
  destruct (JsObject.get uid (a_ratings a)) as [old|];
    destruct rating as [r|]; cbn [andb];
    try destruct (negb (r =? 1) && negb (r =? 0)); rewrite ?Hrange; eauto.
Qed.

Lemma rate_rejects_effort_out_of_range_witness :
  exists msg,
    Actions.rate "5594dbeadfbb985d0ac150c4" (Some jane) (Some 1) (Some 6) 10 [standby]
    = (CbErr msg, [standby]).
Proof.
  apply rate_rejects_effort_out_of_range. right. lia.
Defined.

(** X13: over any run of [rate] calls on an action whose entries have
    an effort in 1..5 or none and a rating of 0 or 1 or none, the stored
    entries keep that form, and nothing of the action but its rating map
    changes. *)
Theorem rate_seq_keeps_values id calls : forall actions a raters final,
  find (by_id id) actions = Some a ->
  Forall submitted (JsObject.values (a_ratings a)) ->
  Forall rating_value (JsObject.values (a_ratings a)) ->
  rate_seq id calls actions = (raters, final) ->
  exists a', find (by_id id) final = Some a'
    /\ Forall submitted (JsObject.values (a_ratings a'))
    /\ Forall rating_value (JsObject.values (a_ratings a'))
    /\ a' = set_ratings (a_ratings a') a
    /\ length final = length actions.
Proof.
  induction calls as [|c calls IH]; intros actions a raters final Hf Hs Hv; simpl.
  - intros [= <- <-]. exists a. repeat split; auto. destruct a; reflexivity.
  - pose proof (actions_rate_err id (rc_user c) (rc_rating c) (rc_effort c) (rc_now c) actions)
      as Herr.
    destruct (Actions.rate id (rc_user c) (rc_rating c) (rc_effort c) (rc_now c) actions)
      as [r actions1] eqn:Hrate.
    destruct (rate_seq id calls actions1) as [raters' final'] eqn:Hseq.
    intros [= <- <-].
    destruct r as [msg|name|action'].
    + subst actions1. exact (IH _ _ _ _ Hf Hs Hv Hseq).
    + subst actions1. exact (IH _ _ _ _ Hf Hs Hv Hseq).
    + destruct (rate_keeps_well_formed _ _ _ _ _ _ _ _ _ Hrate Hf Hs Hv) as [Hs' Hv'].
      destruct (actions_rate_ok _ _ _ _ _ _ _ _ Hrate)
        as (u & uid & nm & a0 & _ & _ & _ & Hf0 & Haction & Hactions).
      rewrite Hf in Hf0. injection Hf0 as <-.
      assert (Hf1 : find (by_id id) actions1 = Some action').
      { rewrite Hactions. apply (find_update_first _ _ _ a Hf).
        rewrite Haction, by_id_set_ratings. exact (find_Some_true _ _ _ Hf). }
      destruct (IH _ _ _ _ Hf1 Hs' Hv' Hseq) as (a' & Hfa & Hsa & Hva & Hsame & Hlen).
      exists a'. split; [exact Hfa|]. split; [exact Hsa|]. split; [exact Hva|].
      split.
      * rewrite Hsame at 1. rewrite Haction. reflexivity.
      * rewrite Hlen, Hactions. apply length_update_first.
Qed.

Lemma rate_seq_keeps_values_witness :
  exists a',
    find (by_id "5594dbeadfbb985d0ac150c4")
      (rate_seq "5594dbeadfbb985d0ac150c4" sample_calls [standby]).2 = Some a'
    /\ Forall submitted (JsObject.values (a_ratings a'))
    /\ a_name a' = "Disable standby".
Proof.
  destruct (rate_seq_keeps_values "5594dbeadfbb985d0ac150c4" sample_calls [standby] standby
              (rate_seq "5594dbeadfbb985d0ac150c4" sample_calls [standby]).1
              (rate_seq "5594dbeadfbb985d0ac150c4" sample_calls [standby]).2
              eq_refl (Forall_nil_2 _) (Forall_nil_2 _) (surjective_pairing _))
    as (a' & Hf & Hs & _ & Hsame & _).
  exists a'. split; [exact Hf|]. split; [exact Hs|].
  rewrite Hsame. reflexivity.
Defined.

End RatingValidation.

(** ** Creating and deleting actions *)

Section ActionWrites.
Import Actions.

Lemma required_Some v s : ActionComments.required v = Some s -> v = Some s /\ s <> "".
Proof.
  unfold ActionComments.required. destruct v as [x|]; [|discriminate].
  destruct x; simpl; [discriminate|]. intros [= <-]. split; [reflexivity | discriminate].
Qed.

Lemma required_is_Some v :
  is_Some (ActionComments.required v) -> exists s, v = Some s /\ s <> "".
Proof. intros [s H]. exists s. apply required_Some; exact H. Qed.

Lemma existsb_false_Forall {A} (p : A -> bool) l :
  existsb p l = false <-> Forall (fun x => p x = false) l.
Proof.
  induction l as [|x l IH]; simpl.
  - split; [constructor | reflexivity].
  - rewrite orb_false_iff, IH, Forall_cons. reflexivity.
Qed.

Lemma enum_default values dflt v :
  dflt ∈ values -> enum_ok values v = true -> default dflt v ∈ values.
Proof.
  intros Hd. destruct v as [s|]; simpl; [|auto].
  intros H. apply existsb_exists in H as (x & Hx & E).
  apply String.eqb_eq in E; subst. apply list_elem_of_In; exact Hx.
Qed.

Lemma range_default v : range_ok v = true -> 1 <= default 3 v <= 5.
Proof.
  destruct v as [z|]; simpl; [|lia].
  intros H. apply andb_true_iff in H as [H1 H2].
  apply Z.leb_le in H1, H2. lia.
Qed.

(** A successful [create], taken apart. *)
Lemma actions_create_ok input newId now coll a coll' :
  Actions.create input newId now coll = (CbOk a, coll') ->
  validate input = true
  /\ Forall (fun b => a_name b <> a_name a) coll
  /\ a_id a = newId /\ a_date a = now
  /\ a_name a = default "" (ia_name input)
  /\ a_type a = default "onetime" (ia_type input)
  /\ a_season a = ia_season input
  /\ a_impact a = default 3 (ia_impact input)
  /\ a_effort a = default 3 (ia_effort input)
  /\ a_ratings a = default [] (ia_ratings input)
  /\ coll' = (coll ++ [a])%list.
Proof.
  unfold Actions.create. destruct (validate input); [|discriminate].
  destruct (existsb _ coll) eqn:Hex; [discriminate|].
  intros [= <- <-]. split; [reflexivity|]. split; [|repeat split; reflexivity].
  apply existsb_false_Forall in Hex. eapply Forall_impl; [exact Hex|].
  intros b Hb. apply String.eqb_neq in Hb. exact Hb.
Qed.

(** A [create] that reports an error stores nothing. *)
Lemma actions_create_err input newId now coll :
  match Actions.create input newId now coll with
  | (CbOk _, _) => True
  | (_, coll') => coll' = coll
  end.
Proof.
  unfold Actions.create. destruct (validate input); [|reflexivity].
  destruct (existsb _ coll); [reflexivity | exact I].
Qed.

Lemma validate_parts input :
  validate input = true ->
  (exists n, ia_name input = Some n /\ n <> "")
  /\ (exists d, ia_description input = Some d /\ d <> "")
  /\ (exists i, ia_authorId input = Some i /\ i <> "")
  /\ enum_ok types (ia_type input) = true
  /\ enum_ok seasons (ia_season input) = true
  /\ range_ok (ia_impact input) = true
  /\ range_ok (ia_effort input) = true.
Proof.
  unfold validate. rewrite !andb_true_iff, !bool_decide_eq_true.
  intros ((((((Hn & Hd) & Ha) & Ht) & Hs) & Hi) & He).
  auto 10 using required_is_Some.
Qed.

(** X14: an action that [create] accepts satisfies the schema: its name
    is the given one, is not empty and is the name of no other action,
    its impact and effort are between 1 and 5 (3 when not given), its
    type is one of the five types ('onetime' when not given), its season,
    when it has one, is one of the four seasons; it is stored at the end
    of the collection, and actions whose names were distinct still have
    distinct names. *)
Theorem action_create_valid input newId now coll a coll' :
  Actions.create input newId now coll = (CbOk a, coll') ->
  coll' = (coll ++ [a])%list
  /\ ia_name input = Some (a_name a) /\ a_name a <> ""
  /\ Forall (fun b => a_name b <> a_name a) coll
  /\ 1 <= a_impact a <= 5 /\ 1 <= a_effort a <= 5
  /\ (ia_impact input = None -> a_impact a = 3)
  /\ (ia_effort input = None -> a_effort a = 3)
  /\ a_type a ∈ types
  /\ (ia_type input = None -> a_type a = "onetime")
  /\ (forall s, a_season a = Some s -> s ∈ seasons)
  /\ (NoDup (map a_name coll) -> NoDup (map a_name coll')).
Proof.
  intros H. destruct (actions_create_ok _ _ _ _ _ _ H)
    as (Hval & Hfresh & _ & _ & Hname & Htype & Hseason & Himpact & Heffort & _ & Hcoll).
  destruct (validate_parts _ Hval) as ((n & Hn & Hne) & _ & _ & Ht & Hs & Hi & He).
  rewrite Hn in Hname. simpl in Hname.
  split; [exact Hcoll|]. split; [rewrite Hname; exact Hn|].
  split; [rewrite Hname; exact Hne|]. split; [exact Hfresh|].
  split; [rewrite Himpact; apply range_default; exact Hi|].
  split; [rewrite Heffort; apply range_default; exact He|].
  split; [intros E; rewrite Himpact, E; reflexivity|].
  split; [intros E; rewrite Heffort, E; reflexivity|].
  split.
  { rewrite Htype. apply enum_default; [|exact Ht]. unfold types. left. }
  split; [intros E; rewrite Htype, E; reflexivity|].
  split.
  { intros s Hsa. rewrite Hseason in Hsa. rewrite Hsa in Hs. unfold enum_ok in Hs.
    apply existsb_exists in Hs as (x & Hx & E). apply String.eqb_eq in E; subst.
    apply list_elem_of_In; exact Hx. }
  intros Hnd. rewrite Hcoll, map_app. simpl. apply NoDup_app.
  split; [exact Hnd|]. split; [|apply NoDup_singleton].
  intros x Hx Hx'. apply list_elem_of_singleton in Hx'; subst.
  apply list_elem_of_fmap in Hx as (b & Hb & Hin).
  rewrite Forall_forall in Hfresh. apply (Hfresh b Hin). congruence.
Qed.

Lemma action_create_valid_witness :
  exists a coll',
    Actions.create (Seed.with_author "5593ccfa9255daa130890160" curtains)
      (sample_gen 0) (sample_clock 0) [standby] = (CbOk a, coll')
    /\ a_effort a = 3 /\ a_type a = "onetime" /\ length coll' = 2%nat.
Proof.
  eexists _, _. split; [reflexivity|].
  destruct (action_create_valid (Seed.with_author "5593ccfa9255daa130890160" curtains)
              (sample_gen 0) (sample_clock 0) [standby] _ _ eq_refl)
    as (_ & _ & _ & _ & _ & _ & _ & Heffort & _ & Htype & _).
  split; [apply Heffort; reflexivity|]. split; [apply Htype; reflexivity | reflexivity].
Defined.

Lemma removed_none {A} (p : A -> bool) l :
  Forall (fun x => p x = false) l -> filter (fun x => p x = true) l = [].
Proof.
  induction 1 as [|x l Hx _ IH]; simpl; [reflexivity|].
  rewrite filter_cons. destruct (decide (p x = true)); [congruence | exact IH].
Qed.

(** X15: deleting an action that has just been created, under an id that
    no other action has, removes that one action and gives back the
    collection as it was before the creation. *)
Theorem create_then_delete input newId now coll a coll' :
  Actions.create input newId now coll = (CbOk a, coll') ->
  Forall (fun b => a_id b <> newId) coll ->
  Actions.delete newId coll' = (CbOk 1%nat, coll).
Proof.
  intros H Hfresh. destruct (actions_create_ok _ _ _ _ _ _ H)
    as (_ & _ & Hid & _ & _ & _ & _ & _ & _ & _ & ->).
  assert (Hnone : Forall (fun b => String.eqb (a_id b) newId = false) coll).
  { eapply Forall_impl; [exact Hfresh|]. intros b Hb. apply String.eqb_neq; exact Hb. }
  assert (Ha : String.eqb (a_id a) newId = true) by (apply String.eqb_eq; exact Hid).
  unfold Actions.delete. f_equal.
  - f_equal. rewrite filter_app, (removed_none _ _ Hnone), filter_cons.
    destruct (decide _) as [_|E]; [reflexivity | contradiction].
  - apply (kept_app (fun b => String.eqb (a_id b) newId) coll a Ha Hnone).
Qed.

Lemma create_then_delete_witness :
  exists a coll',
    Actions.create (Seed.with_author "5593ccfa9255daa130890160" showers)
      (sample_gen 0) (sample_clock 0) [standby] = (CbOk a, coll')
    /\ Actions.delete (sample_gen 0) coll' = (CbOk 1%nat, [standby]).
Proof.
  eexists _, _. split; [reflexivity|].
  apply (create_then_delete (Seed.with_author "5593ccfa9255daa130890160" showers)
           (sample_gen 0) (sample_clock 0) [standby] _ _ eq_refl).
  repeat constructor. discriminate.
Defined.

End ActionWrites.

(** ** Seeding the default actions *)

Section Seeding.
Import Actions Seed.

Lemma find_exists {A} (p : A -> bool) l x :
  x ∈ l -> p x = true -> exists y, find p l = Some y.
Proof.
  induction l as [|z l IH]; intros Hin Hp; [inversion Hin|]. simpl.
  destruct (p z) eqn:E; [eauto|].
  apply elem_of_cons in Hin as [->|Hin]; [congruence | auto].
Qed.

Lemma same_name_spec d (a : action) :
  same_key ia_name a_name d a = true <-> ia_name d = Some (a_name a).
Proof.
  unfold same_key. destruct (ia_name d) as [k|]; [|split; discriminate].
  rewrite String.eqb_eq. split; [intros ->; reflexivity | intros [= ->]; reflexivity].
Qed.

(** What [createIfNotExist] hands back on success: a stored action with
    the name of the document, found or appended. *)
Lemma createAction_ok d newId now coll x coll1 :
  createAction d newId now coll = (CbOk x, coll1) ->
  ia_name d = Some (a_name x)
  /\ ((coll1 = coll /\ x ∈ coll)
      \/ (coll1 = (coll ++ [x])%list /\ Forall (fun b => a_name b <> a_name x) coll)).
Proof.
  unfold createAction, createIfNotExist.
  destruct (find _ coll) as [result|] eqn:Hf.
  - intros [= <- <-]. apply find_elem_of in Hf as [Hin Hk].
    apply same_name_spec in Hk. split; [exact Hk|]. left. split; [reflexivity | exact Hin].
  - intros H. destruct (actions_create_ok _ _ _ _ _ _ H)
      as (Hval & Hfresh & _ & _ & Hname & _ & _ & _ & _ & _ & Hcoll).
    destruct (validate_parts _ Hval) as ((n & Hn & _) & _).
    rewrite Hn in Hname. simpl in Hname. split; [rewrite Hname; exact Hn|].
    right. split; [exact Hcoll | exact Hfresh].
Qed.

Lemma createAction_found d newId now coll a :
  a ∈ coll -> ia_name d = Some (a_name a) ->
  exists y, createAction d newId now coll = (CbOk y, coll).
Proof.
  intros Hin Hname. unfold createAction, createIfNotExist.
  destruct (find_exists (same_key ia_name a_name d) coll a Hin) as [y Hy].
  { apply same_name_spec; exact Hname. }
  rewrite Hy. eauto.
Qed.

(** The seeding on a collection that already holds an action for every
    name of the data creates nothing. *)
Lemma seedActions_settled uid data : forall gen clock k coll,
  Forall (fun d => exists a, a ∈ coll /\ ia_name d = Some (a_name a)) data ->
  seedActions uid data gen clock k coll = (CbOk tt, coll).
Proof.
  induction data as [|d data IH]; intros gen clock k coll Hall; simpl; [reflexivity|].
  apply Forall_cons in Hall as [(a & Hin & Hname) Hall].
  destruct (createAction_found (with_author uid d) (gen k) (clock k) coll a Hin Hname)
    as [y ->].
  apply IH; exact Hall.
Qed.

(** X16: when the seeding of the default actions goes through, the
    actions that were there are still there, in front of the new ones;
    every name of the data is the name of a stored action; names that were
    distinct are still distinct; and seeding the same data again, whatever
    ids and dates it would use, creates nothing. *)
Theorem seedActions_idempotent uid data : forall gen clock k coll coll',
  seedActions uid data gen clock k coll = (CbOk tt, coll') ->
  (exists created, coll' = (coll ++ created)%list)
  /\ Forall (fun d => exists a, a ∈ coll' /\ ia_name d = Some (a_name a)) data
  /\ (NoDup (map a_name coll) -> NoDup (map a_name coll'))
  /\ (forall gen' clock' k',
        seedActions uid data gen' clock' k' coll' = (CbOk tt, coll')).
Proof.
  induction data as [|d data IH]; intros gen clock k coll coll'; simpl.
  - intros [= <-]. split; [exists []; rewrite app_nil_r; reflexivity|].
    split; [constructor|]. split; [auto|]. reflexivity.
  - destruct (createAction (with_author uid d) (gen k) (clock k) coll)
      as [[msg|e|x] coll1] eqn:Hc; try discriminate.
    intros Hseed. destruct (IH _ _ _ _ _ Hseed) as ((created & Hcoll') & Hnames & Hnd & Hagain).
    destruct (createAction_ok _ _ _ _ _ _ Hc) as (Hname & Hcase).
    assert (Hx : x ∈ coll').
    { rewrite Hcoll'. apply elem_of_app; left.
      destruct Hcase as [[-> Hin]|[-> _]]; [exact Hin | apply elem_of_app; right; left]. }
    assert (Hall : Forall (fun d0 => exists a, a ∈ coll' /\ ia_name d0 = Some (a_name a))
                     (d :: data)).
    { constructor; [exists x; split; [exact Hx | exact Hname] | exact Hnames]. }
    split; [|split; [exact Hall|split]].
    + destruct Hcase as [[-> _]|[-> _]].
      * exists created; exact Hcoll'.
      * exists (x :: created). rewrite Hcoll', <- app_assoc. reflexivity.
    + intros Hnd0. apply Hnd. destruct Hcase as [[-> _]|[-> Hfresh]]; [exact Hnd0|].
      rewrite map_app. simpl. apply NoDup_app.
      split; [exact Hnd0|]. split; [|apply NoDup_singleton].
      intros n Hn Hn'. apply list_elem_of_singleton in Hn'; subst.
      apply list_elem_of_fmap in Hn as (b & Hb & Hin).
      rewrite Forall_forall in Hfresh. apply (Hfresh b Hin). congruence.
    + intros gen' clock' k'.
      apply (seedActions_settled uid (d :: data) gen' clock' k' coll' Hall).
Qed.

Lemma seedActions_idempotent_witness :
  exists coll',
    seedActions "5593ccfa9255daa130890160" [showers; curtains; showers]
      sample_gen sample_clock 0 [standby] = (CbOk tt, coll')
    /\ map a_name coll'
       = ["Disable standby"; "Take shorter showers"; "Close the curtains at night"]
    /\ seedActions "5593ccfa9255daa130890160" [showers; curtains; showers]
         sample_gen sample_clock 7 coll' = (CbOk tt, coll').
Proof.
  eexists. split; [vm_compute; reflexivity|]. split; [reflexivity|].
  apply (seedActions_idempotent "5593ccfa9255daa130890160" [showers; curtains; showers]
           sample_gen sample_clock 0 [standby]).
  vm_compute. reflexivity.
Defined.

End Seeding.

(** ** Suggestions and the shuffle *)

Section SuggestedMore.
Import Actions.

Lemma NoDup_map_filter {A B} (f : A -> B) (P : A -> Prop) `{forall x, Decision (P x)} l :
  NoDup (map f l) -> NoDup (map f (filter P l)).
Proof.
  induction l as [|x l IH]; simpl; [auto|].
  intros Hnd. apply NoDup_cons in Hnd as [Hx Hnd]. rewrite filter_cons.
  destruct (decide (P x)); [|auto]. simpl. apply NoDup_cons. split; [|auto].
  intros Hin. apply Hx. apply list_elem_of_fmap in Hin as (y & Hy & Hin).
  apply list_elem_of_filter in Hin as [_ Hin].
  apply list_elem_of_fmap. exists y. auto.
Qed.

Lemma NoDup_take {A} n (l : list A) : NoDup l -> NoDup (take n l).
Proof. intros H. eapply sublist_NoDup; [exact H | apply sublist_take]. Qed.

Lemma candidates_distinct user actions :
  NoDup (map a_id actions) -> NoDup (map a_id (candidates user actions)).
Proof.
  intros Hnd. unfold candidates.
  destruct (lang_is (language user) "Italian"); [apply NoDup_map_filter; exact Hnd|].
  destruct (lang_is (language user) "Swedish"); apply NoDup_map_filter; exact Hnd.
Qed.

Lemma suggestion_ids user l :
  map sg_id (map (rename_for user) l) = map sg_id l.
Proof.
  rewrite map_map. apply map_ext. intros s. unfold rename_for.
  destruct (lang_is (language user) "Italian"); [reflexivity|].
  destruct (lang_is (language user) "Swedish"); reflexivity.
Qed.

Lemma selection_ids user l :
  map sg_id (map (select_for user) l) = map a_id l.
Proof.
  rewrite map_map. apply map_ext. intros a. unfold select_for.
  destruct (lang_is (language user) "Italian"); [reflexivity|].
  destruct (lang_is (language user) "Swedish"); reflexivity.
Qed.

(** X17: when the actions of the database have distinct ids, no action
    is suggested twice, whatever the random source. *)
Theorem getSuggested_distinct user rnd actions l :
  NoDup (map a_id actions) ->
  getSuggested user rnd actions = CbOk l ->
  NoDup (map sg_id l).
Proof.
  intros Hnd. rewrite getSuggested_eq. intros [= <-].
  rewrite suggestion_ids.
  assert (Hsel : NoDup (map sg_id (map (select_for user) (candidates user actions)))).
  { rewrite selection_ids. apply candidates_distinct; exact Hnd. }
  unfold cap5. destruct (5 <? length _)%nat; [|exact Hsel].
  change (map sg_id) with (fmap (M := list) sg_id).
  rewrite fmap_take. apply NoDup_take.
  rewrite shuffleArray_perm. exact Hsel.
Qed.

Lemma getSuggested_distinct_witness :
  exists l,
    getSuggested jane (fun k => k)
      (map (fun n => sample_action n n []) ["a1"; "a2"; "a3"; "a4"; "a5"; "a6"; "a7"])
    = CbOk l
    /\ NoDup (map sg_id l).
Proof.
  eexists. split; [vm_compute; reflexivity|].
  apply (getSuggested_distinct jane (fun k => k)
           (map (fun n => sample_action n n []) ["a1"; "a2"; "a3"; "a4"; "a5"; "a6"; "a7"])).
  - simpl. repeat (apply NoDup_cons; split;
                   [rewrite ?not_elem_of_cons; repeat split;
                    try discriminate; apply not_elem_of_nil|]).
    apply NoDup_nil_2.
  - vm_compute. reflexivity.
Defined.

(** X18: [shuffleArray] rearranges: whatever [Math.random] returns, the
    result has the elements of the array, each as often as the array has
    it, so it has the same length; an array of at most one element comes
    back as it is. *)
Theorem shuffleArray_rearranges {A} (rnd : nat -> nat) (array : list A) :
  shuffleArray rnd array ≡ₚ array
  /\ length (shuffleArray rnd array) = length array
  /\ (forall x, x ∈ shuffleArray rnd array <-> x ∈ array)
  /\ ((length array <= 1)%nat -> shuffleArray rnd array = array).
Proof.
  assert (Hperm : shuffleArray rnd array ≡ₚ array) by apply shuffle_loop_perm.
  split; [exact Hperm|]. split; [apply Permutation_length; exact Hperm|].
  split; [intros x; rewrite Hperm; reflexivity|].
  intros Hlen. unfold shuffleArray.
  destruct array as [|x [|y array]]; simpl in *; [reflexivity | reflexivity | lia].
Qed.

End SuggestedMore.

(** ** Community comments and their routes *)

Section CommunityCommentFacts.
Import CommunityComments CommunityRoutes.
Context {store : Type}.

Lemma community_get_eq communityId limit skip coll :
  CommunityComments.get communityId limit skip coll
  = CbOk (q_limit limit
            (q_skip skip
               (sort_by cc_date true
                  (filter (fun c => String.eqb (cc_communityId c) communityId = true)
                     coll)))).
Proof.
  unfold CommunityComments.get.
  destruct (q_limit limit _); reflexivity.
Qed.

Lemma elem_of_community_page communityId limit skip coll c :
  c ∈ ok_list (CommunityComments.get communityId limit skip coll) ->
  c ∈ coll /\ cc_communityId c = communityId.
Proof.
  rewrite community_get_eq. cbn [ok_list]. intros H.
  apply elem_of_q_limit, elem_of_q_skip, elem_of_sort_by, list_elem_of_filter in H.
  destruct H as [Hq Hin]. apply String.eqb_eq in Hq. tauto.
Qed.

Lemma or_default_positive n d : (0 < d)%nat -> (0 < or_default n d)%nat.
Proof. intros H. destruct n as [[|k]|]; simpl; lia. Qed.


(** X20: a community comment that [create] accepts is stored under the
    community id of the object it was given and is among the comments that
    [get] returns for that community; what [get] returns for any other
    community is as before. *)
Theorem community_comment_create_then_get input newId now coll c coll' :
  CommunityComments.create input newId now coll = (CbOk c, coll') ->
  ci_communityId input = Some (cc_communityId c)
  /\ cc_id c = newId /\ cc_date c = now
  /\ coll' = (coll ++ [c])%list
  /\ c ∈ ok_list (CommunityComments.get (cc_communityId c) None None coll')
  /\ (forall other limit skip,
        other <> cc_communityId c ->
        CommunityComments.get other limit skip coll'
        = CommunityComments.get other limit skip coll).
Proof.
  unfold CommunityComments.create.
  destruct (ActionComments.required (ci_communityId input)) as [communityId|] eqn:Hc;
    [|discriminate].
  destruct (ActionComments.required (ci_userId input)) as [userId|]; [|discriminate].
  destruct (ActionComments.required (ci_name input)) as [name|]; [|discriminate].
  destruct (ActionComments.required (ci_email input)) as [email|]; [|discriminate].
  destruct (ActionComments.required (ci_comment input)) as [comment|]; [|discriminate].
  intros [= <- <-]. cbn [cc_communityId cc_id cc_date].
  split; [apply required_Some in Hc as [Hc _]; exact Hc|].
  split; [reflexivity|]. split; [reflexivity|].
  split; [reflexivity|]. split.
  - rewrite community_get_eq. cbn [ok_list q_limit q_skip].
    apply elem_of_sort_by, list_elem_of_filter.
    split; [apply eqb_refl_true | apply elem_of_app; right; left].
  - intros other limit skip Hne. rewrite !community_get_eq.
    rewrite filter_app, filter_cons. cbn [cc_communityId].
    destruct (decide (String.eqb communityId other = true)) as [E|_].
    + apply String.eqb_eq in E. congruence.
    + rewrite app_nil_r. reflexivity.
Qed.

End CommunityCommentFacts.

Section CommunityCommentRoutes.
Import CommunityComments CommunityRoutes.

Lemma community_comment_create_then_get_witness :
  exists c coll',
    CommunityComments.create posted_comment "555f0163688305b57c7cef72" 30
      [stored_comment "555f0163688305b57c7cef6d" 10] = (CbOk c, coll')
    /\ map cc_id (ok_list (CommunityComments.get "555f0163688305b57c7cef6c" None None coll'))
       = ["555f0163688305b57c7cef72"; "555f0163688305b57c7cef6d"]
    /\ c ∈ ok_list (CommunityComments.get (cc_communityId c) None None coll').
Proof.
  eexists _, _. split; [reflexivity|]. split; [reflexivity|].
  apply (community_comment_create_then_get posted_comment "555f0163688305b57c7cef72" 30
           [stored_comment "555f0163688305b57c7cef6d" 10] _ _ eq_refl).
Defined.

Lemma community_matches_spec communityId id c :
  CommunityComments.matches communityId id c = true
  <-> cc_communityId c = communityId /\ cc_id c = id.
Proof.
  unfold CommunityComments.matches. rewrite andb_true_iff, !String.eqb_eq. reflexivity.
Qed.

(** The path [/<communityId>/comment/<commentId>] under [DELETE]. *)
Lemma dispatch_delete_comment communityId commentId :
  communityId <> "" -> commentId <> "" ->
  dispatch DELETE [communityId; "comment"; commentId]
  = Some (DeleteComment, <["commentId" := commentId]> (<["communityId" := communityId]> ∅)).
Proof.
  intros H1 H2. unfold dispatch, table, dispatch_in. cbn [method_eqb match_path].
  destruct communityId; [contradiction|]. destruct commentId; [contradiction|].
  cbn [str_truthy]. rewrite eqb_refl_true. reflexivity.
Qed.

(** X21: [DELETE /<communityId>/comment/<commentId>] reaches the delete
    handler, which answers with status 200 and the number of removed
    comments, removes the comments with that id under that community and
    no other comment, so that a comment addressed under a community that is
    not its own stays; a later read of the community no longer has the
    id. *)
Theorem delete_comment_route {store : Type} communityId commentId u (sv : @server store) :
  communityId <> "" -> commentId <> "" ->
  exists params n,
    dispatch DELETE [communityId; "comment"; commentId] = Some (DeleteComment, params)
    /\ (delete_comment {| params := params; body := tt; req_user := u |} sv).1
       = {| status := 200; sent := Json n |}
    /\ (n + length (sv_comments
                      (delete_comment {| params := params; body := tt; req_user := u |} sv).2))%nat
       = length (sv_comments sv)
    /\ (forall c,
          c ∈ sv_comments (delete_comment {| params := params; body := tt; req_user := u |} sv).2
          <-> c ∈ sv_comments sv /\ ~ (cc_communityId c = communityId /\ cc_id c = commentId))
    /\ (forall limit skip,
          Forall (fun c => cc_id c <> commentId)
            (ok_list
               (CommunityComments.get communityId limit skip
                  (sv_comments
                     (delete_comment {| params := params; body := tt; req_user := u |} sv).2)))).
Proof.
  intros H1 H2. eexists _, _. split; [apply dispatch_delete_comment; assumption|].
  unfold delete_comment, param, CommunityComments.delete. cbn [params fst snd successRes].
  rewrite lookup_insert_ne by discriminate.
  rewrite !lookup_insert_eq. cbn [default Datatypes.id fst snd sv_comments log with_comments].
  assert (Hkept : forall c,
            c ∈ filter (fun c => CommunityComments.matches communityId commentId c = false)
                  (sv_comments sv)
            <-> c ∈ sv_comments sv
                /\ ~ (cc_communityId c = communityId /\ cc_id c = commentId)).
  { intros c. rewrite list_elem_of_filter, <- community_matches_spec, not_true_iff_false.
    tauto. }
  split; [reflexivity|]. split; [apply removed_and_kept|]. split; [exact Hkept|].
  intros limit skip. apply Forall_forall. intros c Hc.
  apply elem_of_community_page in Hc as [Hc Hcid]. apply Hkept in Hc as [_ Hc].
  intros Hid. apply Hc. split; assumption.
Qed.

Lemma delete_comment_route_witness :
  exists params n,
    dispatch DELETE ["555f0163688305b57c7cef6c"; "comment"; "555f0163688305b57c7cef6d"]
    = Some (DeleteComment, params)
    /\ (delete_comment {| params := params; body := tt; req_user := jane |}
          (with_comments [stored_comment "555f0163688305b57c7cef6d" 10;
                          stored_comment "555f0163688305b57c7cef72" 30]
             (sample_server two_communities))).1
       = {| status := 200; sent := Json n |}
    /\ n = 1%nat.
Proof.
  destruct (delete_comment_route "555f0163688305b57c7cef6c" "555f0163688305b57c7cef6d" jane
              (with_comments [stored_comment "555f0163688305b57c7cef6d" 10;
                              stored_comment "555f0163688305b57c7cef72" 30]
                 (sample_server two_communities)))
    as (params & n & Hd & Hres & Hn & _); [discriminate | discriminate |].
  exists params, n. split; [exact Hd|]. split; [exact Hres|].
  injection Hd as <-. vm_compute in Hres. injection Hres as <-. reflexivity.
Defined.

End CommunityCommentRoutes.

(** ** The order of the routes *)

Section RouteOrder.
Import CommunityRoutes.

(** A path that the route [/list] matches is matched by [/:id] too. *)
Lemma list_is_an_id path params :
  match_path [Lit "list"] path ∅ = Some params ->
  match_path [Par "id"] path ∅ <> None.
Proof.
  destruct path as [|x [|y [|z path]]]; cbn [match_path].
  - discriminate.
  - destruct x as [|c x]; [discriminate|]. intros _. cbn [str_truthy]. discriminate.
  - destruct x as [|c x]; [discriminate|]. cbn [str_truthy].
    destruct (lower "list" =? lower (String c x))%string; [|discriminate].
    destruct (str_truthy y); discriminate.
  - destruct (lower "list" =? lower x)%string; discriminate.
Qed.

(** X22: no request reaches the handler of [GET /list]: a [GET] with a
    single segment, with or without a slash after it, is answered by
    the handler of [GET /:id], registered before it, with the segment as
    the id; for [/list] that handler rejects the id "list" with status
    500 and the validation-error message, and the communities of the
    user are never read. *)
Theorem list_route_unreachable :
  (forall m path r params, dispatch m path = Some (r, params) -> r <> GetList)
  /\ (forall seg, seg <> "" ->
        dispatch GET [seg] = Some (GetCommunity, {[ "id" := seg ]})
        /\ dispatch GET [seg; ""] = Some (GetCommunity, {[ "id" := seg ]}))
  /\ (forall (store community : Type) util_inspect
             (Community_getCommunityInfo : string -> store -> cbres community) u sv,
        get_community util_inspect Community_getCommunityInfo
          {| params := {[ "id" := "list" ]}; body := tt; req_user := u |} sv
        = (invalid_id_response util_inspect "id" "Invalid community id" "list", sv)).
Proof.
  split; [|split].
  - intros m path r params H. unfold dispatch, table, dispatch_in in H.
    destruct m; cbn [method_eqb] in H;
      repeat match type of H with
             | context [match match_path ?p ?x ?e with _ => _ end] =>
                 destruct (match_path p x e) eqn:?
             end;
      try discriminate H;
      try (injection H as <- _; discriminate).
    injection H as <- _. exfalso.
    match goal with
    | E : match_path [Lit "list"] path ∅ = Some _ |- _ =>
        apply list_is_an_id in E; apply E; assumption
    end.
  - intros seg Hseg. unfold dispatch, table, dispatch_in. cbn [method_eqb match_path].
    destruct seg; [contradiction|]. split; reflexivity.
  - intros store community util_inspect getInfo u sv.
    unfold get_community. cbn [params]. rewrite validationErrors_route. reflexivity.
Qed.

(** The paths [/list] and [/list/]. *)
Lemma list_route_unreachable_witness :
  dispatch GET ["list"] = Some (GetCommunity, {[ "id" := "list" ]})
  /\ dispatch GET ["list"; ""] = Some (GetCommunity, {[ "id" := "list" ]}).
Proof.
  destruct list_route_unreachable as (_ & Hid & _).
  apply (Hid "list"). discriminate.
Defined.

End RouteOrder.

(** ** More on the cooperatives *)

Section CooperativeMore.
Import Cooperatives.

Lemma update_first_same {A} (p : A -> bool) l x :
  find p l = Some x -> update_first p (fun _ => x) l = l.
Proof.
  induction l as [|z l IH]; simpl; [reflexivity|].
  destruct (p z); [intros [= ->]; reflexivity | intros H; f_equal; auto].
Qed.

Lemma update_first_twice {A} (p : A -> bool) l x y :
  p x = true ->
  update_first p (fun _ => y) (update_first p (fun _ => x) l)
  = update_first p (fun _ => y) l.
Proof.
  intros Hx. induction l as [|z l IH]; simpl; [reflexivity|].
  destruct (p z) eqn:E; simpl; [rewrite Hx | rewrite E, IH]; reflexivity.
Qed.

Lemma set_actions_own c : set_actions (cp_actions c) c = c.
Proof. destruct c; reflexivity. Qed.

Lemma save_back c c' coll :
  find (coop_by_id (cp_id c)) coll = Some c -> cp_id c' = cp_id c ->
  save c (save c' coll) = coll.
Proof.
  intros Hf Hid. unfold save. rewrite Hid.
  rewrite update_first_twice.
  - apply update_first_same. exact Hf.
  - rewrite Hid. apply eqb_refl_true.
Qed.

Lemma actions_id_last actionId l x :
  actionId ∉ map ca_id l -> ca_id x = actionId ->
  actions_id actionId (l ++ [x]) = Some x.
Proof.
  unfold actions_id. induction l as [|a l IH]; simpl; intros Hout Hx.
  - rewrite Hx, eqb_refl_true. reflexivity.
  - apply not_elem_of_cons in Hout as [Hne Hout].
    rewrite (eqb_neq_false (ca_id a) actionId) by congruence. auto.
Qed.

Lemma pull_last actionId l x :
  actionId ∉ map ca_id l -> ca_id x = actionId -> pull actionId (l ++ [x]) = l.
Proof.
  intros Hout Hx. unfold pull. rewrite filter_app, filter_cons.
  fold (pull actionId l). rewrite (pull_absent _ _ Hout).
  destruct (decide (String.eqb (ca_id x) actionId = false)) as [E|_].
  - apply String.eqb_neq in E. contradiction.
  - apply app_nil_r.
Qed.

(** X23: adding an action under an id that the cooperative does not have
    yet and deleting it again gives back the cooperative and the whole
    collection as they were. *)
Theorem add_then_delete id coll c action freshId :
  find (coop_by_id id) coll = Some c ->
  cai_id action = None ->
  freshId ∉ action_ids c ->
  deleteAction id freshId (addAction id action freshId coll).2 = (CbOk c, coll).
Proof.
  intros Hf Hnone Hfresh.
  assert (Hid : cp_id c = id).
  { apply find_Some_true in Hf. apply String.eqb_eq in Hf. exact Hf. }
  unfold addAction. fold (coop_by_id id). rewrite Hf. cbn [snd].
  set (x := cast freshId action).
  assert (Hx : ca_id x = freshId) by (unfold x, cast; rewrite Hnone; reflexivity).
  set (c1 := set_actions (cp_actions c ++ [x])%list c).
  assert (Hf1 : find (coop_by_id id) (save c1 coll) = Some c1).
  { rewrite <- Hid in Hf |- *. apply find_save; [exact Hf | reflexivity]. }
  unfold deleteAction. fold (coop_by_id id). rewrite Hf1. cbn [cp_actions c1 set_actions].
  unfold c1 at 1. cbn [cp_actions set_actions].
  rewrite (actions_id_last freshId (cp_actions c) x Hfresh Hx), Hx.
  unfold c1 at 1. cbn [cp_actions set_actions].
  rewrite (pull_last freshId (cp_actions c) x Hfresh Hx).
  fold c1.
  assert (Hback : set_actions (cp_actions c) c1 = c) by (destruct c; reflexivity).
  rewrite Hback. f_equal.
  rewrite <- Hid in Hf. apply save_back; [exact Hf | reflexivity].
Qed.

Lemma add_then_delete_witness :
  deleteAction "566f0163688305b57c7cef00" "577f0163688305b57c7cef03"
    (addAction "566f0163688305b57c7cef00" insulation "577f0163688305b57c7cef03"
       [sample_cooperative]).2
  = (CbOk sample_cooperative, [sample_cooperative]).
Proof.
  apply (add_then_delete "566f0163688305b57c7cef00" [sample_cooperative] sample_cooperative
           insulation "577f0163688305b57c7cef03"); [reflexivity | reflexivity |].
  unfold action_ids; simpl. rewrite !not_elem_of_cons.
  repeat split; [discriminate | discriminate | apply not_elem_of_nil].
Defined.

End CooperativeMore.

Section CooperativeInvariants.
Import Cooperatives.

Lemma find_update_first_map {A} (p : A -> bool) f l x :
  find p l = Some x -> p (f x) = true ->
  find p (update_first p f l) = Some (f x).
Proof.
  intros Hf Hy. induction l as [|z l IH]; simpl in *; [discriminate|].
  destruct (p z) eqn:E; simpl.
  - injection Hf as ->. rewrite Hy; reflexivity.
  - rewrite E; auto.
Qed.

Lemma update_first_idem {A} (p : A -> bool) f l :
  (forall z, p z = true -> p (f z) = true /\ f (f z) = f z) ->
  update_first p f (update_first p f l) = update_first p f l.
Proof.
  intros Hpf. induction l as [|z l IH]; simpl; [reflexivity|].
  destruct (p z) eqn:E; simpl.
  - destruct (Hpf z E) as [-> ->]. reflexivity.
  - rewrite E, IH. reflexivity.
Qed.

Lemma update_first_keeps {A B} (g : A -> B) (p : A -> bool) f l :
  (forall z, g (f z) = g z) -> map g (update_first p f l) = map g l.
Proof.
  intros Hg. induction l as [|z l IH]; simpl; [reflexivity|].
  destruct (p z); simpl; [rewrite Hg | rewrite IH]; reflexivity.
Qed.

Lemma find_other {A} (p q : A -> bool) y l :
  (forall z, p z = true -> q z = false) -> q y = false ->
  find q (update_first p (fun _ => y) l) = find q l.
Proof.
  intros Hpq Hy. induction l as [|z l IH]; simpl; [reflexivity|].
  destruct (p z) eqn:E; simpl.
  - rewrite Hy, (Hpq z E). reflexivity.
  - rewrite IH. reflexivity.
Qed.

Lemma save_twice c coll : save c (save c coll) = save c coll.
Proof. unfold save. apply update_first_twice, eqb_refl_true. Qed.

Lemma get_other id id' c coll :
  cp_id c = id -> id' <> id ->
  Cooperatives.get id' (save c coll) = Cooperatives.get id' coll.
Proof.
  intros Hid Hne. unfold Cooperatives.get, save. rewrite find_other; [reflexivity| |].
  - intros z Hz. apply String.eqb_eq in Hz. apply String.eqb_neq. congruence.
  - apply String.eqb_neq. congruence.
Qed.

Lemma pull_ids actionId l :
  map ca_id (pull actionId l) = filter (fun k => k <> actionId) (map ca_id l).
Proof.
  unfold pull. induction l as [|a l IH]; simpl; [reflexivity|].
  rewrite !filter_cons.
  destruct (decide (String.eqb (ca_id a) actionId = false)) as [E|E];
    destruct (decide (ca_id a <> actionId)) as [E'|E'].
  - simpl. rewrite IH. reflexivity.
  - apply String.eqb_neq in E. contradiction.
  - exfalso. apply E. apply String.eqb_neq. exact E'.
  - exact IH.
Qed.

(** X24: an [updateAction] that succeeds keeps the ids of the
    sub-documents, in their order, and is idempotent: the same call on
    the collection it produced returns the same cooperative and leaves
    that collection as it is. *)
Theorem updateAction_idempotent id actionId newAction coll c' coll' :
  updateAction id actionId newAction coll = (CbOk c', coll') ->
  updateAction id actionId newAction coll' = (CbOk c', coll')
  /\ exists c, Cooperatives.get id coll = CbOk c /\ action_ids c' = action_ids c.
Proof.
  unfold updateAction, Cooperatives.get. fold (coop_by_id id).
  destruct (find (coop_by_id id) coll) as [c|] eqn:Hf; [|discriminate].
  assert (Hid : cp_id c = id).
  { apply find_Some_true in Hf. apply String.eqb_eq in Hf. exact Hf. }
  destruct (actions_id actionId (cp_actions c)) as [a|] eqn:Ha; [|discriminate].
  cbv zeta. intros [= <- <-].
  set (p := fun a => String.eqb (ca_id a) actionId).
  set (f := fun action =>
              {| ca_id := ca_id action; ca_name := cai_name newAction;
                 ca_description := cai_description newAction;
                 ca_date := cai_date newAction |}).
  set (c1 := set_actions (update_first p f (cp_actions c)) c).
  assert (Hf1 : find (coop_by_id id) (save c1 coll) = Some c1).
  { rewrite <- Hid in Hf |- *. apply find_save; [exact Hf | reflexivity]. }
  split.
  - rewrite Hf1. unfold actions_id. fold p.
    assert (Ha1 : find p (cp_actions c1) = Some (f a)).
    { unfold c1. cbn [cp_actions set_actions].
      apply find_update_first_map; [exact Ha|].
      apply find_Some_true in Ha. exact Ha. }
    rewrite Ha1.
    assert (Hidem : update_first p f (cp_actions c1) = cp_actions c1).
    { unfold c1. cbn [cp_actions set_actions]. apply update_first_idem.
      intros z Hz. split; [exact Hz | reflexivity]. }
    rewrite Hidem, set_actions_own, save_twice. reflexivity.
  - exists c. split; [reflexivity|].
    unfold action_ids, c1. cbn [cp_actions set_actions].
    apply update_first_keeps. reflexivity.
Qed.

Lemma updateAction_idempotent_witness :
  let coll' := (updateAction "566f0163688305b57c7cef00" "577f0163688305b57c7cef02"
                  insulation [sample_cooperative]).2 in
  exists c', updateAction "566f0163688305b57c7cef00" "577f0163688305b57c7cef02"
               insulation coll' = (CbOk c', coll')
             /\ action_ids c' = action_ids sample_cooperative.
Proof.
  cbv zeta. eexists.
  destruct (updateAction_idempotent "566f0163688305b57c7cef00" "577f0163688305b57c7cef02"
              insulation [sample_cooperative] _ _ eq_refl) as [Hagain (c & Hc & Hids)].
  split; [exact Hagain|].
  injection Hc as <-. exact Hids.
Defined.

(** X25: after a [deleteAction] that succeeds no sub-document of the
    cooperative carries the given id, also when several did; the other
    ids stay in their order, and a second [deleteAction] or an
    [updateAction] on that id reports 'Cooperative action not found'. *)
Theorem deleteAction_removes_id id actionId coll c' coll' :
  deleteAction id actionId coll = (CbOk c', coll') ->
  (actionId ∉ action_ids c')
  /\ (exists c, Cooperatives.get id coll = CbOk c
                /\ action_ids c' = filter (fun k => k <> actionId) (action_ids c))
  /\ deleteAction id actionId coll' = (CbErr "Cooperative action not found", coll')
  /\ (forall newAction,
        updateAction id actionId newAction coll'
        = (CbErr "Cooperative action not found", coll')).
Proof.
  unfold deleteAction at 1, Cooperatives.get. fold (coop_by_id id).
  destruct (find (coop_by_id id) coll) as [c|] eqn:Hf; [|discriminate].
  assert (Hid : cp_id c = id).
  { apply find_Some_true in Hf. apply String.eqb_eq in Hf. exact Hf. }
  destruct (actions_id actionId (cp_actions c)) as [a|] eqn:Ha; [|discriminate].
  assert (Haid : ca_id a = actionId).
  { apply find_Some_true in Ha. apply String.eqb_eq in Ha. exact Ha. }
  cbv zeta. rewrite Haid. intros [= <- <-].
  set (c1 := set_actions (pull actionId (cp_actions c)) c).
  assert (Hids : action_ids c1 = filter (fun k => k <> actionId) (action_ids c)).
  { unfold action_ids, c1. cbn [cp_actions set_actions]. apply pull_ids. }
  assert (Hout : actionId ∉ action_ids c1).
  { rewrite Hids. intros Hin. apply list_elem_of_filter in Hin as [Hne _].
    apply Hne. reflexivity. }
  assert (Hf1 : find (coop_by_id id) (save c1 coll) = Some c1).
  { rewrite <- Hid in Hf |- *. apply find_save; [exact Hf | reflexivity]. }
  assert (Hnone : actions_id actionId (cp_actions c1) = None).
  { apply actions_id_None. exact Hout. }
  split; [exact Hout|]. split; [exists c; split; [reflexivity | exact Hids]|].
  unfold deleteAction, updateAction. fold (coop_by_id id). rewrite Hf1, Hnone.
  split; [reflexivity | intros; reflexivity].
Qed.

Lemma deleteAction_removes_id_witness :
  let coll' := (deleteAction "566f0163688305b57c7cef00" "577f0163688305b57c7cef01"
                  [sample_cooperative]).2 in
  deleteAction "566f0163688305b57c7cef00" "577f0163688305b57c7cef01" coll'
  = (CbErr "Cooperative action not found", coll').
Proof.
  cbv zeta.
  exact (proj1 (proj2 (proj2
    (deleteAction_removes_id "566f0163688305b57c7cef00" "577f0163688305b57c7cef01"
       [sample_cooperative] _ _ eq_refl)))).
Defined.

(** X26: [addAction], [updateAction] and [deleteAction] on one
    cooperative keep the number of stored cooperatives and leave every
    cooperative with another id as [get] returned it before. *)
Theorem cooperative_frame id id' coll :
  id' <> id ->
  (forall action freshId,
      let coll' := (addAction id action freshId coll).2 in
      length coll' = length coll
      /\ Cooperatives.get id' coll' = Cooperatives.get id' coll)
  /\ (forall actionId newAction,
        let coll' := (updateAction id actionId newAction coll).2 in
        length coll' = length coll
        /\ Cooperatives.get id' coll' = Cooperatives.get id' coll)
  /\ (forall actionId,
        let coll' := (deleteAction id actionId coll).2 in
        length coll' = length coll
        /\ Cooperatives.get id' coll' = Cooperatives.get id' coll).
Proof.
  intros Hne. unfold addAction, updateAction, deleteAction. fold (coop_by_id id).
  destruct (find (coop_by_id id) coll) as [c|] eqn:Hf.
  - assert (Hid : cp_id c = id).
    { apply find_Some_true in Hf. apply String.eqb_eq in Hf. exact Hf. }
    split; [|split].
    + intros action freshId. cbn [snd]. split.
      * apply length_update_first.
      * apply (get_other id); [exact Hid | exact Hne].
    + intros actionId newAction.
      destruct (actions_id actionId (cp_actions c)); cbn [snd]; [|split; reflexivity].
      split; [apply length_update_first | apply (get_other id); [exact Hid | exact Hne]].
    + intros actionId.
      destruct (actions_id actionId (cp_actions c)); cbn [snd]; [|split; reflexivity].
      split; [apply length_update_first | apply (get_other id); [exact Hid | exact Hne]].
  - repeat split.
Qed.

Lemma cooperative_frame_witness :
  Cooperatives.get "566f0163688305b57c7cef99"
    (deleteAction "566f0163688305b57c7cef00" "577f0163688305b57c7cef01"
       [sample_cooperative]).2
  = Cooperatives.get "566f0163688305b57c7cef99" [sample_cooperative].
Proof.
  assert (Hne : "566f0163688305b57c7cef99" <> "566f0163688305b57c7cef00") by discriminate.
  exact (proj2 (proj2 (proj2
    (cooperative_frame "566f0163688305b57c7cef00" "566f0163688305b57c7cef99"
       [sample_cooperative] Hne)) "577f0163688305b57c7cef01")).
Defined.

End CooperativeInvariants.

(** ** The lists and the comments at the interface *)

Section ShownLists.
Import ActionsCtrl.

Lemma shown_set_shown type v m : shown type (set_shown type v m) = v.
Proof. destruct type; reflexivity. Qed.

Lemma shown_set_other type other v m :
  other <> type -> shown other (set_shown type v m) = shown other m.
Proof. destruct type, other; intros H; try reflexivity; contradiction. Qed.

Lemma set_shown_twice type v w m :
  set_shown type v (set_shown type w m) = set_shown type v m.
Proof. destruct type; reflexivity. Qed.

Lemma set_shown_own type m : set_shown type (shown type m) m = m.
Proof. destruct type, m; reflexivity. Qed.

Lemma showMore_eq type actions m :
  showMore type actions m
  = set_shown type (Z.min (shown type m + sNr) (size_of type actions)) m.
Proof.
  unfold showMore. cbv zeta. rewrite shown_set_shown.
  destruct (Z.ltb_spec (size_of type actions) (shown type m + sNr)) as [Hlt|Hge].
  - rewrite set_shown_twice, Z.min_r by lia. reflexivity.
  - rewrite Z.min_l by lia. reflexivity.
Qed.

Lemma showLess_eq type m :
  showLess type m = set_shown type (Z.max (shown type m - sNr) sNr) m.
Proof.
  unfold showLess. cbv zeta. rewrite shown_set_shown.
  destruct (Z.ltb_spec (shown type m - sNr) sNr) as [Hlt|Hge].
  - rewrite set_shown_twice, Z.max_r by lia. reflexivity.
  - rewrite Z.max_l by lia. reflexivity.
Qed.

(** X27: [showMore] never shows more entries than the list has, and
    lowers the number when it was above that; [showLess] never goes below
    [sNr]; both leave the numbers of the other two lists as they are. *)
Theorem show_bounds type actions m :
  shown type (showMore type actions m) <= size_of type actions
  /\ shown type (showMore type actions m) <= shown type m + sNr
  /\ (size_of type actions < shown type m ->
      shown type (showMore type actions m) < shown type m)
  /\ sNr <= shown type (showLess type m)
  /\ shown type m - sNr <= shown type (showLess type m)
  /\ (forall other, other <> type ->
        shown other (showMore type actions m) = shown other m
        /\ shown other (showLess type m) = shown other m).
Proof.
  rewrite showMore_eq, showLess_eq, !shown_set_shown.
  repeat split; try lia.
  - apply shown_set_other; assumption.
  - apply shown_set_other; assumption.
Qed.

(** X28: when at least [sNr] entries are shown and the list has [sNr]
    more, [showLess] undoes [showMore]. *)
Theorem showMore_then_showLess type actions m :
  sNr <= shown type m ->
  shown type m + sNr <= size_of type actions ->
  showLess type (showMore type actions m) = m.
Proof.
  intros Hlow Hhigh.
  rewrite showLess_eq, showMore_eq, shown_set_shown, set_shown_twice.
  rewrite Z.min_l, Z.max_l by lia.
  replace (shown type m + sNr - sNr) with (shown type m) by lia.
  apply set_shown_own.
Qed.

Lemma showMore_then_showLess_witness :
  let m := {| mn_inProgress := 2; mn_pending := 2; mn_done := 2 |} in
  let actions :=
    {| al_done := [entry "5594dbeadfbb985d0ac150c4" 40; entry "5594dbeadfbb985d0ac150c5" 10;
                   entry "5594dbeadfbb985d0ac150c6" 30; entry "5594dbeadfbb985d0ac150c7" 20];
       al_declined := []; al_na := []; al_pending := []; al_inProgress := [] |} in
  showLess Done (showMore Done actions m) = m.
Proof.
  cbv zeta. apply showMore_then_showLess; vm_compute; discriminate.
Defined.

End ShownLists.

Section Tips.
Import ActionsCtrl.
Variables isToRehearse isNotToRehearse : scope -> bool.

(** With [lastActionUsed] unset and the index within the list, a call
    goes to the action at the index and changes nothing else. *)
Lemma showNextTip_again s a :
  sc_lastActionUsed s = false ->
  js_index (sc_suggestedActions s) (sc_idx s) = Some a ->
  showNextTip isToRehearse isNotToRehearse s = emit (StateGo (fa_id a)) s.
Proof.
  intros Hu Ha. unfold showNextTip, showNextTip_then. rewrite Hu. cbv zeta. rewrite Ha.
  unfold js_index in Ha. destruct (Z.ltb_spec (sc_idx s) 0) as [|Hpos]; [discriminate|].
  apply lookup_lt_Some in Ha.
  destruct (Z.ltb_spec (sc_idx s) (Z.of_nat (length (sc_suggestedActions s))));
    [reflexivity | lia].
Qed.

Lemma iter_emit e n s :
  Nat.iter n (emit e) s
  = {| sc_toRehearse := sc_toRehearse s; sc_actions := sc_actions s;
       sc_idx := sc_idx s; sc_lastActionUsed := sc_lastActionUsed s;
       sc_suggestedActions := sc_suggestedActions s; g_actios := g_actios s;
       sc_effects := (sc_effects s ++ repeat e n)%list |}.
Proof.
  induction n as [|n IH].
  - cbn [Nat.iter nat_rect repeat]. rewrite app_nil_r. destruct s; reflexivity.
  - change (Nat.iter (S n) (emit e) s) with (emit e (Nat.iter n (emit e) s)).
    rewrite IH. unfold emit. cbn [sc_toRehearse sc_actions sc_idx sc_lastActionUsed
      sc_suggestedActions g_actios sc_effects].
    rewrite <- app_assoc. do 2 f_equal. symmetry. apply repeat_cons.
Qed.

(** X29: a tip that has not been used is shown again however often
    [showNextTip] is called: as long as [lastActionUsed] is unset and
    the index is within the list, each call goes to the same action and
    the index and the list stay as they are. Past the end of the list,
    with rehearsal on, [showNextTip] starts the rehearsal again. *)
Theorem showNextTip_repeats s n :
  sc_lastActionUsed s = false ->
  (forall a,
      js_index (sc_suggestedActions s) (sc_idx s) = Some a ->
      Nat.iter n (showNextTip isToRehearse isNotToRehearse) s
      = {| sc_toRehearse := sc_toRehearse s; sc_actions := sc_actions s;
           sc_idx := sc_idx s; sc_lastActionUsed := false;
           sc_suggestedActions := sc_suggestedActions s; g_actios := g_actios s;
           sc_effects := (sc_effects s ++ repeat (StateGo (fa_id a)) n)%list |})
  /\ (Z.of_nat (length (sc_suggestedActions s)) <= sc_idx s ->
      isToRehearse s = true ->
      showNextTip isToRehearse isNotToRehearse s = rehearseActions s).
Proof.
  intros Hu. split.
  - intros a Ha.
    transitivity (Nat.iter n (emit (StateGo (fa_id a))) s);
      [|rewrite iter_emit, Hu; reflexivity].
    induction n as [|n IH]; [reflexivity|].
    change (Nat.iter (S n) (showNextTip isToRehearse isNotToRehearse) s)
      with (showNextTip isToRehearse isNotToRehearse
              (Nat.iter n (showNextTip isToRehearse isNotToRehearse) s)).
    change (Nat.iter (S n) (emit (StateGo (fa_id a))) s)
      with (emit (StateGo (fa_id a)) (Nat.iter n (emit (StateGo (fa_id a))) s)).
    rewrite IH. apply showNextTip_again; rewrite iter_emit; [exact Hu | exact Ha].
  - intros Hend Hon. unfold showNextTip, showNextTip_then. rewrite Hu. cbv zeta.
    destruct (Z.ltb_spec (sc_idx s) (Z.of_nat (length (sc_suggestedActions s))));
      [lia|].
    unfold checkRehearse. rewrite Hon. reflexivity.
Qed.

End Tips.

Section TipsAgain.
Import ActionsCtrl.

(** After [rehearseActions] has shown the oldest of four actions, two
    more calls of [showNextTip] show it again. *)
Lemma showNextTip_repeats_witness :
  sc_effects (Nat.iter 2 (showNextTip (fun _ => true) (fun _ => false))
                (rehearseActions sample_scope))
  = (sc_effects (rehearseActions sample_scope)
     ++ [StateGo "5594dbeadfbb985d0ac150c5"; StateGo "5594dbeadfbb985d0ac150c5"])%list
  /\ sc_idx (Nat.iter 2 (showNextTip (fun _ => true) (fun _ => false))
               (rehearseActions sample_scope)) = 0.
Proof.
  destruct (showNextTip_repeats (fun _ => true) (fun _ => false)
              (rehearseActions sample_scope) 2 eq_refl) as [Hrep _].
  rewrite (Hrep (snd (entry "5594dbeadfbb985d0ac150c5" 10)) eq_refl).
  split; reflexivity.
Defined.

End TipsAgain.

Section LoadedComments.
Import ActionsCtrl.

Lemma hasMoreComments_loaded {C} actionId (data : list C) s :
  hasMoreComments actionId (loadCommentsByActionId actionId data s)
  = (nrToLoad <=? length data)%nat.
Proof.
  unfold loadCommentsByActionId, hasMoreComments. cbv zeta.
  destruct (nrToLoad <=? length data)%nat;
    cbn [setHasMoreComments setNoMoreComments cs_moreComments];
    rewrite lookup_insert_eq; reflexivity.
Qed.

Lemma hasMoreComments_other {C} actionId other (data : list C) s :
  other <> actionId ->
  hasMoreComments other (loadCommentsByActionId actionId data s)
  = hasMoreComments other s.
Proof.
  intros Hne. unfold loadCommentsByActionId, hasMoreComments. cbv zeta.
  destruct (nrToLoad <=? length data)%nat;
    cbn [setHasMoreComments setNoMoreComments cs_moreComments];
    rewrite lookup_insert_ne by congruence; reflexivity.
Qed.

(** X30: when the request of [loadCommentsByActionId] is answered with
    what the model's [get] returns for the limit [nrToLoad] and the skip
    0, the answer is appended to the comments shown; if the action is
    then marked as having no more comments, every comment of the action
    has been loaded; if it is marked as having more, exactly [nrToLoad]
    have been, whether or not there are others; the marks of the other
    actions stay. *)
Theorem load_comments_flag actionId user coll
    (s : commentsState ActionComments.aCommentObj) :
  exists data,
    ActionComments.get actionId (Some nrToLoad) (Some 0%nat) user coll = CbOk data
    /\ cs_comments (loadCommentsByActionId actionId data s) = (cs_comments s ++ data)%list
    /\ (hasMoreComments actionId (loadCommentsByActionId actionId data s) = false ->
        length data = length (filter (fun c => on_action actionId c = true) coll))
    /\ (hasMoreComments actionId (loadCommentsByActionId actionId data s) = true ->
        length data = nrToLoad)
    /\ (forall other, other <> actionId ->
          hasMoreComments other (loadCommentsByActionId actionId data s)
          = hasMoreComments other s).
Proof.
  rewrite comments_get_eq. eexists. split; [reflexivity|].
  set (data := map _ _).
  assert (Hlen : length data
                 = Nat.min nrToLoad
                     (length (filter (fun c => on_action actionId c = true) coll))).
  { unfold data, ActionComments.find_sorted.
    rewrite q_limit_positive by (unfold nrToLoad; lia). cbn [q_skip].
    rewrite length_map, length_take, drop_0, length_sort_by. reflexivity. }
  split.
  { unfold loadCommentsByActionId. cbv zeta.
    destruct (nrToLoad <=? length data)%nat; reflexivity. }
  rewrite hasMoreComments_loaded.
  split; [|split].
  - intros Hf. apply Nat.leb_gt in Hf. lia.
  - intros Ht. apply Nat.leb_le in Ht. lia.
  - intros other Hne. apply hasMoreComments_other. exact Hne.
Qed.

End LoadedComments.
